(** * fal client: request lifecycle, framed duplex channel and credentials

    A shallow embedding of [fal/apps.py] and [fal/auth/__init__.py], with the
    properties their specification states about them.

    Conventions.
    - A Python [str] is a Rocq [string], read as the UTF-8 bytes of the text;
      the separators the code looks for (slash, dash, colon) are ASCII, so the
      byte-wise operations below agree with Python's code-point-wise ones,
      and [str.encode()] is the identity on the bytes.
    - A function that can raise returns a [result]; code that reads or writes
      shared state (the HTTP server, the socket, the token file, the process
      environment) is a function from a state to a [result] and a state.
    - Definitions come first, the properties after them. *)

From stdpp Require Import base strings list gmap pretty.
From Stdlib Require Import Ascii ZArith QArith.

#[local] Set Warnings "-register-all".
#[local] Open Scope string_scope.
#[local] Open Scope list_scope.
#[local] Open Scope Z_scope.

(* ===================================================================== *)
(** * Part I: the embedding                                                *)
(* ===================================================================== *)

(** ** Python values and exceptions *)

Module Py.

(** *** String methods used by the sources (single-character separators) *)

(** [c in s] for a one-character [c]. *)
Fixpoint contains (c : ascii) (s : string) : bool :=
  match s with
  | EmptyString => false
  | String x s' => if Ascii.eqb x c then true else contains c s'
  end.

(** [s.replace(c, d, 1)]: the first occurrence only. *)
Fixpoint replace_first (c d : ascii) (s : string) : string :=
  match s with
  | EmptyString => EmptyString
  | String x s' =>
      if Ascii.eqb x c then String d s' else String x (replace_first c d s')
  end.

(** [s.split(c)]: never empty, one more part than there are separators. *)
Fixpoint split (c : ascii) (s : string) : list string :=
  match s with
  | EmptyString => [EmptyString]
  | String x s' =>
      if Ascii.eqb x c then EmptyString :: split c s'
      else match split c s' with
           | [] => [String x EmptyString]
           | p :: ps => String x p :: ps
           end
  end.

(** [s.split(c, 1)]: at most one cut, at the first separator. *)
Fixpoint split1 (c : ascii) (s : string) : list string :=
  match s with
  | EmptyString => [EmptyString]
  | String x s' =>
      if Ascii.eqb x c then [EmptyString; s']
      else match split1 c s' with
           | [] => [String x EmptyString]
           | p :: ps => String x p :: ps
           end
  end.

(** [sep.join(parts)]. *)
Fixpoint join (sep : string) (parts : list string) : string :=
  match parts with
  | [] => EmptyString
  | [p] => p
  | p :: ps => p +:+ sep +:+ join sep ps
  end.

(** Truthiness of a [str]: non-empty. *)
Definition truthy (s : string) : bool :=
  match s with EmptyString => false | String _ _ => true end.

(** *** JSON values as [json.loads] builds them

    Numbers are the integers (Python [int]); a literal with a fraction or an
    exponent decodes to a Python [float], which this development does not
    represent.  An object is the [dict] it decodes to, as its items in
    insertion order with distinct keys. *)
Inductive json : Type :=
| JNull
| JBool (b : bool)
| JInt (n : Z)
| JStr (s : string)
| JArr (items : list json)
| JObj (items : list (string * json)).

(** Lookup in the items of a [dict]. *)
Fixpoint dict_get (k : string) (d : list (string * json)) : option json :=
  match d with
  | [] => None
  | (k', v) :: d' => if String.eqb k k' then Some v else dict_get k d'
  end.

(** [k in d]. *)
Definition dict_has (k : string) (d : list (string * json)) : bool :=
  match dict_get k d with Some _ => true | None => false end.

(** Python's [==] on decoded values: [bool] is a subclass of [int], so
    [True == 1] and [False == 0]; lists compare element-wise; dicts compare
    as maps, whatever the insertion order. *)
Definition bool_int (b : bool) : Z := if b then 1 else 0.

Fixpoint py_eq (a b : json) {struct a} : bool :=
  match a, b with
  | JNull, JNull => true
  | JBool x, JBool y => Bool.eqb x y
  | JBool x, JInt y => bool_int x =? y
  | JInt x, JBool y => x =? bool_int y
  | JInt x, JInt y => x =? y
  | JStr x, JStr y => String.eqb x y
  | JArr xs, JArr ys =>
      (fix all2 (xs : list json) (ys : list json) {struct xs} : bool :=
         match xs, ys with
         | [], [] => true
         | x :: xs', y :: ys' => py_eq x y && all2 xs' ys'
         | _, _ => false
         end) xs ys
  | JObj xs, JObj ys =>
      (length xs =? length ys)%nat &&
      (fix sub (xs : list (string * json)) {struct xs} : bool :=
         match xs with
         | [] => true
         | (k, v) :: xs' =>
             match dict_get k ys with
             | Some w => py_eq v w && sub xs'
             | None => false
             end
         end) xs
  | _, _ => false
  end.

(** Subscription [v[k]] with a string key: only a [dict] accepts it. *)
Inductive subscript_failure := NoSuchKey | NotSubscriptable.

Definition subscript (v : json) (k : string) : json + subscript_failure :=
  match v with
  | JObj d => match dict_get k d with Some x => inl x | None => inr NoSuchKey end
  | _ => inr NotSubscriptable
  end.

(** *** The decoder

    [json.loads] belongs to the Python standard library, not to the
    repository: the embedding takes it as an interface.  [None] stands for
    [json.JSONDecodeError]. *)
Class Decoder := loads : string -> option json.

(** *** Exceptions *)

(** The text of an f-string: literal pieces and formatted values. *)
Inductive fpart :=
| Lit (s : string)
| Fmt (v : json).

(** An HTTP response as the code reads it: [status_code], the value of
    [headers["Content-Type"]] when the header is there, and [text]. *)
Record response := Response {
  status_code : Z;
  content_type : option string;
  text : string
}.

(** The message of an [httpx.HTTPStatusError]: the one [raise_for_status]
    writes (the library's own wording), or one given by the caller. *)
Inductive status_message :=
| LibraryMessage
| Message (s : string).

Inductive exn :=
| ValueError (msg : list fpart)
| JSONDecodeError
| KeyError (key : string)
| TypeError
| IndexError
| AttributeError
| ImportError
| HTTPStatusError (msg : status_message) (resp : response)
| TransportError
| ConnectionClosed
| UnauthenticatedException
| FalServerlessException (msg : string)
| InvalidTokenError
| MetaMessageFound
| KeyboardInterrupt.

(** [isinstance(e, Exception)]: everything above but [KeyboardInterrupt],
    which derives from [BaseException] only. *)
Definition is_Exception (e : exn) : bool :=
  match e with KeyboardInterrupt => false | _ => true end.

(** [isinstance(e, ValueError)]: [JSONDecodeError] is a subclass. *)
Definition is_ValueError (e : exn) : bool :=
  match e with ValueError _ | JSONDecodeError => true | _ => false end.

(** What running a piece of code gives: a value, an exception, or
    [Unfinished] when a [while True] loop was cut after the number of
    iterations it was allowed (its fuel); no handler catches [Unfinished]. *)
Inductive result (A : Type) :=
| Ok (a : A)
| Raise (e : exn)
| Unfinished.
Arguments Ok {A} a.
Arguments Raise {A} e.
Arguments Unfinished {A}.

(** [v[k]] as an expression that may raise. *)
Definition getitem (v : json) (k : string) : result json :=
  match subscript v k with
  | inl x => Ok x
  | inr NoSuchKey => Raise (KeyError k)
  | inr NotSubscriptable => Raise TypeError
  end.

(** *** Code with effects: a state and a result *)

Definition M (S A : Type) : Type := S -> result A * S.

Definition ret {S A} (a : A) : M S A := fun s => (Ok a, s).
Definition raise {S A} (e : exn) : M S A := fun s => (Raise e, s).
Definition lift {S A} (r : result A) : M S A := fun s => (r, s).

Definition bind {S A B} (m : M S A) (k : A -> M S B) : M S B :=
  fun s => match m s with
           | (Ok a, s') => k a s'
           | (Raise e, s') => (Raise e, s')
           | (Unfinished, s') => (Unfinished, s')
           end.

(** [try: m  except <handles>: h]. *)
Definition try_except {S A} (m : M S A) (handles : exn -> bool)
    (h : exn -> M S A) : M S A :=
  fun s => match m s with
           | (Ok a, s') => (Ok a, s')
           | (Raise e, s') => if handles e then h e s' else (Raise e, s')
           | (Unfinished, s') => (Unfinished, s')
           end.

End Py.

Declare Scope py_scope.
Delimit Scope py_scope with py.
Notation "x <- m ;; k" := (Py.bind m (fun x => k))
  (at level 100, m at next level, right associativity) : py_scope.
Notation "m ;; k" := (Py.bind m (fun _ => k))
  (at level 100, right associativity) : py_scope.

(** ** fal/apps.py: request handles *)

Module Apps.
Import Py.
#[local] Open Scope py_scope.

(** [fal.flags] is outside the two modules embedded here: the host name
    the URL formats are built from is taken as given. *)
Class Flags := FAL_RUN_HOST : string.

Section apps.
Context {D : Decoder} {F : Flags}.

Definition _QUEUE_URL_FORMAT (app_id : string) : string :=
  "https://queue." +:+ FAL_RUN_HOST +:+ "/" +:+ app_id.

Definition _backwards_compatible_app_id (app_id : string) : string :=
  if negb (contains "/" app_id) then replace_first "-" "/" app_id
  else app_id.

Inductive Status :=
| Queued (position : json)
| InProgress (logs : json)
| Completed (logs : json).

Definition is_Completed (s : Status) : bool :=
  match s with Completed _ => true | _ => false end.

(** [_creds] is kept as the headers [to_headers()] gives; [_client] is the
    process-wide HTTP client, here the [world] the methods run in. *)
Record RequestHandle := Handle {
  app_id : string;
  request_id : string;
  _creds : list (string * string)
}.

(** [__post_init__]: [parts[0]] raises [IndexError] on an empty list. *)
Definition __post_init__ (self : RequestHandle) : result RequestHandle :=
  let app_id := _backwards_compatible_app_id (app_id self) in
  let parts := take 3 (split "/" app_id) in
  match parts with
  | [] => Raise IndexError
  | p0 :: _ =>
      let parts := if negb (String.eqb p0 "workflows") then take 2 parts
                   else parts in
      Ok (Handle (join "/" parts) (request_id self) (_creds self))
  end.

(** [RequestHandle(app_id=..., request_id=..., _creds=...)]. *)
Definition new_handle (app_id request_id : string)
    (creds : list (string * string)) : result RequestHandle :=
  __post_init__ (Handle app_id request_id creds).

(** *** The HTTP client and the clock *)

Record request := Request {
  method : string;
  url : string;
  headers : list (string * string);
  params : list (string * string)
}.

Inductive event :=
| Sent (r : request)
| Slept (seconds : Q).

(** What the server does with the k-th request it receives. *)
Inductive reply :=
| Replied (r : response)
| NoReply.

Record world := World {
  server : nat -> reply;
  log : list event
}.

Definition is_Sent (e : event) : bool :=
  match e with Sent _ => true | Slept _ => false end.

Definition sent (w : world) : nat := length (filter is_Sent (log w)).

Definition record (e : event) (w : world) : world :=
  World (server w) (log w ++ [e]).

(** [self._client.get(url, headers=..., params=...)] and [.put]. *)
Definition client_send (r : request) : M world response :=
  fun w =>
    match server w (sent w) with
    | Replied resp => (Ok resp, record (Sent r) w)
    | NoReply => (Raise TransportError, record (Sent r) w)
    end.

(** [time.sleep(seconds)]. *)
Definition sleep (seconds : Q) : M world unit :=
  fun w => (Ok tt, record (Slept seconds) w).

(** [httpx.Response.is_success]. *)
Definition is_success (r : response) : bool :=
  (200 <=? status_code r) && (status_code r <=? 299).

(** [response.raise_for_status()]. *)
Definition raise_for_status (r : response) : result unit :=
  if is_success r then Ok tt else Raise (HTTPStatusError LibraryMessage r).

(** [response.json()]. *)
Definition response_json (r : response) : result json :=
  match loads (text r) with
  | Some v => Ok v
  | None => Raise JSONDecodeError
  end.

(** [response.headers["Content-Type"]]. *)
Definition content_type_header (r : response) : result string :=
  match content_type r with
  | Some v => Ok v
  | None => Raise (KeyError "Content-Type")
  end.

(** *** [RequestHandle.status] *)
Definition status_request (self : RequestHandle) (logs : bool) : request :=
  let url := _QUEUE_URL_FORMAT (app_id self)
             +:+ "/requests/" +:+ request_id self +:+ "/status/" in
  Request "GET" url (_creds self) [("logs", if logs then "1" else "0")].

Definition status (self : RequestHandle) (logs : bool) : M world Status :=
  response <- client_send (status_request self logs);;
  _ <- lift (raise_for_status response);;
  data <- lift (response_json response);;
  if status_code response =? 200 then
    l <- lift (getitem data "logs");;
    ret (Completed l)
  else
    st <- lift (getitem data "status");;
    if py_eq st (JStr "IN_QUEUE") then
      p <- lift (getitem data "queue_position");;
      ret (Queued p)
    else if py_eq st (JStr "IN_PROGRESS") then
      l <- lift (getitem data "logs");;
      ret (InProgress l)
    else
      raise (ValueError [Lit "Unknown status: "; Fmt st]).

(** *** [RequestHandle.cancel] *)
Definition cancel (self : RequestHandle) : M world unit :=
  let url := _QUEUE_URL_FORMAT (app_id self)
             +:+ "/requests/" +:+ request_id self +:+ "/cancel" in
  response <- client_send (Request "PUT" url (_creds self) []);;
  lift (raise_for_status response).

(** *** [RequestHandle.iter_events]

    A generator: calling it runs nothing; each [next] runs the body up to
    the following [yield], or to the [return].  [Created] is the generator
    before its first [next], [Suspended] the generator stopped at its
    [yield], [Finished] the generator after [return] or an exception. *)
Inductive gen_state := Created | Suspended | Finished.

Record generator := Generator {
  gen_self : RequestHandle;
  gen_logs : bool;
  gen_poll_delay : Q;
  gen_state_of : gen_state
}.

Definition default_logs : bool := false.
Definition default_poll_delay : Q := 0.2%Q.

Definition iter_events (self : RequestHandle) (logs : option bool)
    (__poll_delay : option Q) : generator :=
  Generator self (default default_logs logs)
            (default default_poll_delay __poll_delay) Created.

Definition at_state (g : generator) (s : gen_state) : generator :=
  Generator (gen_self g) (gen_logs g) (gen_poll_delay g) s.

(** From the top of the [while True] body to the [yield] or the [return]:
    [Ok None] is [StopIteration]. *)
Definition poll (g : generator) (w : world)
    : result (option Status) * generator * world :=
  match status (gen_self g) (gen_logs g) w with
  | (Ok s, w') =>
      if is_Completed s then (Ok None, at_state g Finished, w')
      else (Ok (Some s), at_state g Suspended, w')
  | (Raise e, w') => (Raise e, at_state g Finished, w')
  | (Unfinished, w') => (Unfinished, g, w')
  end.

(** [next(g)]: a suspended generator resumes after its [yield], that is
    with [time.sleep(__poll_delay)], and goes round the loop. *)
Definition next (g : generator) (w : world)
    : result (option Status) * generator * world :=
  match gen_state_of g with
  | Created => poll g w
  | Suspended => poll g (snd (sleep (gen_poll_delay g) w))
  | Finished => (Ok None, g, w)
  end.

(** [for event in g: acc.append(event)], cut after [fuel] rounds: how the
    loop ended, and what [acc] holds then. *)
Fixpoint collect (fuel : nat) (g : generator) (acc : list Status) (w : world)
    : result unit * list Status * generator * world :=
  match fuel with
  | O => (Unfinished, acc, g, w)
  | S fuel' =>
      match next g w with
      | (Ok (Some s), g', w') => collect fuel' g' (acc ++ [s]) w'
      | (Ok None, g', w') => (Ok tt, acc, g', w')
      | (Raise e, g', w') => (Raise e, acc, g', w')
      | (Unfinished, g', w') => (Unfinished, acc, g', w')
      end
  end.

(** *** [RequestHandle.fetch_result] *)
Definition result_request (self : RequestHandle) : request :=
  let url := _QUEUE_URL_FORMAT (app_id self)
             +:+ "/requests/" +:+ request_id self +:+ "/" in
  Request "GET" url (_creds self) [].

Definition fetch_result (self : RequestHandle) : M world json :=
  response <- client_send (result_request self);;
  _ <- try_except (lift (raise_for_status response))
         (fun e => match e with HTTPStatusError _ _ => true | _ => false end)
         (fun e =>
            ct <- lift (content_type_header response);;
            if negb (String.eqb ct "application/json") then raise e
            else raise (HTTPStatusError
                          (Message (pretty (status_code response) +:+ ": "
                                    +:+ text response))
                          response));;
  lift (response_json response).

(** *** [RequestHandle.get]: the events are drained, [fuel] rounds at
    most, and the result is fetched. *)
Definition get (fuel : nat) (self : RequestHandle) : M world json :=
  fun w =>
    match collect fuel (iter_events self (Some false) None) [] w with
    | (Ok _, _, _, w') => fetch_result self w'
    | (Raise e, _, _, w') => (Raise e, w')
    | (Unfinished, _, _, w') => (Unfinished, w')
    end.

End apps.
End Apps.

(** ** A reference decoder

    An instance of [Py.Decoder] for the examples: a JSON reader for the
    values [Py.json] represents.  It follows the grammar of [json.loads]
    (whitespace, the three literals, integers without leading zeros, strings
    with the one-character escapes, arrays, objects; a repeated key keeps its
    first position and its last value, as a [dict] does) and rejects what the
    embedding does not represent: numbers with a fraction or an exponent, the
    [NaN] and [Infinity] literals and [\u] escapes.  The general properties
    below hold for every decoder; only the worked examples use this one. *)

Module Json.
Import Py.

Inductive token :=
| TLBrace | TRBrace | TLBrack | TRBrack | TColon | TComma
| TStr (s : string) | TInt (n : Z) | TTrue | TFalse | TNull.

Definition code (c : ascii) : N := N_of_ascii c.

Definition is_ws (c : ascii) : bool :=
  let n := code c in ((n =? 32) || (n =? 9) || (n =? 10) || (n =? 13))%N.

Definition is_digit (c : ascii) : bool :=
  let n := code c in ((48 <=? n) && (n <=? 57))%N.

Definition digit_value (c : ascii) : Z := Z.of_N (code c) - 48.

(** The body of a string literal, after its opening quote. *)
Fixpoint lex_string (s : string) : option (string * string) :=
  match s with
  | EmptyString => None
  | String c rest =>
      if Ascii.eqb c "034" then Some (EmptyString, rest)
      else if Ascii.eqb c "\" then
        match rest with
        | String e rest' =>
            let unescaped : option ascii :=
              if Ascii.eqb e "034" then Some "034"%char
              else if Ascii.eqb e "\" then Some "\"%char
              else if Ascii.eqb e "/" then Some "/"%char
              else if Ascii.eqb e "b" then Some "008"%char
              else if Ascii.eqb e "f" then Some "012"%char
              else if Ascii.eqb e "n" then Some "010"%char
              else if Ascii.eqb e "r" then Some "013"%char
              else if Ascii.eqb e "t" then Some "009"%char
              else None in
            match unescaped, lex_string rest' with
            | Some x, Some (str, r) => Some (String x str, r)
            | _, _ => None
            end
        | EmptyString => None
        end
      else if (code c <? 32)%N then None
      else match lex_string rest with
           | Some (str, r) => Some (String c str, r)
           | None => None
           end
  end.

(** A run of digits, most significant first, added to [acc]. *)
Fixpoint lex_digits (acc : Z) (s : string) : Z * string :=
  match s with
  | String c rest =>
      if is_digit c then lex_digits (10 * acc + digit_value c) rest
      else (acc, s)
  | EmptyString => (acc, s)
  end.

(** An integer without its sign: a lone [0], or digits not starting with
    [0]; a following [.], [e] or [E] makes the literal a float or an error. *)
Definition lex_nat (s : string) : option (Z * string) :=
  match s with
  | String c rest =>
      if negb (is_digit c) then None
      else
        let '(n, r) := if Ascii.eqb c "0" then (0, rest)
                       else lex_digits (digit_value c) rest in
        match r with
        | String d _ =>
            if Ascii.eqb d "." || Ascii.eqb d "e" || Ascii.eqb d "E"
            then None else Some (n, r)
        | EmptyString => Some (n, r)
        end
  | EmptyString => None
  end.

Fixpoint strip_prefix (p s : string) : option string :=
  match p, s with
  | EmptyString, _ => Some s
  | String a p', String b s' => if Ascii.eqb a b then strip_prefix p' s' else None
  | String _ _, EmptyString => None
  end.

Fixpoint tokenize (fuel : nat) (s : string) : option (list token) :=
  match fuel with
  | O => None
  | S fuel' =>
      match s with
      | EmptyString => Some []
      | String c rest =>
          let one (t : token) := cons t <$> tokenize fuel' rest in
          if is_ws c then tokenize fuel' rest
          else if Ascii.eqb c "{" then one TLBrace
          else if Ascii.eqb c "}" then one TRBrace
          else if Ascii.eqb c "[" then one TLBrack
          else if Ascii.eqb c "]" then one TRBrack
          else if Ascii.eqb c ":" then one TColon
          else if Ascii.eqb c "," then one TComma
          else if Ascii.eqb c "034" then
            '(str, r) ← lex_string rest; cons (TStr str) <$> tokenize fuel' r
          else if Ascii.eqb c "-" then
            '(n, r) ← lex_nat rest; cons (TInt (- n)) <$> tokenize fuel' r
          else if is_digit c then
            '(n, r) ← lex_nat s; cons (TInt n) <$> tokenize fuel' r
          else
            match strip_prefix "true" s, strip_prefix "false" s,
                  strip_prefix "null" s with
            | Some r, _, _ => cons TTrue <$> tokenize fuel' r
            | _, Some r, _ => cons TFalse <$> tokenize fuel' r
            | _, _, Some r => cons TNull <$> tokenize fuel' r
            | _, _, _ => None
            end
      end
  end.

(** [d[k] = v] on the items of a [dict]. *)
Fixpoint dict_set (k : string) (v : json) (d : list (string * json))
    : list (string * json) :=
  match d with
  | [] => [(k, v)]
  | (k', v') :: d' =>
      if String.eqb k k' then (k, v) :: d' else (k', v') :: dict_set k v d'
  end.

Fixpoint p_value (fuel : nat) (ts : list token) : option (json * list token) :=
  match fuel with
  | O => None
  | S fuel' =>
      match ts with
      | TNull :: r => Some (JNull, r)
      | TTrue :: r => Some (JBool true, r)
      | TFalse :: r => Some (JBool false, r)
      | TInt n :: r => Some (JInt n, r)
      | TStr s :: r => Some (JStr s, r)
      | TLBrack :: TRBrack :: r => Some (JArr [], r)
      | TLBrack :: r => '(xs, r') ← p_elements fuel' r; Some (JArr xs, r')
      | TLBrace :: TRBrace :: r => Some (JObj [], r)
      | TLBrace :: r => '(d, r') ← p_members fuel' [] r; Some (JObj d, r')
      | _ => None
      end
  end
with p_elements (fuel : nat) (ts : list token)
    : option (list json * list token) :=
  match fuel with
  | O => None
  | S fuel' =>
      '(v, r) ← p_value fuel' ts;
      match r with
      | TComma :: r' => '(vs, r'') ← p_elements fuel' r'; Some (v :: vs, r'')
      | TRBrack :: r' => Some ([v], r')
      | _ => None
      end
  end
with p_members (fuel : nat) (d : list (string * json)) (ts : list token)
    : option (list (string * json) * list token) :=
  match fuel with
  | O => None
  | S fuel' =>
      match ts with
      | TStr k :: TColon :: r =>
          '(v, r') ← p_value fuel' r;
          match r' with
          | TComma :: r'' => p_members fuel' (dict_set k v d) r''
          | TRBrace :: r'' => Some (dict_set k v d, r'')
          | _ => None
          end
      | _ => None
      end
  end.

Definition decode (s : string) : option json :=
  ts ← tokenize (S (String.length s)) s;
  '(v, r) ← p_value (2 * length ts + 2) ts;
  match r with [] => Some v | _ => None end.

#[export] Instance reference_decoder : Decoder := decode.

(** The text of a value, in the layout of [json.dumps]; meant for values
    whose strings are printable ASCII (only the quote and the backslash are
    escaped). *)
Definition quote : string := String "034" EmptyString.

Fixpoint escape (s : string) : string :=
  match s with
  | EmptyString => EmptyString
  | String c rest =>
      if Ascii.eqb c "034" || Ascii.eqb c "\"
      then String "\" (String c (escape rest))
      else String c (escape rest)
  end.

Fixpoint dumps (v : json) : string :=
  match v with
  | JNull => "null"
  | JBool true => "true"
  | JBool false => "false"
  | JInt n => pretty n
  | JStr s => quote +:+ escape s +:+ quote
  | JArr xs => "[" +:+ join ", " (map dumps xs) +:+ "]"
  | JObj d =>
      "{" +:+ join ", "
        (map (fun kv => quote +:+ escape (fst kv) +:+ quote +:+ ": "
                        +:+ dumps (snd kv)) d) +:+ "}"
  end.

End Json.

(** ** fal/apps.py: the framed duplex channel *)

Module WS.
Import Py.
#[local] Open Scope py_scope.

(** What [Connection.recv()] returns: a [str] for a text frame, [bytes] for
    a binary one. *)
Inductive frame :=
| Text (s : string)
| Binary (b : list Byte.byte).

(** [_ws] is the socket, as the frames it still has to deliver; reading
    past the last one raises [ConnectionClosed]. *)
Record _WSConnection := Conn {
  _ws : list frame;
  _buffer : option frame
}.

(** [part.encode()]: the UTF-8 bytes of the text. *)
Definition encode (s : string) : list Byte.byte := String.list_byte_of_string s.

Section ws.
Context {D : Decoder}.

Definition ws_recv : M _WSConnection frame :=
  fun c =>
    match _ws c with
    | [] => (Raise ConnectionClosed, c)
    | f :: rest => (Ok f, Conn rest (_buffer c))
    end.

Definition _peek : M _WSConnection frame :=
  fun c =>
    match _buffer c with
    | None =>
        match ws_recv c with
        | (Ok f, c') => (Ok f, Conn (_ws c') (Some f))
        | (Raise e, c') => (Raise e, c')
        | (Unfinished, c') => (Unfinished, c')
        end
    | Some f => (Ok f, c)
    end.

Definition _consume : M _WSConnection unit :=
  fun c =>
    match _buffer c with
    | None => (Raise (ValueError [Lit "No data to consume"]), c)
    | Some _ => (Ok tt, Conn (_ws c) None)
    end.

(** [with self._recv() as res: body]: the frame is consumed only when the
    body ends without raising. *)
Definition _recv {A} (body : frame -> M _WSConnection A)
    : M _WSConnection A :=
  res <- _peek;;
  a <- body res;;
  _ <- _consume;;
  ret a.

(** [json.loads(res)]; given [bytes], it reads them as UTF-8 text. *)
Definition json_loads (res : frame) : result json :=
  let s := match res with
           | Text s => s
           | Binary b => String.string_of_list_byte b
           end in
  match loads s with
  | Some v => Ok v
  | None => Raise JSONDecodeError
  end.

Definition _is_meta (res : frame) : bool :=
  match res with
  | Binary _ => false
  | Text _ =>
      match json_loads res with
      | Ok (JObj json_payload) =>
          dict_has "type" json_payload && dict_has "request_id" json_payload
      | _ => false
      end
  end.

(** [json_payload.get(k)] on a decoded value. *)
Definition dict_get_or_None (v : json) (k : string) : result json :=
  match v with
  | JObj d => Ok (default JNull (dict_get k d))
  | _ => Raise AttributeError
  end.

Definition _recv_meta (type : string) : M _WSConnection json :=
  _recv (fun res =>
    if negb (_is_meta res) then
      raise (ValueError [Lit "Expected a "; Lit type; Lit " message"])
    else
      json_payload <- lift (json_loads res);;
      t <- lift (dict_get_or_None json_payload "type");;
      if negb (py_eq t (JStr type)) then
        raise (ValueError [Lit "Expected a "; Lit type; Lit " message"])
      else ret json_payload).

(** [for part in self._recv_response(): acc = body acc part], cut after
    [fuel] rounds of the generator's [while True].  A round ends the loop
    ([None]) when the frame in the buffer is a control frame, which stays in
    the buffer; otherwise the frame is handed to the loop body at the
    [yield] and consumed when the generator is resumed. *)
Fixpoint _recv_response {A} (fuel : nat) (body : A -> frame -> A) (acc : A)
    : M _WSConnection A :=
  match fuel with
  | O => fun c => (Unfinished, c)
  | S fuel' =>
      round <- try_except
        (_recv (fun res =>
           if _is_meta res then raise MetaMessageFound
           else ret (Some (body acc res))))
        (fun e => match e with MetaMessageFound => true | _ => false end)
        (fun _ => ret None);;
      match round with
      | None => ret acc
      | Some acc' => _recv_response fuel' body acc'
      end
  end.

(** The body of the [for] loop of [recv]. *)
Definition append_part (response : list Byte.byte) (part : frame) : list Byte.byte :=
  match part with
  | Text s => response ++ encode s
  | Binary b => response ++ b
  end.

Definition recv (fuel : nat) : M _WSConnection (list Byte.byte) :=
  start <- _recv_meta "start";;
  request_id <- lift (getitem start "request_id");;
  response <- _recv_response fuel append_part [];;
  end_ <- _recv_meta "end";;
  end_id <- lift (getitem end_ "request_id");;
  if negb (py_eq end_id request_id) then
    raise (ValueError [Lit "Mismatched request_id in end message"])
  else ret response.

End ws.
End WS.

(** ** fal/auth/__init__.py: credentials *)

Module Auth.
Import Py.
#[local] Open Scope py_scope.

(** *** The notebook secret and the API key *)

(** [str.strip()] removes the characters of [str.isspace()] from both ends.
    A text is held as its UTF-8 bytes, so a white-space character is one
    byte (tab to carriage return, the separators 28 to 31, the space), two
    bytes (U+0085, U+00A0) or three (U+1680, U+2000 to U+200A, U+2028,
    U+2029, U+202F, U+205F, U+3000). *)
Definition is_space (c : ascii) : bool :=
  let n := N_of_ascii c in
  (((9 <=? n) && (n <=? 13)) || ((28 <=? n) && (n <=? 32)))%N.

Definition is_space2 (a b : ascii) : bool :=
  let '(a, b) := (N_of_ascii a, N_of_ascii b) in
  ((a =? 194) && ((b =? 133) || (b =? 160)))%N.

Definition is_space3 (a b c : ascii) : bool :=
  let '(a, b, c) := (N_of_ascii a, N_of_ascii b, N_of_ascii c) in
  (((a =? 225) && (b =? 154) && (c =? 128))
   || ((a =? 226) && (b =? 128)
       && (((128 <=? c) && (c <=? 138)) || (c =? 168) || (c =? 169)
           || (c =? 175)))
   || ((a =? 226) && (b =? 129) && (c =? 159))
   || ((a =? 227) && (b =? 128) && (c =? 128)))%N.

(** The bytes after the first character, when it is white space. *)
Definition after_space (s : list ascii) : option (list ascii) :=
  match s with
  | a :: r1 =>
      if is_space a then Some r1
      else match r1 with
           | b :: r2 =>
               if is_space2 a b then Some r2
               else match r2 with
                    | c :: r3 => if is_space3 a b c then Some r3 else None
                    | [] => None
                    end
           | [] => None
           end
  | [] => None
  end.

(** The same from the end: the bytes, last first, before the last
    character, when it is white space. *)
Definition before_space (s : list ascii) : option (list ascii) :=
  match s with
  | c :: r1 =>
      if is_space c then Some r1
      else match r1 with
           | b :: r2 =>
               if is_space2 b c then Some r2
               else match r2 with
                    | a :: r3 => if is_space3 a b c then Some r3 else None
                    | [] => None
                    end
           | [] => None
           end
  | [] => None
  end.

(** Dropping white space for as long as there is some; a text has no more
    white-space characters than bytes. *)
Fixpoint drop_spaces (drop : list ascii -> option (list ascii)) (fuel : nat)
    (s : list ascii) : list ascii :=
  match fuel with
  | O => s
  | S fuel' =>
      match drop s with
      | Some rest => drop_spaces drop fuel' rest
      | None => s
      end
  end.

Definition lstrip (s : string) : string :=
  let bytes := String.list_ascii_of_string s in
  String.string_of_list_ascii (drop_spaces after_space (List.length bytes) bytes).

Definition rstrip (s : string) : string :=
  let bytes := rev (String.list_ascii_of_string s) in
  String.string_of_list_ascii
    (rev (drop_spaces before_space (List.length bytes) bytes)).

Definition strip (s : string) : string := rstrip (lstrip s).

(** [GoogleColabState], without its lock: the code below runs one caller
    at a time; the lock is in the model of concurrent callers, [Colab]. *)
Record GoogleColabState := ColabState {
  is_checked : bool;
  secret : option string
}.

(** What the process sees outside the module: the environment variables,
    the key of the persisted configuration ([Config().get("key")]), whether
    the interpreter is a Colab notebook ([is_google_colab()]), and the secret
    store: [None] when [google.colab.userdata] cannot be imported, else what
    the k-th call of [userdata.get("FAL_KEY")] does.  [lookups] counts the
    calls made so far. *)
Record env := Env {
  environ : gmap string string;
  config_key : option string;
  is_google_colab : bool;
  userdata : option (nat -> result (option string));
  lookups : nat;
  _colab_state : GoogleColabState
}.

Definition ask {A} (f : env -> A) : M env A := fun w => (Ok (f w), w).

Definition set_colab_state (st : GoogleColabState) : M env unit :=
  fun w => (Ok tt, Env (environ w) (config_key w) (is_google_colab w)
                       (userdata w) (lookups w) st).

(** [userdata.get("FAL_KEY")]. *)
Definition userdata_get (get : nat -> result (option string))
    : M env (option string) :=
  fun w => (get (lookups w),
            Env (environ w) (config_key w) (is_google_colab w) (userdata w)
                (S (lookups w)) (_colab_state w)).

(** [token.strip()]: [None] has no such method. *)
Definition strip_method (token : option string) : result string :=
  match token with
  | Some s => Ok (strip s)
  | None => Raise AttributeError
  end.

Definition get_colab_token : M env (option string) :=
  colab <- ask is_google_colab;;
  if negb colab then ret None
  else
    st <- ask _colab_state;;
    if is_checked st then ret (secret st)
    else
      imported <- ask userdata;;
      match imported with
      | None => ret None
      | Some get =>
          _ <- try_except
                 (token <- userdata_get get;;
                  stripped <- lift (strip_method token);;
                  st <- ask _colab_state;;
                  set_colab_state (ColabState (is_checked st) (Some stripped)))
                 is_Exception
                 (fun _ =>
                    st <- ask _colab_state;;
                    set_colab_state (ColabState (is_checked st) None));;
          st <- ask _colab_state;;
          _ <- set_colab_state (ColabState true (secret st));;
          st <- ask _colab_state;;
          ret (secret st)
      end.

(** Truthiness of an [Optional[str]]. *)
Definition truthy_opt (o : option string) : bool :=
  match o with Some s => truthy s | None => false end.

(** [a or b], with [b] evaluated only when [a] is falsy. *)
Definition py_or (a : option string) (b : M env (option string))
    : M env (option string) :=
  if truthy_opt a then ret a else b.

(** [key_id, key_secret = parts]. *)
Definition unpack2 (parts : list string) : result (string * string) :=
  match parts with
  | [a; b] => Ok (a, b)
  | [] | [_] => Raise (ValueError [Lit "not enough values to unpack"])
  | _ => Raise (ValueError [Lit "too many values to unpack"])
  end.

(** [os.environ.get("FAL_KEY") or config.get("key") or get_colab_token()]. *)
Definition key_sources : M env (option string) :=
  env_key <- ask (fun w => environ w !! "FAL_KEY");;
  py_or env_key
    (cfg_key <- ask config_key;;
     py_or cfg_key get_colab_token).

Definition key_credentials : M env (option (string * string)) :=
  force <- ask (fun w => environ w !! "FAL_FORCE_AUTH_BY_USER");;
  if bool_decide (force = Some "1") then ret None
  else
    key <- key_sources;;
    if truthy_opt key then
      ids <- lift (unpack2 (split1 ":" (default EmptyString key)));;
      ret (Some ids)
    else
      key_id <- ask (fun w => environ w !! "FAL_KEY_ID");;
      key_secret <- ask (fun w => environ w !! "FAL_KEY_SECRET");;
      match key_id, key_secret with
      | Some i, Some s => ret (Some (i, s))
      | _, _ => ret None
      end.

(** *** The token pair *)

Inductive token_event :=
| Locked
| Unlocked
| Loaded
| Verified (access_token : string)
| Exchanged (refresh_token : string)
| Saved (refresh_token : string) (access_token : option string)
| Deleted.

(** The token file, the clock, the identity provider and what was done so
    far.  [exchange k t] is what the provider does with the k-th call of
    [auth0.refresh], made with refresh token [t]; [expiration] decodes the
    expiration claim of an access token, when it has one. *)
Record session := Session {
  token_file : option (string * option string);
  now : Z;
  expiration : string -> option Z;
  exchange : nat -> string -> result (gmap string string);
  trace : list token_event
}.

Definition note (e : token_event) (s : session) : session :=
  Session (token_file s) (now s) (expiration s) (exchange s) (trace s ++ [e]).

Definition write (f : option (string * option string)) (s : session) : session :=
  Session f (now s) (expiration s) (exchange s) (trace s).

Definition is_Exchanged (e : token_event) : bool :=
  match e with Exchanged _ => true | _ => false end.

(** The number of calls of [auth0.refresh] so far. *)
Definition exchanges (s : session) : nat :=
  length (filter is_Exchanged (trace s)).

(** Modelled from the spec: [local.load_token] is not among the sources;
    [load() -> (refresh_token | absent, access_token | absent)] reads the
    one file that holds the pair. *)
Definition load_token : M session (option string * option string) :=
  fun s =>
    (Ok match token_file s with
        | Some (r, a) => (Some r, a)
        | None => (None, None)
        end,
     note Loaded s).

(** Modelled from the spec: [local.save_token] is not among the sources;
    [save(refresh_token, access_token | absent)] overwrites the pair. *)
Definition save_token (refresh_token : string) (access_token : option string)
    : M session unit :=
  fun s => (Ok tt, note (Saved refresh_token access_token)
                     (write (Some (refresh_token, access_token)) s)).

(** Modelled from the spec: [local.delete_token] is not among the sources;
    [delete()] removes the stored pair entirely. *)
Definition delete_token : M session unit :=
  fun s => (Ok tt, note Deleted (write None s)).

(** Modelled from the spec: [local.lock_token] is not among the sources;
    [with_lock(body)] holds the file lock around [body] and releases it on
    every exit path. *)
Definition lock_token {A} (body : M session A) : M session A :=
  fun s =>
    match body (note Locked s) with
    | (r, s') => (r, note Unlocked s')
    end.

(** Modelled from the spec: [auth0.verify_access_token_expiration] is not
    among the sources; it accepts a token whose decoded expiration claim is
    in the future and raises otherwise. *)
Definition verify_access_token_expiration (access_token : string)
    : M session unit :=
  fun s =>
    (match expiration s access_token with
     | Some e => if now s <? e then Ok tt else Raise InvalidTokenError
     | None => Raise InvalidTokenError
     end,
     note (Verified access_token) s).

(** [auth0.refresh(refresh_token)]: a call to the identity provider. *)
Definition refresh (refresh_token : string) : M session (gmap string string) :=
  fun s => (exchange s (exchanges s) refresh_token,
            note (Exchanged refresh_token) s).

(** [token_data[k]]. *)
Definition item (token_data : gmap string string) (k : string) : result string :=
  match token_data !! k with
  | Some v => Ok v
  | None => Raise (KeyError k)
  end.

Definition _fetch_access_token : M session string :=
  lock_token
    (loaded <- load_token;;
     let '(refresh_token, access_token) := loaded in
     match refresh_token with
     | None => raise UnauthenticatedException
     | Some refresh_token =>
         valid <- match access_token with
                  | Some access_token =>
                      try_except
                        (_ <- verify_access_token_expiration access_token;;
                         ret (Some access_token))
                        is_Exception
                        (fun _ => ret None)
                  | None => ret None
                  end;;
         match valid with
         | Some access_token => ret access_token
         | None =>
             token_data <-
               try_except
                 (token_data <- refresh refresh_token;;
                  new_refresh <- lift (item token_data "refresh_token");;
                  new_access <- lift (item token_data "access_token");;
                  _ <- save_token new_refresh (Some new_access);;
                  ret token_data)
                 (fun _ => true)
                 (fun e => _ <- delete_token;; raise e);;
             lift (item token_data "access_token")
         end
     end).

(** *** Default credentials *)

Inductive Credentials :=
| KeyCredentials (key_id key_secret : string)
| BearerCredentials (access_token : string).

(** Modelled from the spec: [fal.sdk.get_default_credentials] is not among
    the sources; a key found by [key_credentials] is used, and only if none
    is found does resolution fall through to the bearer token of the token
    store. *)
Definition get_default_credentials : M (env * session) Credentials :=
  fun '(e, s) =>
    match key_credentials e with
    | (Ok (Some (key_id, key_secret)), e') =>
        (Ok (KeyCredentials key_id key_secret), (e', s))
    | (Ok None, e') =>
        match _fetch_access_token s with
        | (Ok t, s') => (Ok (BearerCredentials t), (e', s'))
        | (Raise x, s') => (Raise x, (e', s'))
        | (Unfinished, s') => (Unfinished, (e', s'))
        end
    | (Raise x, e') => (Raise x, (e', s))
    | (Unfinished, e') => (Unfinished, (e', s))
    end.

(** *** Vocabulary of the statements about keys *)

(** The legacy pair of environment variables, when both are set. *)
Definition legacy_pair (w : env) : option (string * string) :=
  match environ w !! "FAL_KEY_ID", environ w !! "FAL_KEY_SECRET" with
  | Some i, Some s => Some (i, s)
  | _, _ => None
  end.

(** Interactive authentication is forced. *)
Definition forced (w : env) : Prop :=
  environ w !! "FAL_FORCE_AUTH_BY_USER" = Some "1".

(** What the unpacking of a key without a colon raises. *)
Definition unpack_error : exn := ValueError [Lit "not enough values to unpack"].

(** *** Vocabulary of the statements about tokens *)

(** The session after further events, with the token file it then holds. *)
Definition later (s : session) (file : option (string * option string))
    (es : list token_event) : session :=
  Session file (now s) (expiration s) (exchange s) (trace s ++ es).

(** The stored access token is there and its expiration claim is in the
    future. *)
Definition unexpired (s : session) (access_token : option string) : bool :=
  match access_token with
  | Some a => match expiration s a with
              | Some e => now s <? e
              | None => false
              end
  | None => false
  end.

(** The check of the stored access token, when there is one. *)
Definition checked (access_token : option string) : list token_event :=
  match access_token with
  | Some a => [Verified a]
  | None => []
  end.

End Auth.

(** ** Concurrent callers of [get_colab_token]

    Several threads run [get_colab_token] on the one [_colab_state], each
    a statement at a time, in any interleaving.  A thread is at one of the
    statements of the function; [lock] is the thread that holds
    [_colab_state.lock], if any. *)

Module Colab.
Import Py Auth.

Inductive pc :=
| AtEntry
| AtLock
| AtCheck
| AtImport
| AtLookup
| AtStrip (token : option string)
| AtExcept
| AtMark
| AtReturn
| Returned (r : result (option string)).

Record config := Config {
  shared : env;
  lock : option nat;
  threads : list pc
}.

Definition with_state (st : GoogleColabState) (w : env) : env :=
  Env (environ w) (config_key w) (is_google_colab w) (userdata w) (lookups w) st.

Definition counted (w : env) : env :=
  Env (environ w) (config_key w) (is_google_colab w) (userdata w) (S (lookups w))
      (_colab_state w).

(** One statement of thread [i], standing at [p]: the new shared state,
    the new holder of the lock and the statement the thread is at next;
    [None] when the thread cannot move (it waits for the lock, its lookup
    never answers, or it has returned). *)
Definition step_thread (i : nat) (w : env) (holder : option nat) (p : pc)
    : option (env * option nat * pc) :=
  let st := _colab_state w in
  match p with
  | AtEntry =>
      Some (w, holder, if negb (is_google_colab w) then Returned (Ok None) else AtLock)
  | AtLock =>
      match holder with
      | None => Some (w, Some i, AtCheck)
      | Some _ => None
      end
  | AtCheck =>
      if is_checked st then Some (w, None, Returned (Ok (secret st)))
      else Some (w, holder, AtImport)
  | AtImport =>
      match userdata w with
      | None => Some (w, None, Returned (Ok None))
      | Some _ => Some (w, holder, AtLookup)
      end
  | AtLookup =>
      match userdata w with
      | None => None
      | Some get =>
          match get (lookups w) with
          | Ok token => Some (counted w, holder, AtStrip token)
          | Raise e =>
              if is_Exception e then Some (counted w, holder, AtExcept)
              else Some (counted w, None, Returned (Raise e))
          | Unfinished => None
          end
      end
  | AtStrip token =>
      match strip_method token with
      | Ok stripped =>
          Some (with_state (ColabState (is_checked st) (Some stripped)) w,
                holder, AtMark)
      | _ => Some (w, holder, AtExcept)
      end
  | AtExcept =>
      Some (with_state (ColabState (is_checked st) None) w, holder, AtMark)
  | AtMark =>
      Some (with_state (ColabState true (secret st)) w, holder, AtReturn)
  | AtReturn => Some (w, None, Returned (Ok (secret st)))
  | Returned _ => None
  end.

(** Thread [i] is given the processor for one statement. *)
Definition step (i : nat) (c : config) : config :=
  match threads c !! i with
  | Some p =>
      match step_thread i (shared c) (lock c) p with
      | Some (w, holder, p') => Config w holder (<[i:=p']> (threads c))
      | None => c
      end
  | None => c
  end.

(** A schedule: the threads that run, a statement each, in order. *)
Definition run (schedule : list nat) (c : config) : config :=
  foldl (fun c i => step i c) c schedule.

(** [n] threads entering the function. *)
Definition callers (n : nat) (w : env) : config :=
  Config w None (replicate n AtEntry).

(** The thread is inside the [with _colab_state.lock] block. *)
Definition critical (p : pc) : bool :=
  match p with
  | AtEntry | AtLock | Returned _ => false
  | _ => true
  end.

(** A lookup ends with an answer or an [Exception], not by an interrupt
    and not by hanging. *)
Definition completes (r : result (option string)) : bool :=
  match r with
  | Ok _ => true
  | Raise e => is_Exception e
  | Unfinished => false
  end.

(** What the first lookup leaves in the cache. *)
Definition cached (r : result (option string)) : option string :=
  match r with
  | Ok (Some token) => Some (strip token)
  | _ => None
  end.

(** A lookup is cut short by an exception that is not an [Exception]. *)
Definition interrupted (r : result (option string)) : bool :=
  match r with
  | Raise e => negb (is_Exception e)
  | _ => false
  end.

(** What the holder of the lock, standing at [p], has seen and done, when
    the process had made [n0] lookups before the callers came. *)
Definition holder_ok (n0 : nat) (w : env) (p : pc) : Prop :=
  let checked := is_checked (_colab_state w) in
  match p with
  | AtCheck => lookups w = (n0 + if checked then 1 else 0)%nat
  | AtImport | AtLookup => checked = false ∧ lookups w = n0
  | AtStrip _ | AtExcept | AtMark => checked = false ∧ lookups w = S n0
  | AtReturn => checked = true ∧ lookups w = S n0
  | AtEntry | AtLock | Returned _ => False
  end.

(** The invariant of the interleavings: the secret store is the same, the
    threads inside the block are the holder of the lock and no other, and
    the lookups made so far are those the holder or the cache account for. *)
Definition inv (n0 : nat) (store : option (nat -> result (option string)))
    (c : config) : Prop :=
  userdata (shared c) = store
  ∧ (∀ i p, threads c !! i = Some p → critical p = true ↔ lock c = Some i)
  ∧ match lock c with
    | None =>
        lookups (shared c)
        = (n0 + if is_checked (_colab_state (shared c)) then 1 else 0)%nat
    | Some i => ∃ p, threads c !! i = Some p ∧ holder_ok n0 (shared c) p
    end.

(** The state of the process after [n] calls in a row, with what they
    returned. *)
Fixpoint calls (n : nat) (w : env) : list (result (option string)) * env :=
  match n with
  | O => ([], w)
  | S n' =>
      let '(r, w1) := get_colab_token w in
      let '(rs, w2) := calls n' w1 in
      (r :: rs, w2)
  end.

End Colab.

(** ** Vocabulary of the statements about the channel *)

Module Frames.
Import Py WS.

Section frames.
Context {D : Decoder}.

(** The frames a connection will hand out, in order: the one in the
    look-ahead buffer, then those of the socket. *)
Definition incoming (c : _WSConnection) : list frame :=
  option_list (_buffer c) ++ _ws c.

(** The [type] and [request_id] of a control frame: a text frame that
    decodes to an object with both keys.  Any other frame is a data frame. *)
Definition control (f : frame) : option (json * json) :=
  match f with
  | Binary _ => None
  | Text s =>
      match loads s with
      | Some (JObj d) =>
          match dict_get "type" d, dict_get "request_id" d with
          | Some t, Some r => Some (t, r)
          | _, _ => None
          end
      | _ => None
      end
  end.

(** The bytes a data frame contributes. *)
Definition payload (f : frame) : list Byte.byte :=
  match f with
  | Text s => encode s
  | Binary b => b
  end.

Definition expected (type : string) : exn :=
  ValueError [Lit "Expected a "; Lit type; Lit " message"].

Definition mismatch : exn :=
  ValueError [Lit "Mismatched request_id in end message"].

End frames.
End Frames.

(** ** Vocabulary of the statements about polling *)

Module Polls.
Import Py Apps.

Section polls.
Context {D : Decoder} {F : Flags}.

(** What [status] makes of a reply of the server. *)
Definition answer (self : RequestHandle) (logs : bool) (r : reply)
    : result Status :=
  fst (status self logs (World (fun _ => r) [])).

(** The seconds slept, in order. *)
Definition sleeps (w : world) : list Q :=
  omap (fun e => match e with Slept d => Some d | Sent _ => None end) (log w).

(** The requests sent, in order. *)
Definition requests (w : world) : list request :=
  omap (fun e => match e with Sent r => Some r | Slept _ => None end) (log w).

(** The events of [n] further rounds of the polling loop: a sleep, then a
    status request. *)
Fixpoint rounds (n : nat) (d : Q) (r : request) : list event :=
  match n with
  | O => []
  | S n' => Slept d :: Sent r :: rounds n' d r
  end.

(** The world after further events. *)
Definition extend (w : world) (es : list event) : world :=
  World (server w) (log w ++ es).

(** The events a [next] adds before its status request: a generator
    stopped at its [yield] sleeps first. *)
Definition entry (g : generator) : list event :=
  match gen_state_of g with
  | Suspended => [Slept (gen_poll_delay g)]
  | _ => []
  end.

End polls.
End Polls.

(** ** Sample data for the worked examples *)

Module Samples.
Import Py.

Definition start_frame (id : Z) : WS.frame :=
  WS.Text (Json.dumps (JObj [("type", JStr "start"); ("request_id", JInt id)])).

Definition end_frame (id : Z) : WS.frame :=
  WS.Text (Json.dumps (JObj [("type", JStr "end"); ("request_id", JInt id)])).

(** [Start(id=7), Data("a"), Data(b"b"), End(id=end_id)] on a fresh
    connection. *)
Definition session (end_id : Z) : WS._WSConnection :=
  WS.Conn [start_frame 7; WS.Text "a"; WS.Binary [Byte.x62]; end_frame end_id]
          None.

#[export] Instance flags : Apps.Flags := "fal.run".

Definition handle : Apps.RequestHandle :=
  Apps.Handle "fal-ai/fast-sdxl" "req-1" [("Authorization", "Key id:secret")].

Definition accepted (body : json) : Apps.reply :=
  Apps.Replied (Response 202 (Some "application/json") (Json.dumps body)).

Definition done_ (body : json) : Apps.reply :=
  Apps.Replied (Response 200 (Some "application/json") (Json.dumps body)).

Definition in_queue (position : Z) : json :=
  JObj [("status", JStr "IN_QUEUE"); ("queue_position", JInt position)].

Definition in_progress : json :=
  JObj [("status", JStr "IN_PROGRESS"); ("logs", JArr [])].

(** A server whose job is queued for two polls, runs for one, and is
    complete from the fourth poll on. *)
Definition four_polls : Apps.world :=
  Apps.World
    (fun k => match k with
              | 0%nat => accepted (in_queue 2)
              | 1%nat => accepted (in_queue 1)
              | 2%nat => accepted in_progress
              | _ => done_ (JObj [("logs", JArr [])])
              end)
    [].

(** A server that answers every poll with the same reply. *)
Definition always (r : Apps.reply) : Apps.world := Apps.World (fun _ => r) [].

(** A validation error with a JSON body, declared with a charset. *)
Definition unprocessable : response :=
  Response 422 (Some "application/json; charset=utf-8")
    (Json.dumps (JObj [("detail", JStr "bad input")])).

(** A gateway error whose text is declared as JSON and is not. *)
Definition bad_gateway : response :=
  Response 502 (Some "application/json") "Bad Gateway".

(** A validation error with a JSON body, declared as such. *)
Definition rejected : response :=
  Response 422 (Some "application/json")
    (Json.dumps (JObj [("detail", JStr "bad input")])).

(** An error page. *)
Definition not_found : response := Response 404 (Some "text/html") "<h1>404</h1>".

(** A process with the given environment variables and configuration
    key, outside any notebook. *)
Definition process (vars : list (string * string)) (cfg : option string)
    : Auth.env :=
  Auth.Env (list_to_map vars) cfg false None 0 (Auth.ColabState false None).

(** A Colab notebook whose secret store gives the same outcome to every
    lookup. *)
Definition notebook (vars : list (string * string))
    (outcome : result (option string)) : Auth.env :=
  Auth.Env (list_to_map vars) None true (Some (fun _ => outcome)) 0
           (Auth.ColabState false None).

(** A session one hour into the day: the token "fresh" expires at two
    o'clock, any other token has expired or cannot be decoded. *)
Definition session_at_one (file : option (string * option string))
    (provider : nat -> string -> result (gmap string string)) : Auth.session :=
  Auth.Session file 3600
    (fun t => if String.eqb t "fresh" then Some 7200
              else if String.eqb t "stale" then Some 1800 else None)
    provider [].

(** A provider that rotates the pair. *)
Definition rotating : nat -> string -> result (gmap string string) :=
  fun _ _ => Ok {[ "refresh_token" := "r2"; "access_token" := "a2" ]}.

(** A provider that refuses every exchange. *)
Definition refusing : nat -> string -> result (gmap string string) :=
  fun _ _ => Raise (FalServerlessException "invalid_grant").

(** A provider whose answer lacks the new refresh token. *)
Definition truncated : nat -> string -> result (gmap string string) :=
  fun _ _ => Ok {[ "access_token" := "a2" ]}.

End Samples.
(** ** fal/apps.py: the rest of the duplex channel *)

Module Duplex.
Import Py WS Frames.
#[local] Open Scope py_scope.

Section duplex.
Context {D : Decoder}.

(** The body of the loop that collects what [stream] yields. *)
Definition append_frame (parts : list frame) (part : frame) : list frame :=
  parts ++ [part].

(** [_WSConnection.stream], drained by [list(...)]: the frames it has
    yielded when it returns.  The generator checks the start frame at its
    first [next], hands on what [_recv_response] yields, and looks at the end
    frame once those are exhausted. *)
Definition stream (fuel : nat) : M _WSConnection (list frame) :=
  start <- _recv_meta "start";;
  request_id <- lift (getitem start "request_id");;
  parts <- _recv_response fuel append_frame [];;
  end_ <- _recv_meta "end";;
  end_id <- lift (getitem end_ "request_id");;
  if negb (py_eq end_id request_id) then
    raise (ValueError [Lit "Mismatched request_id in end message"])
  else ret parts.

(** A method only moves forward in the frames: what is still to come
    after it is what was to come before, less some frames at the front. *)
Definition advances {A} (m : M _WSConnection A) : Prop :=
  ∀ c, ∃ k, incoming (snd (m c)) = drop k (incoming c).

(** The bytes of a list of frames, as [recv] joins them. *)
Definition joined (parts : list frame) : list Byte.byte :=
  concat (map payload parts).

(** The value of a result, transformed. *)
Definition map_result {A B} (f : A -> B) (r : result A) : result B :=
  match r with
  | Ok a => Ok (f a)
  | Raise e => Raise e
  | Unfinished => Unfinished
  end.

End duplex.
End Duplex.

(** ** fal/apps.py: the realtime connection *)

Module Realtime.
Import Py.
#[local] Open Scope py_scope.

(** [msgpack] is a library outside the repository: packing and unpacking
    are taken as an interface, over the values the caller exchanges. *)
Class Msgpack (V : Type) := {
  packb : V -> list Byte.byte;
  unpackb : list Byte.byte -> result V
}.

(** The socket of a [_RealtimeConnection], with the terminal: the frames
    still to come, the frames sent, and the lines printed. *)
Record _RealtimeConnection := Connection {
  _ws : list WS.frame;
  sent : list WS.frame;
  stdout : list string
}.

Section realtime.
Context {D : Decoder} {V : Type} {P : Msgpack V}.

Definition ws_recv : M _RealtimeConnection WS.frame :=
  fun c =>
    match _ws c with
    | [] => (Raise ConnectionClosed, c)
    | f :: rest => (Ok f, Connection rest (sent c) (stdout c))
    end.

Definition ws_send (f : WS.frame) : M _RealtimeConnection unit :=
  fun c => (Ok tt, Connection (_ws c) (sent c ++ [f]) (stdout c)).

Definition print (line : string) : M _RealtimeConnection unit :=
  fun c => (Ok tt, Connection (_ws c) (sent c) (stdout c ++ [line])).

(** [json.loads(response)]. *)
Definition json_loads (s : string) : result json :=
  match loads s with
  | Some v => Ok v
  | None => Raise JSONDecodeError
  end.

Definition send (arguments : V) : M _RealtimeConnection unit :=
  let payload := packb arguments in
  ws_send (WS.Binary payload).

(** [recv], its [while True] cut after [fuel] rounds. *)
Fixpoint recv (fuel : nat) : M _RealtimeConnection V :=
  match fuel with
  | O => fun c => (Unfinished, c)
  | S fuel' =>
      response <- ws_recv;;
      match response with
      | WS.Text response =>
          _ <- print response;;
          json_payload <- lift (json_loads response);;
          type <- lift (WS.dict_get_or_None json_payload "type");;
          if py_eq type (JStr "x-fal-error") then
            reason <- lift (getitem json_payload "reason");;
            raise (ValueError [Fmt reason])
          else recv fuel'
      | WS.Binary response => lift (unpackb response)
      end
  end.

Definition run (fuel : nat) (arguments : V) : M _RealtimeConnection V :=
  _ <- send arguments;;
  recv fuel.

(** A text frame that [recv] prints and passes over: it decodes to an
    object whose "type" is not "x-fal-error". *)
Definition notice (f : WS.frame) : option string :=
  match f with
  | WS.Text s =>
      match loads s with
      | Some (JObj d) =>
          if py_eq (default JNull (dict_get "type" d)) (JStr "x-fal-error")
          then None else Some s
      | _ => None
      end
  | WS.Binary _ => None
  end.

(** The texts of frames that are all notices. *)
Definition notices (fs : list WS.frame) : option (list string) :=
  mapM notice fs.

End realtime.
End Realtime.

(** Sample data for the realtime connection. *)

Module RealtimeSamples.
Import Py.

(** A codec that leaves the bytes as they are. *)
#[export] Instance raw : Realtime.Msgpack (list Byte.byte) := {
  packb v := v;
  unpackb b := Ok b
}.

Definition progress : WS.frame :=
  WS.Text (Json.dumps (JObj [("type", JStr "x-fal-message");
                             ("message", JStr "warming up")])).

Definition failure : WS.frame :=
  WS.Text (Json.dumps (JObj [("type", JStr "x-fal-error");
                             ("reason", JStr "RATE_LIMIT")])).

Definition fresh (frames : list WS.frame) : Realtime._RealtimeConnection :=
  Realtime.Connection frames [] [].

End RealtimeSamples.

(** ** fal/auth/__init__.py: logging in and out, and the user's access *)

Module Account.
Import Py Auth.
#[local] Open Scope py_scope.

(** [login]: [auth0.login(console)] is the interactive exchange with the
    identity provider, taken by what it returns or raises; the token is
    saved with no access token. *)
Definition login (auth0_login : result (gmap string string)) : M session unit :=
  token_data <- lift auth0_login;;
  lock_token
    (refresh_token <- lift (item token_data "refresh_token");;
     save_token refresh_token None).

(** [logout]: [auth0.revoke(refresh_token, console)] is taken by what it
    does with the token it is given. *)
Definition logout (auth0_revoke : string -> result unit) : M session unit :=
  loaded <- load_token;;
  let '(refresh_token, _) := loaded in
  match refresh_token with
  | None => raise (FalServerlessException "You're not logged in")
  | Some refresh_token =>
      _ <- lift (auth0_revoke refresh_token);;
      lock_token delete_token
  end.

(** [UserAccess]: what it has fetched so far. *)
Record UserAccess := User {
  _access_token : option string;
  _user_info : option (list (string * json));
  _exc : option exn;
  _accounts : option (list json)
}.

(** [UserAccess()]. *)
Definition new_user : UserAccess := User None None None None.

Definition get_user : M (UserAccess * session) UserAccess :=
  fun st => (Ok (fst st), st).

Definition set_user (u : UserAccess) : M (UserAccess * session) unit :=
  fun st => (Ok tt, (u, snd st)).

(** A function on the token store, run beside the [UserAccess]. *)
Definition on_session {A} (m : M session A) : M (UserAccess * session) A :=
  fun st => match m (snd st) with (r, s') => (r, (fst st, s')) end.

(** The property [access_token]. *)
Definition access_token : M (UserAccess * session) string :=
  self <- get_user;;
  match _exc self with
  | Some e => raise e
  | None =>
      match _access_token self with
      | None =>
          token <- try_except (on_session _fetch_access_token) is_Exception
                     (fun e =>
                        self <- get_user;;
                        _ <- set_user (User (_access_token self)
                                         (_user_info self) (Some e)
                                         (_accounts self));;
                        raise e);;
          self <- get_user;;
          _ <- set_user (User (Some token) (_user_info self) (_exc self)
                           (_accounts self));;
          ret token
      | Some token => ret token
      end
  end.

(** The property [bearer_token]. *)
Definition bearer_token : M (UserAccess * session) string :=
  token <- access_token;;
  ret ("Bearer " +:+ token).

(** The property [info]; [get_user_info] is [auth0.get_user_info], a call
    to the identity provider. *)
Definition info (get_user_info : string -> result (list (string * json)))
    : M (UserAccess * session) (list (string * json)) :=
  self <- get_user;;
  match _user_info self with
  | None =>
      bearer <- bearer_token;;
      user_info <- lift (get_user_info bearer);;
      self <- get_user;;
      _ <- set_user (User (_access_token self) (Some user_info) (_exc self)
                       (_accounts self));;
      ret user_info
  | Some user_info => ret user_info
  end.

(** A result that is a value or an [Exception]. *)
Definition settled {A} (r : result A) : bool :=
  match r with
  | Ok _ => true
  | Raise e => is_Exception e
  | Unfinished => false
  end.

End Account.

(** ** fal/logging/user.py *)

Module Logging.
Import Py Auth Account.
#[local] Open Scope py_scope.

(** [AddUserIdProcessor.__call__]: the processor holds a [UserAccess]; the
    event dict is changed in place and returned. *)
Definition __call__
    (get_user_info : string -> result (list (string * json)))
    (event_dict : gmap string json)
    : M (UserAccess * session) (gmap string json) :=
  user_id <- try_except
               (user_info <- info get_user_info;;
                ret (default JNull (dict_get "sub" user_info)))
               is_Exception
               (fun _ => ret JNull);;
  ret (<["usr.id" := user_id]> event_dict).

End Logging.


(* ===================================================================== *)
(** * Part II: properties                                                  *)
(* ===================================================================== *)

#[local] Open Scope py_scope.

(** ** Strings *)

Section string_facts.
Import Py.

Lemma split_nonempty c s : split c s ≠ [].
Proof.
  destruct s as [|x s]; simpl; [done|].
  destruct (Ascii.eqb x c); [done|]. by destruct (split c s).
Qed.

Lemma split_no_sep c s : contains c s = false → split c s = [s].
Proof.
  induction s as [|x s IH]; simpl; [done|].
  destruct (Ascii.eqb x c); [done|]. intros H. by rewrite (IH H).
Qed.

Lemma join_cons_cons sep p q ps :
  join sep (p :: q :: ps) = p +:+ sep +:+ join sep (q :: ps).
Proof. done. Qed.

Lemma join_split c s : join (String c EmptyString) (split c s) = s.
Proof.
  induction s as [|x s IH]; simpl split; [done|].
  destruct (Ascii.eqb_spec x c) as [->|Hne].
  - pose proof (split_nonempty c s) as Hs.
    destruct (split c s) as [|q qs] eqn:E; [done|].
    rewrite join_cons_cons, IH. done.
  - destruct (split c s) as [|q qs] eqn:E; [by destruct (split_nonempty c s)|].
    destruct qs as [|q' qs].
    + simpl in *. by rewrite IH.
    + rewrite join_cons_cons. rewrite <- IH. by rewrite join_cons_cons.
Qed.

(** After the first dash of a slash-free id has become a slash, the id has
    at most two parts. *)
Lemma split_replace_first c d s :
  c ≠ d → contains d s = false →
  (length (split d (replace_first c d s)) ≤ 2)%nat.
Proof.
  intros Hcd. induction s as [|x s IH]; simpl; [lia|].
  destruct (Ascii.eqb_spec x d) as [->|Hxd]; [done|]. intros Hs.
  destruct (Ascii.eqb_spec x c) as [->|Hxc].
  - simpl. rewrite Ascii.eqb_refl. rewrite (split_no_sep _ _ Hs). simpl. lia.
  - simpl. destruct (Ascii.eqb_spec x d); [done|].
    specialize (IH Hs). destruct (split d (replace_first c d s)); simpl in *; lia.
Qed.

Lemma replace_first_absent c d s :
  contains c s = false → replace_first c d s = s.
Proof.
  induction s as [|x s IH]; simpl; [done|].
  destruct (Ascii.eqb x c); [done|]. intros H. by rewrite IH.
Qed.

End string_facts.

(** ** Canonical app ids *)

Section canonical.
Import Py Apps.

Lemma take_take_le {A} (l : list A) n m : (n ≤ m)%nat → take n (take m l) = take n l.
Proof. intros. rewrite take_take. f_equal. lia. Qed.

Lemma post_init_parts app_id rid creds :
  __post_init__ (Handle app_id rid creds) =
  let parts := split "/" (_backwards_compatible_app_id app_id) in
  Ok (Handle (join "/" (if bool_decide (head parts = Some "workflows")
                         then take 3 parts else take 2 parts)) rid creds).
Proof.
  unfold __post_init__. simpl.
  pose proof (split_nonempty "/" (_backwards_compatible_app_id app_id)) as Hne.
  destruct (split "/" (_backwards_compatible_app_id app_id)) as [|p0 ps]; [done|].
  change (take 3 (p0 :: ps)) with (p0 :: take 2 ps). simpl head.
  destruct (String.eqb_spec p0 "workflows") as [->|Hp].
  - by rewrite bool_decide_eq_true_2.
  - rewrite bool_decide_eq_false_2 by (intros [= ?]; done).
    change (p0 :: take 2 ps) with (take 3 (p0 :: ps)).
    rewrite (proj2 (String.eqb_neq _ _) Hp). simpl negb. cbv iota.
    by rewrite take_take_le by lia.
Qed.

End canonical.

(** C7 (as the code has it). Canonical form of an app id when a
    [RequestHandle] is built: an id with no slash has its first dash replaced
    by a slash; an id whose first slash-separated part is "workflows" keeps
    its first three parts; any other id keeps its first two parts.  So
    "abc-123" becomes "abc/123", "workflows/a/b/c/d" becomes "workflows/a/b"
    and "a/b/c/d" becomes "a/b". *)
Theorem new_handle_canonical (app_id rid : string) (creds : list (string * string)) :
  (Py.contains "/" app_id = false →
     Apps.new_handle app_id rid creds
     = Py.Ok (Apps.Handle (Py.replace_first "-" "/" app_id) rid creds))
  ∧ (head (Py.split "/" app_id) = Some "workflows" →
     Apps.new_handle app_id rid creds
     = Py.Ok (Apps.Handle (Py.join "/" (take 3 (Py.split "/" app_id))) rid creds))
  ∧ (Py.contains "/" app_id = true →
     head (Py.split "/" app_id) ≠ Some "workflows" →
     Apps.new_handle app_id rid creds
     = Py.Ok (Apps.Handle (Py.join "/" (take 2 (Py.split "/" app_id))) rid creds))
  ∧ Apps.new_handle "abc-123" rid creds = Py.Ok (Apps.Handle "abc/123" rid creds)
  ∧ Apps.new_handle "workflows/a/b/c/d" rid creds
    = Py.Ok (Apps.Handle "workflows/a/b" rid creds)
  ∧ Apps.new_handle "a/b/c/d" rid creds = Py.Ok (Apps.Handle "a/b" rid creds).
Proof.
  unfold Apps.new_handle. rewrite !post_init_parts.
  split; [|split; [|split; [|by repeat split]]].
  - intros Hs. cbv zeta. unfold Apps._backwards_compatible_app_id. rewrite Hs. simpl negb. cbv iota.
    assert (Hlen := split_replace_first "-" "/" app_id ltac:(done) Hs).
    rewrite !take_ge by lia.
    destruct (bool_decide _); by rewrite join_split.
  - intros Hw. cbv zeta. unfold Apps._backwards_compatible_app_id.
    destruct (Py.contains "/" app_id) eqn:Hs; simpl negb; cbv iota.
    + by rewrite bool_decide_eq_true_2.
    + rewrite (split_no_sep _ _ Hs) in Hw. simpl in Hw. injection Hw as ->. done.
  - intros Hs Hw. cbv zeta. unfold Apps._backwards_compatible_app_id. rewrite Hs. simpl negb. cbv iota.
    by rewrite bool_decide_eq_false_2.
Qed.

Lemma new_handle_canonical_witness :
  Apps.new_handle "my-app-v2" "r1" [] = Py.Ok (Apps.Handle "my/app-v2" "r1" [])
  ∧ Apps.new_handle "workflows/u/w/x" "r1" [] = Py.Ok (Apps.Handle "workflows/u/w" "r1" [])
  ∧ Apps.new_handle "u/app/extra" "r1" [] = Py.Ok (Apps.Handle "u/app" "r1" []).
Proof.
  destruct (new_handle_canonical "my-app-v2" "r1" []) as (H1 & _).
  destruct (new_handle_canonical "workflows/u/w/x" "r1" []) as (_ & H2 & _).
  destruct (new_handle_canonical "u/app/extra" "r1" []) as (_ & _ & H3 & _).
  split; [exact (H1 eq_refl)|split; [exact (H2 eq_refl)|]].
  apply H3; [reflexivity|]. simpl. intros [=].
Defined.

(** C7, the example as the specification gives it: "workflows/a/b/c/d" does
    not become "workflows/a/b/c", which has four parts. *)
Lemma new_handle_workflows_not_four_parts :
  Apps.new_handle "workflows/a/b/c/d" "r" []
  ≠ Py.Ok (Apps.Handle "workflows/a/b/c" "r" []).
Proof. vm_compute. intros [=]. Qed.

(** ** The framed duplex channel *)

Section ws_facts.
Import Py WS Frames.
Context {D : Decoder}.

Lemma is_meta_data f : control f = None → _is_meta f = false.
Proof.
  destruct f as [s|b]; simpl; [|done]. unfold json_loads, dict_has.
  destruct (loads s) as [[| | | | |d]|]; try done.
  by destruct (dict_get "type" d), (dict_get "request_id" d).
Qed.

Lemma is_meta_ctrl f t r : control f = Some (t, r) → _is_meta f = true.
Proof.
  destruct f as [s|b]; simpl; [|done]. unfold json_loads, dict_has.
  destruct (loads s) as [[| | | | |d]|]; try done.
  by destruct (dict_get "type" d), (dict_get "request_id" d).
Qed.

(** A control frame decodes to an object that holds its two fields. *)
Lemma control_decoded f t r :
  control f = Some (t, r) →
  ∃ d, json_loads f = Ok (JObj d)
       ∧ dict_get "type" d = Some t ∧ dict_get "request_id" d = Some r.
Proof.
  destruct f as [s|b]; simpl; [|done]. unfold json_loads.
  destruct (loads s) as [[| | | | |d]|]; try done.
  destruct (dict_get "type" d) eqn:Ht, (dict_get "request_id" d) eqn:Hr; try done.
  intros [= -> ->]. eauto.
Qed.

(** Looking at the next frame moves it to the buffer. *)
Lemma peek_incoming c f fs :
  incoming c = f :: fs → _peek c = (Ok f, Conn fs (Some f)).
Proof.
  destruct c as [ws [b|]]; unfold incoming, _peek, ws_recv; simpl.
  - by intros [= -> ->].
  - intros ->. done.
Qed.

(** A [with self._recv()] block whose body only computes: the frame leaves
    the buffer when the body returns, and stays when it raises. *)
Lemma recv_block {A} (body : frame → M _WSConnection A) (r : result A) c f fs :
  incoming c = f :: fs →
  (∀ c', body f c' = (r, c')) →
  _recv body c =
    match r with
    | Ok a => (Ok a, Conn fs None)
    | _ => (r, Conn fs (Some f))
    end.
Proof.
  intros Hin Hbody. unfold _recv, bind. rewrite (peek_incoming _ _ _ Hin), Hbody.
  by destruct r.
Qed.

Lemma recv_meta_control type c f fs t r :
  incoming c = f :: fs → control f = Some (t, r) →
  _recv_meta type c =
    if py_eq t (JStr type)
    then (match json_loads f with Ok v => Ok v | _ => Raise (expected type) end,
          Conn fs None)
    else (Raise (expected type), Conn fs (Some f)).
Proof.
  intros Hin Hc. destruct (control_decoded _ _ _ Hc) as (d & Hd & Ht & Hr).
  unfold _recv_meta.
  rewrite (recv_block _
    (if py_eq t (JStr type) then Ok (JObj d) else Raise (expected type)) _ _ _ Hin).
  - rewrite Hd. by destruct (py_eq t (JStr type)).
  - intros c'. rewrite (is_meta_ctrl _ _ _ Hc). simpl negb. cbv iota.
    unfold bind, lift, ret, raise. rewrite Hd. simpl. rewrite Ht. simpl.
    by destruct (py_eq t (JStr type)).
Qed.

Lemma recv_meta_data type c f fs :
  incoming c = f :: fs → control f = None →
  _recv_meta type c = (Raise (expected type), Conn fs (Some f)).
Proof.
  intros Hin Hc. unfold _recv_meta.
  rewrite (recv_block _ (Raise (expected type)) _ _ _ Hin); [done|].
  intros c'. by rewrite (is_meta_data _ Hc).
Qed.

Lemma recv_meta_closed type c :
  incoming c = [] → _recv_meta type c = (Raise ConnectionClosed, c).
Proof.
  destruct c as [ws [b|]]; unfold incoming; simpl; [done|]. intros ->.
  reflexivity.
Qed.

(** The data frames in front of a control frame are folded into the
    accumulator; the control frame is left in the buffer. *)
Lemma recv_response_data {A} (body : A → frame → A) ds :
  ∀ fuel acc c e rest,
  incoming c = ds ++ e :: rest →
  Forall (λ f, control f = None) ds →
  is_Some (control e) →
  (length ds < fuel)%nat →
  _recv_response fuel body acc c = (Ok (foldl body acc ds), Conn rest (Some e)).
Proof.
  induction ds as [|d ds IH]; intros fuel acc c e rest Hin Hds [[t r] He] Hfuel;
    (destruct fuel as [|fuel]; [simpl in Hfuel; lia|]); simpl _recv_response.
  - unfold bind, try_except.
    rewrite (recv_block _ (Raise MetaMessageFound) _ _ _ Hin).
    + done.
    + intros c'. by rewrite (is_meta_ctrl _ _ _ He).
  - apply Forall_cons in Hds as [Hd Hds].
    unfold bind, try_except.
    rewrite (recv_block _ (Ok (Some (body acc d))) _ _ _ Hin).
    + apply IH; [done|done|eauto|simpl in Hfuel; lia].
    + intros c'. by rewrite (is_meta_data _ Hd).
Qed.

Lemma foldl_append_part ds acc :
  foldl append_part acc ds = acc ++ concat (map payload ds).
Proof.
  revert acc. induction ds as [|d ds IH]; intros acc; simpl.
  - by rewrite app_nil_r.
  - rewrite IH. destruct d; simpl; by rewrite <- app_assoc.
Qed.

End ws_facts.

Section py_eq_facts.
Import Py.

Lemma py_eq_str t s : py_eq t (JStr s) = true ↔ t = JStr s.
Proof.
  destruct t; simpl; try (split; [done|intros [=]]).
  rewrite String.eqb_eq. split; [by intros ->|by intros [= ->]].
Qed.

Lemma py_eq_str_false t s : t ≠ JStr s → py_eq t (JStr s) = false.
Proof.
  intros H. destruct (py_eq t (JStr s)) eqn:E; [|done].
  by apply py_eq_str in E.
Qed.

End py_eq_facts.

(** C2. [_WSConnection.recv] on a start control frame with request id [r],
    data frames [ds] and a following control frame [e]: when [e] is an end
    frame whose request id equals [r] the result is the bytes of [ds] in
    order, text frames encoded and binary frames as they are; when [e] is an
    end frame with another request id, or when the frame where the start or
    the end is expected is not one, a [ValueError] is raised and nothing
    more is read.  [Start(7), "a", b"b", End(7)] gives [b"ab"]; with
    [End(8)] the mismatch error is raised. *)
Theorem recv_frames :
  (∀ (D : Py.Decoder) (c : WS._WSConnection) (s e : WS.frame) (ds rest : list WS.frame)
     (r t r' : Py.json) (fuel : nat),
     Frames.incoming c = s :: ds ++ e :: rest →
     Frames.control (D:=D) s = Some (Py.JStr "start", r) →
     Forall (λ f, Frames.control (D:=D) f = None) ds →
     Frames.control (D:=D) e = Some (t, r') →
     (length ds < fuel)%nat →
     WS.recv (D:=D) fuel c =
       if Py.py_eq t (Py.JStr "end") then
         if Py.py_eq r' r
         then (Py.Ok (concat (map Frames.payload ds)), WS.Conn rest None)
         else (Py.Raise Frames.mismatch, WS.Conn rest None)
       else (Py.Raise (Frames.expected "end"), WS.Conn rest (Some e)))
  ∧ (∀ (D : Py.Decoder) (c : WS._WSConnection) (f : WS.frame) (fs : list WS.frame)
       (fuel : nat),
       Frames.incoming c = f :: fs →
       (∀ r, Frames.control (D:=D) f ≠ Some (Py.JStr "start", r)) →
       WS.recv (D:=D) fuel c
       = (Py.Raise (Frames.expected "start"), WS.Conn fs (Some f)))
  ∧ WS.recv (D:=Json.reference_decoder) 3 (Samples.session 7)
    = (Py.Ok [Byte.x61; Byte.x62], WS.Conn [] None)
  ∧ WS.recv (D:=Json.reference_decoder) 3 (Samples.session 8)
    = (Py.Raise Frames.mismatch, WS.Conn [] None).
Proof.
  split; [|split; [|split; reflexivity]].
  - intros D c s e ds rest r t r' fuel Hin Hs Hds He Hfuel.
    unfold WS.recv, Py.bind at 1.
    rewrite (recv_meta_control _ _ _ _ _ _ Hin Hs). simpl Py.py_eq. cbv iota.
    destruct (control_decoded _ _ _ Hs) as (d & -> & _ & Hr).
    unfold Py.bind at 1, Py.lift at 1, Py.getitem at 1. simpl Py.subscript. rewrite Hr.
    unfold Py.bind at 1.
    rewrite (recv_response_data _ ds fuel [] (WS.Conn (ds ++ e :: rest) None) e rest);
      [|done|done|eauto|done].
    rewrite foldl_append_part. simpl app.
    unfold Py.bind at 1.
    rewrite (recv_meta_control "end" (WS.Conn rest (Some e)) e rest t r' eq_refl He).
    destruct (Py.py_eq t (Py.JStr "end")); [|done].
    destruct (control_decoded _ _ _ He) as (d' & -> & _ & Hr').
    unfold Py.bind, Py.lift, Py.getitem. simpl Py.subscript. rewrite Hr'.
    by destruct (Py.py_eq r' r).
  - intros D c f fs fuel Hin Hf. unfold WS.recv, Py.bind at 1.
    destruct (Frames.control f) as [[t r]|] eqn:Hc.
    + rewrite (recv_meta_control _ _ _ _ _ _ Hin Hc).
      rewrite py_eq_str_false; [done|]. intros ->. by apply (Hf r).
    + by rewrite (recv_meta_data _ _ _ _ Hin Hc).
Qed.

Lemma recv_frames_witness :
  WS.recv (D:=Json.reference_decoder) 5 (WS.Conn [WS.Text "chunk"; Samples.end_frame 1; WS.Text "next"]
                     (Some (Samples.start_frame 1)))
  = (Py.Ok (WS.encode "chunk"), WS.Conn [WS.Text "next"] None)
  ∧ WS.recv (D:=Json.reference_decoder) 0
      (WS.Conn [WS.Text "chunk"; Samples.end_frame 1] None)
    = (Py.Raise (Frames.expected "start"),
       WS.Conn [Samples.end_frame 1] (Some (WS.Text "chunk"))).
Proof.
  destruct recv_frames as (Hgood & Hbad & _).
  split.
  - apply (Hgood Json.reference_decoder _ (Samples.start_frame 1)
             (Samples.end_frame 1) [WS.Text "chunk"] [WS.Text "next"]
             (Py.JInt 1) (Py.JStr "end") (Py.JInt 1) 5%nat).
    + reflexivity.
    + reflexivity.
    + repeat constructor.
    + reflexivity.
    + simpl. lia.
  - apply (Hbad Json.reference_decoder _ (WS.Text "chunk") [Samples.end_frame 1] 0%nat).
    + reflexivity.
    + intros r. vm_compute. discriminate.
Defined.

(** ** Status polls *)

Section status_facts.
Import Py Apps Polls.
Context {D : Decoder} {F : Flags}.

Lemma sent_record_Sent r w : sent (record (Sent r) w) = S (sent w).
Proof.
  unfold sent, record. simpl. rewrite filter_app, length_app. simpl. lia.
Qed.

Lemma sent_record_Slept d w : sent (record (Slept d) w) = sent w.
Proof.
  unfold sent, record. simpl. rewrite filter_app, length_app. simpl. lia.
Qed.

(** [status] sends one request and makes its result from the reply alone. *)
Lemma status_answer self logs w :
  status self logs w
  = (answer self logs (server w (sent w)),
     record (Sent (status_request self logs)) w).
Proof.
  unfold answer, status, bind, client_send, lift, ret, raise. simpl.
  destruct (server w (sent w)) as [resp|]; [|done].
  repeat case_match; simplify_eq; done.
Qed.

End status_facts.

(** C1. [RequestHandle.status] on a success response whose body decodes to
    an object: with code 200 and a "logs" entry it returns [Completed] with
    those logs; with another success code it returns [Queued] with the
    "queue_position" entry when "status" is "IN_QUEUE", [InProgress] with the
    "logs" entry when it is "IN_PROGRESS", and raises [ValueError] for any
    other status string.  In every case one request has been sent and no
    other follows. *)
Theorem status_mapping :
  (∀ (D : Py.Decoder) (F : Apps.Flags) (self : Apps.RequestHandle)
     (logs : bool) (w : Apps.world) (resp : Py.response)
     (d : list (string * Py.json)),
     Apps.server w (Apps.sent w) = Apps.Replied resp →
     Apps.is_success resp = true →
     Py.loads (Py.text resp) = Some (Py.JObj d) →
     let run := Apps.status self logs w in
     let after := Apps.record (Apps.Sent (Apps.status_request self logs)) w in
     (Py.status_code resp = 200 →
        ∀ l, Py.dict_get "logs" d = Some l →
             run = (Py.Ok (Apps.Completed l), after))
     ∧ (Py.status_code resp ≠ 200 →
        Py.dict_get "status" d = Some (Py.JStr "IN_QUEUE") →
        ∀ p, Py.dict_get "queue_position" d = Some p →
             run = (Py.Ok (Apps.Queued p), after))
     ∧ (Py.status_code resp ≠ 200 →
        Py.dict_get "status" d = Some (Py.JStr "IN_PROGRESS") →
        ∀ l, Py.dict_get "logs" d = Some l →
             run = (Py.Ok (Apps.InProgress l), after))
     ∧ (Py.status_code resp ≠ 200 →
        ∀ s, Py.dict_get "status" d = Some (Py.JStr s) →
             s ≠ "IN_QUEUE" → s ≠ "IN_PROGRESS" →
             run = (Py.Raise (Py.ValueError [Py.Lit "Unknown status: ";
                                             Py.Fmt (Py.JStr s)]), after))
     ∧ Apps.sent (snd run) = S (Apps.sent w))
  ∧ Polls.answer (D:=Json.reference_decoder) (F:=Samples.flags) Samples.handle false
      (Samples.done_ (Py.JObj [("logs", Py.JArr [])]))
    = Py.Ok (Apps.Completed (Py.JArr []))
  ∧ Polls.answer (D:=Json.reference_decoder) (F:=Samples.flags) Samples.handle false
      (Samples.accepted (Samples.in_queue 3))
    = Py.Ok (Apps.Queued (Py.JInt 3))
  ∧ Polls.answer (D:=Json.reference_decoder) (F:=Samples.flags) Samples.handle false
      (Samples.accepted (Py.JObj [("status", Py.JStr "FAILED")]))
    = Py.Raise (Py.ValueError [Py.Lit "Unknown status: ";
                               Py.Fmt (Py.JStr "FAILED")]).
Proof.
  split; [|by repeat split].
  intros D F self logs w resp d Hreply Hok Hbody run after.
  assert (Hrun : run = (Polls.answer self logs (Apps.Replied resp), after)).
  { subst run after. by rewrite status_answer, Hreply. }
  assert (Hans : Polls.answer self logs (Apps.Replied resp) =
    if Py.status_code resp =? 200 then
      match Py.dict_get "logs" d with
      | Some l => Py.Ok (Apps.Completed l)
      | None => Py.Raise (Py.KeyError "logs")
      end
    else
      match Py.dict_get "status" d with
      | Some st =>
          if Py.py_eq st (Py.JStr "IN_QUEUE") then
            match Py.dict_get "queue_position" d with
            | Some p => Py.Ok (Apps.Queued p)
            | None => Py.Raise (Py.KeyError "queue_position")
            end
          else if Py.py_eq st (Py.JStr "IN_PROGRESS") then
            match Py.dict_get "logs" d with
            | Some l => Py.Ok (Apps.InProgress l)
            | None => Py.Raise (Py.KeyError "logs")
            end
          else Py.Raise (Py.ValueError [Py.Lit "Unknown status: "; Py.Fmt st])
      | None => Py.Raise (Py.KeyError "status")
      end).
  { unfold Polls.answer, Apps.status, Py.bind, Apps.client_send, Py.lift,
      Py.ret, Py.raise, Apps.raise_for_status, Apps.response_json, Py.getitem.
    simpl. rewrite Hok, Hbody. simpl.
    destruct (Py.status_code resp =? 200); simpl;
      [by destruct (Py.dict_get "logs" d)|].
    destruct (Py.dict_get "status" d) as [st|]; simpl; [|done].
    destruct (Py.py_eq st (Py.JStr "IN_QUEUE")); simpl;
      [by destruct (Py.dict_get "queue_position" d)|].
    destruct (Py.py_eq st (Py.JStr "IN_PROGRESS")); simpl; [|done].
    by destruct (Py.dict_get "logs" d). }
  rewrite Hrun, Hans. clear Hrun Hans.
  repeat split.
  - intros ->%Z.eqb_eq l ->. done.
  - intros ->%Z.eqb_neq -> p ->. done.
  - intros ->%Z.eqb_neq -> l ->. done.
  - intros ->%Z.eqb_neq s -> Hq Hp. simpl.
    by rewrite !(proj2 (String.eqb_neq _ _)).
  - simpl. subst after. apply sent_record_Sent.
Qed.

Lemma status_mapping_witness :
  Apps.status (D:=Json.reference_decoder) (F:=Samples.flags) Samples.handle true
    (Samples.always (Samples.done_ (Py.JObj [("logs", Py.JNull)])))
  = (Py.Ok (Apps.Completed Py.JNull),
     Apps.record (Apps.Sent (Apps.status_request (F:=Samples.flags) Samples.handle true))
       (Samples.always (Samples.done_ (Py.JObj [("logs", Py.JNull)]))))
  ∧ fst (Apps.status (D:=Json.reference_decoder) (F:=Samples.flags) Samples.handle false
           (Samples.always (Samples.accepted (Samples.in_queue 5))))
    = Py.Ok (Apps.Queued (Py.JInt 5))
  ∧ fst (Apps.status (D:=Json.reference_decoder) (F:=Samples.flags) Samples.handle false
           (Samples.always (Samples.accepted Samples.in_progress)))
    = Py.Ok (Apps.InProgress (Py.JArr []))
  ∧ fst (Apps.status (D:=Json.reference_decoder) (F:=Samples.flags) Samples.handle false
           (Samples.always (Samples.accepted
              (Py.JObj [("status", Py.JStr "CANCELLED")]))))
    = Py.Raise (Py.ValueError [Py.Lit "Unknown status: ";
                               Py.Fmt (Py.JStr "CANCELLED")]).
Proof.
  destruct status_mapping as [H _].
  split; [|split; [|split]].
  - edestruct (H Json.reference_decoder Samples.flags Samples.handle true
      (Samples.always (Samples.done_ (Py.JObj [("logs", Py.JNull)]))))
      as (H1 & _); [reflexivity|reflexivity|reflexivity|].
    apply H1; reflexivity.
  - edestruct (H Json.reference_decoder Samples.flags Samples.handle false
      (Samples.always (Samples.accepted (Samples.in_queue 5))))
      as (_ & H2 & _); [reflexivity|reflexivity|reflexivity|].
    rewrite (H2 ltac:(done) eq_refl _ eq_refl). reflexivity.
  - edestruct (H Json.reference_decoder Samples.flags Samples.handle false
      (Samples.always (Samples.accepted Samples.in_progress)))
      as (_ & _ & H3 & _); [reflexivity|reflexivity|reflexivity|].
    rewrite (H3 ltac:(done) eq_refl _ eq_refl). reflexivity.
  - edestruct (H Json.reference_decoder Samples.flags Samples.handle false
      (Samples.always (Samples.accepted
         (Py.JObj [("status", Py.JStr "CANCELLED")]))))
      as (_ & _ & _ & H4 & _); [reflexivity|reflexivity|reflexivity|].
    rewrite (H4 ltac:(done) _ eq_refl ltac:(done) ltac:(done)). reflexivity.
Defined.

(** ** The lazy sequence of events *)

Section events_facts.
Import Py Apps Polls.
Context {D : Decoder} {F : Flags}.

Lemma sent_extend_entry g w : sent (extend w (entry g)) = sent w.
Proof.
  unfold entry, extend, sent. simpl. rewrite filter_app, length_app.
  destruct (gen_state_of g); simpl; lia.
Qed.

Lemma extend_extend w es es' : extend (extend w es) es' = extend w (es ++ es').
Proof. unfold extend. simpl. by rewrite <- app_assoc. Qed.

(** One [next] of a generator that is not finished: the entry events, one
    status request, and the answer decides. *)
Lemma next_answer g w :
  gen_state_of g ≠ Finished →
  next g w =
    let w' := extend w (entry g ++ [Sent (status_request (gen_self g) (gen_logs g))]) in
    match answer (gen_self g) (gen_logs g) (server w (sent w)) with
    | Ok s => if is_Completed s then (Ok None, at_state g Finished, w')
              else (Ok (Some s), at_state g Suspended, w')
    | Raise e => (Raise e, at_state g Finished, w')
    | Unfinished => (Unfinished, g, w')
    end.
Proof.
  intros Hg. unfold next, poll, entry.
  destruct (gen_state_of g) eqn:Hst; [| |done].
  - rewrite status_answer. unfold extend, record. simpl.
    by destruct (answer _ _ _).
  - rewrite status_answer. unfold sleep. simpl snd.
    rewrite sent_record_Slept. unfold extend, record. simpl.
    rewrite <- app_assoc. simpl.
    by destruct (answer _ _ _).
Qed.

Lemma sent_extend_round g r w :
  sent (extend w (entry g ++ [Sent r])) = S (sent w).
Proof.
  unfold entry, extend, sent. simpl. rewrite !filter_app, !length_app.
  destruct (gen_state_of g); simpl; lia.
Qed.

Lemma collect_completes ss :
  ∀ fuel g acc w l,
  gen_state_of g ≠ Finished →
  Forall (λ s, is_Completed s = false) ss →
  (∀ k s, ss !! k = Some s →
     answer (gen_self g) (gen_logs g) (server w (sent w + k)) = Ok s) →
  answer (gen_self g) (gen_logs g) (server w (sent w + length ss))
  = Ok (Completed l) →
  (length ss < fuel)%nat →
  collect fuel g acc w =
    (Ok tt, acc ++ ss, at_state g Finished,
     extend w (entry g
               ++ Sent (status_request (gen_self g) (gen_logs g))
                  :: rounds (length ss) (gen_poll_delay g)
                       (status_request (gen_self g) (gen_logs g)))).
Proof.
  induction ss as [|s ss IH]; intros fuel g acc w l Hg Hss Hans Hend Hfuel;
    (destruct fuel as [|fuel]; [simpl in Hfuel; lia|]); simpl collect;
    rewrite (next_answer _ _ Hg); cbv zeta.
  - simpl in Hend. rewrite Nat.add_0_r in Hend. rewrite Hend. simpl.
    by rewrite app_nil_r.
  - apply Forall_cons in Hss as [Hs Hss].
    pose proof (Hans 0%nat s eq_refl) as H0. rewrite Nat.add_0_r in H0.
    rewrite H0, Hs.
    rewrite (IH fuel _ _ _ l).
    + simpl. rewrite extend_extend, <- !app_assoc. done.
    + done.
    + done.
    + intros k s' Hk. simpl gen_self. simpl gen_logs. simpl server.
      rewrite sent_extend_round.
      replace (S (sent w) + k)%nat with (sent w + S k)%nat by lia.
      by apply Hans.
    + simpl gen_self. simpl gen_logs. simpl server.
      rewrite sent_extend_round.
      by replace (S (sent w) + length ss)%nat
        with (sent w + S (length ss))%nat by lia.
    + simpl in Hfuel. lia.
Qed.

Lemma collect_runs_on fuel :
  ∀ g acc w,
  gen_state_of g ≠ Finished →
  (∀ k, ∃ s, answer (gen_self g) (gen_logs g) (server w (sent w + k)) = Ok s
             ∧ is_Completed s = false) →
  ∃ ss g' w',
    collect fuel g acc w = (Unfinished, acc ++ ss, g', w')
    ∧ length ss = fuel
    ∧ (∀ k s, ss !! k = Some s →
         answer (gen_self g) (gen_logs g) (server w (sent w + k)) = Ok s)
    ∧ (fuel ≠ 0%nat → gen_state_of g' = Suspended)
    ∧ sent w' = (sent w + fuel)%nat.
Proof.
  induction fuel as [|fuel IH]; intros g acc w Hg Hpolls.
  - exists [], g, w. rewrite app_nil_r. repeat split; [done|done|lia].
  - simpl collect. rewrite (next_answer _ _ Hg). cbv zeta.
    destruct (Hpolls 0%nat) as (s0 & H0 & Hs0). rewrite Nat.add_0_r in H0.
    rewrite H0, Hs0.
    set (g1 := at_state g Suspended).
    set (w1 := extend w _).
    destruct (IH g1 (acc ++ [s0]) w1) as (ss & g' & w' & Hrun & Hlen & Hss & Hst & Hsent).
    { done. }
    { intros k. subst g1 w1. simpl gen_self. simpl gen_logs. simpl server.
      rewrite sent_extend_round.
      replace (S (sent w) + k)%nat with (sent w + S k)%nat by lia. apply Hpolls. }
    exists (s0 :: ss), g', w'. rewrite Hrun, <- app_assoc. simpl.
    split; [done|]. split; [by rewrite Hlen|]. split; [|split].
    + intros [|k] s Hk; simpl in Hk.
      * injection Hk as <-. by rewrite Nat.add_0_r.
      * specialize (Hss k s Hk). subst g1 w1. simpl in Hss.
        rewrite sent_extend_round in Hss.
        by replace (sent w + S k)%nat with (S (sent w) + k)%nat by lia.
    + intros _. destruct fuel as [|fuel'].
      * simpl in Hrun. by injection Hrun as _ <- _.
      * by apply Hst.
    + rewrite Hsent. subst w1. rewrite sent_extend_round. lia.
Qed.

Lemma collect_ends_at_Completed fuel :
  ∀ g acc w out g' w',
  gen_state_of g ≠ Finished →
  collect fuel g acc w = (Ok tt, out, g', w') →
  ∃ ss l,
    out = acc ++ ss
    ∧ answer (gen_self g) (gen_logs g) (server w (sent w + length ss))
      = Ok (Completed l)
    ∧ ∀ k s, ss !! k = Some s →
        answer (gen_self g) (gen_logs g) (server w (sent w + k)) = Ok s
        ∧ is_Completed s = false.
Proof.
  induction fuel as [|fuel IH]; intros g acc w out g' w' Hg; simpl collect; [done|].
  rewrite (next_answer _ _ Hg). cbv zeta.
  destruct (answer _ _ (server w (sent w))) as [s| |] eqn:H0; [|done|done].
  destruct (is_Completed s) eqn:Hs.
  - intros [= <- <- <-]. destruct s as [| |l]; try done.
    exists [], l. rewrite app_nil_r, Nat.add_0_r. by repeat split.
  - intros Hrun. apply IH in Hrun as (ss & l & -> & Hend & Hss); [|done].
    simpl in Hend, Hss. rewrite sent_extend_round in Hend, Hss.
    exists (s :: ss), l. rewrite <- app_assoc. split; [done|]. split.
    + simpl. by replace (sent w + S (length ss))%nat
        with (S (sent w) + length ss)%nat by lia.
    + intros [|k] s' Hk; simpl in Hk.
      * injection Hk as <-. by rewrite Nat.add_0_r.
      * replace (sent w + S k)%nat with (S (sent w) + k)%nat by lia.
        by apply Hss.
Qed.

End events_facts.

(** C3. The sequence [iter_events] yields, in poll order, every status
    that the successive [status] polls return before the first [Completed],
    sleeps the poll delay (0.2 seconds unless given) between one poll and
    the next, and ends without yielding at the poll that returns
    [Completed]; it ends in no other way, and while the polls return other
    statuses it goes on for ever, whatever number of rounds it is given.
    With polls Queued, Queued, InProgress, Completed it yields exactly
    those three statuses and sleeps three times. *)
Theorem iter_events_yields :
  (∀ (D : Py.Decoder) (F : Apps.Flags) (self : Apps.RequestHandle)
     (logs : option bool) (delay : option Q) (w : Apps.world)
     (ss : list Apps.Status) (l : Py.json) (fuel : nat),
     let g := Apps.iter_events self logs delay in
     let req := Apps.status_request self (Apps.gen_logs g) in
     Forall (λ s, Apps.is_Completed s = false) ss →
     (∀ k s, ss !! k = Some s →
        Polls.answer self (Apps.gen_logs g)
          (Apps.server w (Apps.sent w + k)) = Py.Ok s) →
     Polls.answer self (Apps.gen_logs g)
       (Apps.server w (Apps.sent w + length ss)) = Py.Ok (Apps.Completed l) →
     (length ss < fuel)%nat →
     Apps.collect fuel g [] w =
       (Py.Ok tt, ss, Apps.at_state g Apps.Finished,
        Polls.extend w
          (Apps.Sent req
           :: Polls.rounds (length ss) (Apps.gen_poll_delay g) req)))
  ∧ (∀ (self : Apps.RequestHandle) (logs : option bool) (d : Q),
       Apps.gen_poll_delay (Apps.iter_events self logs None) = 0.2%Q
       ∧ Apps.gen_poll_delay (Apps.iter_events self logs (Some d)) = d)
  ∧ (∀ (D : Py.Decoder) (F : Apps.Flags) (self : Apps.RequestHandle)
       (logs : option bool) (delay : option Q) (w : Apps.world),
       let g := Apps.iter_events self logs delay in
       (∀ k, ∃ s, Polls.answer self (Apps.gen_logs g)
                    (Apps.server w (Apps.sent w + k)) = Py.Ok s
                  ∧ Apps.is_Completed s = false) →
       ∀ fuel, ∃ ss g' w',
         Apps.collect fuel g [] w = (Py.Unfinished, ss, g', w')
         ∧ length ss = fuel
         ∧ ∀ k s, ss !! k = Some s →
             Polls.answer self (Apps.gen_logs g)
               (Apps.server w (Apps.sent w + k)) = Py.Ok s)
  ∧ (∀ (D : Py.Decoder) (F : Apps.Flags) (self : Apps.RequestHandle)
       (logs : option bool) (delay : option Q) (w : Apps.world)
       (fuel : nat) (ss : list Apps.Status) g' w',
       let g := Apps.iter_events self logs delay in
       Apps.collect fuel g [] w = (Py.Ok tt, ss, g', w') →
       (∃ l, Polls.answer self (Apps.gen_logs g)
               (Apps.server w (Apps.sent w + length ss))
             = Py.Ok (Apps.Completed l))
       ∧ ∀ k s, ss !! k = Some s →
           Polls.answer self (Apps.gen_logs g)
             (Apps.server w (Apps.sent w + k)) = Py.Ok s
           ∧ Apps.is_Completed s = false)
  ∧ (let run := Apps.collect (D:=Json.reference_decoder) (F:=Samples.flags) 10
                  (Apps.iter_events Samples.handle None None) []
                  Samples.four_polls in
     run.1.1.1 = Py.Ok tt
     ∧ run.1.1.2 = [Apps.Queued (Py.JInt 2); Apps.Queued (Py.JInt 1);
                    Apps.InProgress (Py.JArr [])]
     ∧ Polls.sleeps run.2 = [0.2%Q; 0.2%Q; 0.2%Q]
     ∧ length (Polls.requests run.2) = 4%nat).
Proof.
  split; [|split; [|split; [|split]]].
  - intros D F self logs delay w ss l fuel g req Hss Hans Hend Hfuel.
    by rewrite (collect_completes ss fuel g [] w l).
  - done.
  - intros D F self logs delay w g Hpolls fuel.
    destruct (collect_runs_on fuel g [] w) as (ss & g' & w' & Hrun & Hlen & Hss & _);
      [done|done|].
    exists ss, g', w'. by rewrite Hrun.
  - intros D F self logs delay w fuel ss g' w' g Hrun.
    apply collect_ends_at_Completed in Hrun as (ss' & l & -> & Hend & Hss); [|done].
    simpl app. eauto.
  - vm_compute. done.
Qed.

Lemma iter_events_yields_witness :
  Apps.collect (D:=Json.reference_decoder) (F:=Samples.flags) 4
    (Apps.iter_events Samples.handle (Some true) (Some 1%Q)) [] Samples.four_polls
  = (Py.Ok tt,
     [Apps.Queued (Py.JInt 2); Apps.Queued (Py.JInt 1);
      Apps.InProgress (Py.JArr [])],
     Apps.Generator Samples.handle true 1%Q Apps.Finished,
     Polls.extend Samples.four_polls
       (Apps.Sent (Apps.status_request (F:=Samples.flags) Samples.handle true)
        :: Polls.rounds 3 1%Q
             (Apps.status_request (F:=Samples.flags) Samples.handle true)))
  ∧ (∃ ss g' w',
       Apps.collect (D:=Json.reference_decoder) (F:=Samples.flags) 50
         (Apps.iter_events Samples.handle None None) []
         (Samples.always (Samples.accepted (Samples.in_queue 1)))
       = (Py.Unfinished, ss, g', w') ∧ length ss = 50%nat)
  ∧ (∃ l, Polls.answer (D:=Json.reference_decoder) (F:=Samples.flags)
            Samples.handle false (Apps.server Samples.four_polls 3)
          = Py.Ok (Apps.Completed l)).
Proof.
  destruct iter_events_yields as (Hfin & _ & Hinf & Honly & _).
  split; [|split].
  - apply (Hfin Json.reference_decoder Samples.flags Samples.handle (Some true)
             (Some 1%Q) Samples.four_polls
             [Apps.Queued (Py.JInt 2); Apps.Queued (Py.JInt 1);
              Apps.InProgress (Py.JArr [])] (Py.JArr []) 4%nat).
    + repeat constructor.
    + intros [|[|[|k]]] s; simpl; intros [= <-]; reflexivity.
    + reflexivity.
    + simpl. lia.
  - destruct (Hinf Json.reference_decoder Samples.flags Samples.handle None None
                (Samples.always (Samples.accepted (Samples.in_queue 1))))
      with (fuel := 50%nat) as (ss & g' & w' & Hrun & Hlen & _).
    + intros k. exists (Apps.Queued (Py.JInt 1)). split; reflexivity.
    + eauto.
  - destruct (Honly Json.reference_decoder Samples.flags Samples.handle None None
                Samples.four_polls 10%nat _ _ _ eq_refl) as [[l Hl] _].
    exists l. exact Hl.
Defined.

(** ** API keys *)

Section key_facts.
Import Py Auth.

Lemma split1_first_colon id secret :
  contains ":" id = false →
  split1 ":" (id +:+ ":" +:+ secret) = [id; secret].
Proof.
  induction id as [|x id IH]; simpl; [done|].
  destruct (Ascii.eqb x ":"); [done|]. intros H. by rewrite (IH H).
Qed.

Lemma split1_no_colon k : contains ":" k = false → split1 ":" k = [k].
Proof.
  induction k as [|x k IH]; simpl; [done|].
  destruct (Ascii.eqb x ":"); [done|]. intros H. by rewrite (IH H).
Qed.

(** What [key_credentials] makes of the key its sources give. *)
Lemma key_credentials_sources w key w' :
  ¬ forced w →
  key_sources w = (Ok key, w') →
  key_credentials w =
    if truthy_opt key then
      (match unpack2 (split1 ":" (default EmptyString key)) with
       | Ok p => Ok (Some p)
       | Raise e => Raise e
       | Unfinished => Unfinished
       end, w')
    else (Ok (legacy_pair w'), w').
Proof.
  intros Hforce Hkey. unfold key_credentials, bind at 1, ask at 1.
  rewrite bool_decide_eq_false_2 by done.
  unfold bind at 1. rewrite Hkey.
  destruct (truthy_opt key).
  - unfold bind, lift, ret. by destruct (unpack2 _).
  - unfold bind, ask, ret, legacy_pair.
    by destruct (environ w' !! "FAL_KEY_ID"), (environ w' !! "FAL_KEY_SECRET").
Qed.

(** Looking for the notebook secret leaves the environment variables and
    the configuration as they are. *)
Lemma get_colab_token_environ w r w' :
  get_colab_token w = (r, w') →
  environ w' = environ w ∧ config_key w' = config_key w.
Proof.
  unfold get_colab_token, bind, ask, ret, try_except, userdata_get, lift,
    set_colab_state, strip_method. simpl.
  destruct (is_google_colab w); simpl; [|by intros [= <- <-]].
  destruct (is_checked (_colab_state w)); simpl; [by intros [= <- <-]|].
  destruct (userdata w) as [get|]; simpl; [|by intros [= <- <-]].
  destruct (get (lookups w)) as [[s|]|e|]; simpl;
    try destruct (is_Exception e); simpl; by intros [= <- <-].
Qed.

End key_facts.

Section key_sources_facts.
Import Py Auth.

Lemma key_sources_environ w r w' :
  key_sources w = (r, w') → environ w' = environ w.
Proof.
  unfold key_sources, bind at 1, ask at 1, py_or at 1.
  destruct (truthy_opt (environ w !! "FAL_KEY")); [by intros [= <- <-]|].
  unfold bind at 1, ask at 1, py_or at 1.
  destruct (truthy_opt (config_key w)); [by intros [= <- <-]|].
  intros H. by apply get_colab_token_environ in H as [? _].
Qed.

Lemma truthy_with_colon id secret : truthy (id +:+ ":" +:+ secret) = true.
Proof. by destruct id. Qed.

End key_sources_facts.

(** C6. [key_credentials]: when interactive authentication is forced it
    returns nothing and consults no key source; otherwise the key is the
    API key variable of the environment if it is set and not empty, else the
    key of the persisted configuration if it is set and not empty, else the
    notebook secret; a key is split at its first colon into id and secret;
    with no key, the legacy pair of variables is returned when both are
    set, and nothing otherwise.  So an API key in the environment is used
    whatever the token store holds. *)
Theorem key_credentials_precedence :
  (∀ w, Auth.forced w → Auth.key_credentials w = (Py.Ok None, w))
  ∧ (∀ w k, Auth.environ w !! "FAL_KEY" = Some k → Py.truthy k = true →
       Auth.key_sources w = (Py.Ok (Some k), w))
  ∧ (∀ w k, Auth.truthy_opt (Auth.environ w !! "FAL_KEY") = false →
       Auth.config_key w = Some k → Py.truthy k = true →
       Auth.key_sources w = (Py.Ok (Some k), w))
  ∧ (∀ w, Auth.truthy_opt (Auth.environ w !! "FAL_KEY") = false →
       Auth.truthy_opt (Auth.config_key w) = false →
       Auth.key_sources w = Auth.get_colab_token w)
  ∧ (∀ w w' id secret, ¬ Auth.forced w →
       Auth.key_sources w = (Py.Ok (Some (id +:+ ":" +:+ secret)), w') →
       Py.contains ":" id = false →
       Auth.key_credentials w = (Py.Ok (Some (id, secret)), w'))
  ∧ (∀ w w' key, ¬ Auth.forced w →
       Auth.key_sources w = (Py.Ok key, w') →
       Auth.truthy_opt key = false →
       Auth.key_credentials w = (Py.Ok (Auth.legacy_pair w), w'))
  ∧ (∀ w s id secret, ¬ Auth.forced w →
       Auth.environ w !! "FAL_KEY" = Some (id +:+ ":" +:+ secret) →
       Py.contains ":" id = false →
       Auth.get_default_credentials (w, s)
       = (Py.Ok (Auth.KeyCredentials id secret), (w, s))).
Proof.
  assert (Hsplit : ∀ w w' id secret, ¬ Auth.forced w →
       Auth.key_sources w = (Py.Ok (Some (id +:+ ":" +:+ secret)), w') →
       Py.contains ":" id = false →
       Auth.key_credentials w = (Py.Ok (Some (id, secret)), w')).
  { intros w w' id secret Hf Hk Hid.
    rewrite (key_credentials_sources _ _ _ Hf Hk). simpl.
    by rewrite truthy_with_colon, split1_first_colon. }
  assert (Henv : ∀ w k, Auth.environ w !! "FAL_KEY" = Some k → Py.truthy k = true →
       Auth.key_sources w = (Py.Ok (Some k), w)).
  { intros w k Hk Ht. unfold Auth.key_sources, Py.bind, Auth.ask, Auth.py_or.
    rewrite Hk. simpl. by rewrite Ht. }
  repeat split.
  - intros w Hf. unfold Auth.key_credentials, Py.bind, Auth.ask.
    by rewrite bool_decide_eq_true_2.
  - exact Henv.
  - intros w k He Hc Ht. unfold Auth.key_sources, Py.bind, Auth.ask, Auth.py_or.
    rewrite He, Hc. simpl. by rewrite Ht.
  - intros w He Hc. unfold Auth.key_sources, Py.bind, Auth.ask, Auth.py_or.
    by rewrite He, Hc.
  - exact Hsplit.
  - intros w w' key Hf Hk Ht.
    rewrite (key_credentials_sources _ _ _ Hf Hk), Ht.
    unfold Auth.legacy_pair. by rewrite (key_sources_environ _ _ _ Hk).
  - intros w s id secret Hf Hk Hid. unfold Auth.get_default_credentials.
    by rewrite (Hsplit w w id secret Hf (Henv _ _ Hk (truthy_with_colon _ _)) Hid).
Qed.

Lemma key_credentials_precedence_witness :
  Auth.key_credentials
    (Samples.process [("FAL_FORCE_AUTH_BY_USER", "1"); ("FAL_KEY", "a:b")] None)
  = (Py.Ok None,
     Samples.process [("FAL_FORCE_AUTH_BY_USER", "1"); ("FAL_KEY", "a:b")] None)
  ∧ Auth.key_credentials
      (Samples.process [("FAL_KEY", "env-id:s1:x")] (Some "cfg-id:s2"))
    = (Py.Ok (Some ("env-id", "s1:x")),
       Samples.process [("FAL_KEY", "env-id:s1:x")] (Some "cfg-id:s2"))
  ∧ Auth.key_credentials (Samples.process [("FAL_KEY", "")] (Some "cfg-id:s2"))
    = (Py.Ok (Some ("cfg-id", "s2")),
       Samples.process [("FAL_KEY", "")] (Some "cfg-id:s2"))
  ∧ fst (Auth.key_credentials
           (Samples.notebook [("FAL_KEY_ID", "i"); ("FAL_KEY_SECRET", "s")]
              (Py.Ok (Some " nb-id:s3 "))))
    = Py.Ok (Some ("nb-id", "s3"))
  ∧ Auth.key_credentials
      (Samples.process [("FAL_KEY_ID", "i"); ("FAL_KEY_SECRET", "s")] (Some ""))
    = (Py.Ok (Some ("i", "s")),
       Samples.process [("FAL_KEY_ID", "i"); ("FAL_KEY_SECRET", "s")] (Some ""))
  ∧ Auth.get_default_credentials
      (Samples.process [("FAL_KEY", "env-id:s1")] None,
       Auth.Session (Some ("refresh", Some "access")) 0 (fun _ => Some 10)
         (fun _ _ => Py.Raise Py.TransportError) [])
    = (Py.Ok (Auth.KeyCredentials "env-id" "s1"),
       (Samples.process [("FAL_KEY", "env-id:s1")] None,
        Auth.Session (Some ("refresh", Some "access")) 0 (fun _ => Some 10)
          (fun _ _ => Py.Raise Py.TransportError) [])).
Proof.
  destruct key_credentials_precedence
    as (Hforce & Henv & Hcfg & Hnb & Hsplit & Hlegacy & Hwins).
  split; [|split; [|split; [|split; [|split]]]].
  - apply Hforce. reflexivity.
  - apply (Hsplit _ _ "env-id" "s1:x"); [vm_compute; discriminate| |reflexivity].
    apply Henv; reflexivity.
  - apply (Hsplit _ _ "cfg-id" "s2"); [vm_compute; discriminate| |reflexivity].
    apply Hcfg; reflexivity.
  - set (w := Samples.notebook _ _).
    rewrite (Hsplit w (snd (Auth.get_colab_token w)) "nb-id" "s3");
      [reflexivity|vm_compute; discriminate| |reflexivity].
    rewrite (Hnb w); reflexivity.
  - set (w := Samples.process _ _).
    rewrite (Hlegacy w w None); [reflexivity|vm_compute; discriminate| |reflexivity].
    rewrite (Hnb w); reflexivity.
  - apply Hwins; [vm_compute; discriminate|reflexivity|reflexivity].
Defined.

(** ** The access token *)

Section token_facts.
Import Py Auth.

Lemma exchanges_later s file es :
  exchanges (later s file es)
  = (exchanges s + length (filter is_Exchanged es))%nat.
Proof. unfold exchanges, later. simpl. by rewrite filter_app, length_app. Qed.

(** Every run of [_fetch_access_token], case by case. *)
Lemma fetch_access_token_run s :
  _fetch_access_token s =
    match token_file s with
    | None => (Raise UnauthenticatedException,
               later s None [Locked; Loaded; Unlocked])
    | Some (r, a) =>
        if unexpired s a then
          (Ok (default EmptyString a),
           later s (Some (r, a)) ([Locked; Loaded] ++ checked a ++ [Unlocked]))
        else
          let before := [Locked; Loaded] ++ checked a ++ [Exchanged r] in
          match exchange s (exchanges s) r with
          | Ok td =>
              match td !! "refresh_token", td !! "access_token" with
              | Some r', Some a' =>
                  (Ok a', later s (Some (r', Some a'))
                            (before ++ [Saved r' (Some a'); Unlocked]))
              | None, _ =>
                  (Raise (KeyError "refresh_token"),
                   later s None (before ++ [Deleted; Unlocked]))
              | Some _, None =>
                  (Raise (KeyError "access_token"),
                   later s None (before ++ [Deleted; Unlocked]))
              end
          | Raise e => (Raise e, later s None (before ++ [Deleted; Unlocked]))
          | Unfinished =>
              (Unfinished, later s (Some (r, a)) (before ++ [Unlocked]))
          end
    end.
Proof.
  destruct s as [file now_ exp exch tr].
  unfold _fetch_access_token, lock_token, load_token, bind, try_except,
    verify_access_token_expiration, refresh, save_token, delete_token, lift,
    item, ret, raise, note, write, later, exchanges, unexpired, checked.
  simpl.
  assert (Hex : ∀ es, filter is_Exchanged es = [] →
            length (filter (λ e, is_Exchanged e) (tr ++ es))
            = length (filter is_Exchanged tr)).
  { intros es Hes. by rewrite filter_app, Hes, app_nil_r. }
  destruct file as [[r [a|]]|]; simpl;
    [destruct (exp a) as [e|]; [destruct (now_ <? e)|]; simpl| |];
    rewrite <- ?app_assoc; simpl; rewrite ?Hex by done; try done;
    (destruct (exch (length (filter is_Exchanged tr)) r) as [td|e'|]; simpl;
     [destruct (td !! "refresh_token") eqn:Hr, (td !! "access_token") eqn:Ha;
      simpl; rewrite ?Ha| |]);
    by rewrite <- ?app_assoc.
Qed.

End token_facts.

(** C4. [_fetch_access_token] works between taking and releasing the lock
    of the token file.  With no refresh token stored it fails with
    [UnauthenticatedException].  With a stored access token whose
    expiration is in the future it returns that token and calls the
    provider not at all.  Otherwise it exchanges the refresh token once,
    stores the rotated pair and returns the new access token. *)
Theorem fetch_access_token_cases :
  (∀ s, Auth.token_file s = None →
     Auth._fetch_access_token s
     = (Py.Raise Py.UnauthenticatedException,
        Auth.later s None [Auth.Locked; Auth.Loaded; Auth.Unlocked]))
  ∧ (∀ s r a e,
       Auth.token_file s = Some (r, Some a) →
       Auth.expiration s a = Some e → Auth.now s < e →
       Auth._fetch_access_token s
       = (Py.Ok a,
          Auth.later s (Some (r, Some a))
            [Auth.Locked; Auth.Loaded; Auth.Verified a; Auth.Unlocked])
       ∧ Auth.exchanges (snd (Auth._fetch_access_token s)) = Auth.exchanges s)
  ∧ (∀ s r a td r' a',
       Auth.token_file s = Some (r, a) →
       Auth.unexpired s a = false →
       Auth.exchange s (Auth.exchanges s) r = Py.Ok td →
       td !! "refresh_token" = Some r' →
       td !! "access_token" = Some a' →
       Auth._fetch_access_token s
       = (Py.Ok a',
          Auth.later s (Some (r', Some a'))
            ([Auth.Locked; Auth.Loaded] ++ Auth.checked a
             ++ [Auth.Exchanged r; Auth.Saved r' (Some a'); Auth.Unlocked]))
       ∧ Auth.exchanges (snd (Auth._fetch_access_token s))
         = S (Auth.exchanges s))
  ∧ (∀ s, ∃ es,
       Auth.trace (snd (Auth._fetch_access_token s))
       = Auth.trace s ++ [Auth.Locked] ++ es ++ [Auth.Unlocked]
       ∧ Forall (λ e, e ≠ Auth.Locked ∧ e ≠ Auth.Unlocked) es
       ∧ (length (filter Auth.is_Exchanged es) ≤ 1)%nat).
Proof.
  split; [|split; [|split]].
  - intros s Hfile. by rewrite fetch_access_token_run, Hfile.
  - intros s r a e Hfile Hexp Hnow.
    rewrite fetch_access_token_run, Hfile. unfold Auth.unexpired.
    rewrite Hexp, (proj2 (Z.ltb_lt _ _) Hnow). simpl. split; [done|].
    by rewrite exchanges_later, Nat.add_0_r.
  - intros s r a td r' a' Hfile Hold Hex Hr Ha.
    rewrite fetch_access_token_run, Hfile, Hold. cbv zeta.
    rewrite Hex, Hr, Ha. split; [by destruct a|].
    simpl snd. rewrite exchanges_later. destruct a; simpl; lia.
  - intros s. rewrite fetch_access_token_run.
    destruct (Auth.token_file s) as [[r [a|]]|];
      [destruct (Auth.unexpired s (Some a))|destruct (Auth.unexpired s None)|];
      cbv zeta;
      try (destruct (Auth.exchange s (Auth.exchanges s) r) as [td|e|];
           [destruct (td !! "refresh_token") as [r'|],
                     (td !! "access_token") as [a'|]| |]);
      simpl snd; simpl Auth.trace;
      match goal with
      | |- ∃ _, _ ++ Auth.Locked :: ?es = _ ∧ _ =>
          exists (removelast es)
      end;
      (split; [reflexivity|split; [by repeat constructor|simpl; lia]]).
Qed.

Lemma fetch_access_token_cases_witness :
  fst (Auth._fetch_access_token (Samples.session_at_one None Samples.rotating))
  = Py.Raise Py.UnauthenticatedException
  ∧ Auth._fetch_access_token
      (Samples.session_at_one (Some ("r1", Some "fresh")) Samples.refusing)
    = (Py.Ok "fresh",
       Auth.later
         (Samples.session_at_one (Some ("r1", Some "fresh")) Samples.refusing)
         (Some ("r1", Some "fresh"))
         [Auth.Locked; Auth.Loaded; Auth.Verified "fresh"; Auth.Unlocked])
  ∧ Auth._fetch_access_token
      (Samples.session_at_one (Some ("r1", Some "stale")) Samples.rotating)
    = (Py.Ok "a2",
       Auth.later
         (Samples.session_at_one (Some ("r1", Some "stale")) Samples.rotating)
         (Some ("r2", Some "a2"))
         [Auth.Locked; Auth.Loaded; Auth.Verified "stale"; Auth.Exchanged "r1";
          Auth.Saved "r2" (Some "a2"); Auth.Unlocked]).
Proof.
  destruct fetch_access_token_cases as (Hnone & Hfresh & Hstale & _).
  split; [|split].
  - by rewrite (Hnone (Samples.session_at_one None Samples.rotating) eq_refl).
  - destruct (Hfresh
        (Samples.session_at_one (Some ("r1", Some "fresh")) Samples.refusing)
        "r1" "fresh" 7200 eq_refl eq_refl) as [H _]; [reflexivity|exact H].
  - destruct (Hstale
        (Samples.session_at_one (Some ("r1", Some "stale")) Samples.rotating)
        "r1" (Some "stale")
        {[ "refresh_token" := "r2"; "access_token" := "a2" ]}
        "r2" "a2" eq_refl eq_refl eq_refl) as [H _];
      [reflexivity|reflexivity|exact H].
Defined.

(** C5. When the exchange made by [_fetch_access_token] fails, the stored
    pair is deleted before the lock is released and the exception of the
    exchange is raised again; whenever a call that made an exchange raises,
    the token file holds no pair. *)
Theorem failed_exchange_deletes_token :
  (∀ s r a e,
     Auth.token_file s = Some (r, a) →
     Auth.unexpired s a = false →
     Auth.exchange s (Auth.exchanges s) r = Py.Raise e →
     Auth._fetch_access_token s
     = (Py.Raise e,
        Auth.later s None
          ([Auth.Locked; Auth.Loaded] ++ Auth.checked a
           ++ [Auth.Exchanged r; Auth.Deleted; Auth.Unlocked])))
  ∧ (∀ s e,
       fst (Auth._fetch_access_token s) = Py.Raise e →
       Auth.exchanges (snd (Auth._fetch_access_token s)) ≠ Auth.exchanges s →
       Auth.token_file (snd (Auth._fetch_access_token s)) = None).
Proof.
  split.
  - intros s r a e Hfile Hold Hex.
    rewrite fetch_access_token_run, Hfile, Hold. cbv zeta. rewrite Hex.
    by destruct a.
  - intros s e. rewrite fetch_access_token_run.
    destruct (Auth.token_file s) as [[r a]|]; [|done].
    destruct (Auth.unexpired s a).
    { simpl. rewrite exchanges_later. intros _ H. exfalso. apply H.
      destruct a; simpl; lia. }
    cbv zeta.
    destruct (Auth.exchange s (Auth.exchanges s) r) as [td|e'|]; [|done|done].
    by destruct (td !! "refresh_token"), (td !! "access_token").
Qed.

Lemma failed_exchange_deletes_token_witness :
  Auth._fetch_access_token
    (Samples.session_at_one (Some ("r1", Some "stale")) Samples.refusing)
  = (Py.Raise (Py.FalServerlessException "invalid_grant"),
     Auth.later
       (Samples.session_at_one (Some ("r1", Some "stale")) Samples.refusing)
       None
       [Auth.Locked; Auth.Loaded; Auth.Verified "stale"; Auth.Exchanged "r1";
        Auth.Deleted; Auth.Unlocked])
  ∧ Auth.token_file
      (snd (Auth._fetch_access_token
              (Samples.session_at_one (Some ("r1", None)) Samples.truncated)))
    = None.
Proof.
  destruct failed_exchange_deletes_token as (Hfail & Hgone).
  split.
  - exact (Hfail
             (Samples.session_at_one (Some ("r1", Some "stale")) Samples.refusing)
             "r1" (Some "stale") (Py.FalServerlessException "invalid_grant")
             eq_refl eq_refl eq_refl).
  - apply (Hgone
             (Samples.session_at_one (Some ("r1", None)) Samples.truncated)
             (Py.KeyError "refresh_token")); [reflexivity|].
    vm_compute. discriminate.
Defined.

(** C10. When the key that the sources give is not empty and has no colon,
    [key_credentials] raises the [ValueError] of the failed unpacking,
    whether or not the legacy pair of variables is set. *)
Theorem key_without_colon_raises (w w' : Auth.env) (k : string) :
  ¬ Auth.forced w →
  Auth.key_sources w = (Py.Ok (Some k), w') →
  Py.truthy k = true →
  Py.contains ":" k = false →
  Auth.key_credentials w = (Py.Raise Auth.unpack_error, w')
  ∧ Py.is_ValueError Auth.unpack_error = true.
Proof.
  intros Hf Hk Ht Hc. split; [|done].
  rewrite (key_credentials_sources _ _ _ Hf Hk). simpl. rewrite Ht.
  by rewrite (split1_no_colon _ Hc).
Qed.

Lemma key_without_colon_raises_witness :
  Auth.key_credentials
    (Samples.process [("FAL_KEY", "no-colon-here"); ("FAL_KEY_ID", "i");
                      ("FAL_KEY_SECRET", "s")] (Some "cfg-id:s2"))
  = (Py.Raise Auth.unpack_error,
     Samples.process [("FAL_KEY", "no-colon-here"); ("FAL_KEY_ID", "i");
                      ("FAL_KEY_SECRET", "s")] (Some "cfg-id:s2")).
Proof.
  set (w := Samples.process _ _).
  destruct (key_without_colon_raises w w "no-colon-here") as [H _];
    [vm_compute; discriminate|reflexivity|reflexivity|reflexivity|exact H].
Defined.

(** ** Fetching the result *)

(** C8. [fetch_result] takes a failure for one with a JSON body only when
    the Content-Type header is exactly "application/json".  A 422 whose body
    is JSON and whose header carries a charset parameter is raised with the
    library's message, not with the status code and the text; the same body
    under the bare header gets the message with the text.  A failure with no
    Content-Type header raises [KeyError] inside the handler, so the status
    error is not what reaches the caller. *)
Theorem fetch_result_json_charset_not_enriched :
  Apps.is_success Samples.unprocessable = false
  ∧ is_Some (Json.decode (Py.text Samples.unprocessable))
  ∧ Apps.fetch_result (D:=Json.reference_decoder) (F:=Samples.flags)
      Samples.handle (Samples.always (Apps.Replied Samples.unprocessable))
    = (Py.Raise (Py.HTTPStatusError Py.LibraryMessage Samples.unprocessable),
       Apps.record
         (Apps.Sent (Apps.result_request (F:=Samples.flags) Samples.handle))
         (Samples.always (Apps.Replied Samples.unprocessable)))
  ∧ fst (Apps.fetch_result (D:=Json.reference_decoder) (F:=Samples.flags)
           Samples.handle
           (Samples.always (Apps.Replied Samples.unprocessable)))
    ≠ Py.Raise (Py.HTTPStatusError
                  (Py.Message ("422: " +:+ Py.text Samples.unprocessable))
                  Samples.unprocessable)
  ∧ Py.text Samples.rejected = Py.text Samples.unprocessable
  ∧ fst (Apps.fetch_result (D:=Json.reference_decoder) (F:=Samples.flags)
           Samples.handle (Samples.always (Apps.Replied Samples.rejected)))
    = Py.Raise (Py.HTTPStatusError
                  (Py.Message ("422: " +:+ Py.text Samples.rejected))
                  Samples.rejected)
  ∧ fst (Apps.fetch_result (D:=Json.reference_decoder) (F:=Samples.flags)
           Samples.handle
           (Samples.always
              (Apps.Replied (Py.Response 500 None "Internal Server Error"))))
    = Py.Raise (Py.KeyError "Content-Type").
Proof.
  split; [reflexivity|]. split; [vm_compute; eauto|].
  split; [reflexivity|]. split; [vm_compute; discriminate|].
  split; [reflexivity|]. split; reflexivity.
Qed.

(** ** The notebook secret *)

Section colab_facts.
Import Py Auth Colab.

(** A later call returns what the first one cached and asks nothing. *)
Lemma get_colab_token_cached w :
  is_google_colab w = true → is_checked (_colab_state w) = true →
  get_colab_token w = (Ok (secret (_colab_state w)), w).
Proof.
  intros Hc Hk. unfold get_colab_token, bind, ask, ret.
  rewrite Hc. simpl. by rewrite Hk.
Qed.

(** The first call asks once and caches whatever came of it. *)
Lemma get_colab_token_first w get :
  is_google_colab w = true → is_checked (_colab_state w) = false →
  userdata w = Some get → completes (get (lookups w)) = true →
  get_colab_token w
  = (Ok (cached (get (lookups w))),
     with_state (ColabState true (cached (get (lookups w)))) (counted w)).
Proof.
  destruct w as [vars cfg colab store n [checked kept]]. simpl.
  intros -> -> -> Hdone.
  unfold get_colab_token, bind, ask, ret, try_except, userdata_get, lift,
    set_colab_state, strip_method, with_state, counted. simpl.
  destruct (get n) as [[t|]|e|]; simpl in *; [done|done| |done].
  by rewrite Hdone.
Qed.

Lemma calls_cached n w :
  is_google_colab w = true → is_checked (_colab_state w) = true →
  calls n w = (replicate n (Ok (secret (_colab_state w))), w).
Proof.
  intros Hc Hk. induction n as [|n IH]; simpl; [done|].
  by rewrite get_colab_token_cached, IH.
Qed.

(** A statement of a thread keeps the invariant. *)
Lemma inv_step n0 store c i :
  (∀ get, store = Some get → interrupted (get n0) = false) →
  inv n0 store c → inv n0 store (step i c).
Proof.
  intros Hget (Hstore & Hmutex & Hphase). unfold step.
  destruct (threads c !! i) as [p|] eqn:Hi; [|done].
  destruct (step_thread i (shared c) (lock c) p) as [[[w' h'] p']|] eqn:Hstep;
    [|done].
  assert (Hlen : (i < length (threads c))%nat) by by eapply lookup_lt_Some.
  (* the threads after the step *)
  assert (Hnew : ∀ j q, <[i:=p']> (threads c) !! j = Some q →
            (j = i ∧ q = p') ∨ (j ≠ i ∧ threads c !! j = Some q)).
  { intros j q. destruct (decide (i = j)) as [<-|Hne].
    - rewrite list_lookup_insert_eq by done. intros [= <-]. by left.
    - rewrite list_lookup_insert_ne by done. intros ?. right. done. }
  assert (Hself : <[i:=p']> (threads c) !! i = Some p')
    by by rewrite list_lookup_insert_eq.
  pose proof (Hmutex i p Hi) as Hme.
  (* a step that leaves the lock where it is and stays on its side of it *)
  assert (Hkeep : h' = lock c → critical p' = critical p →
            ∀ j q, <[i:=p']> (threads c) !! j = Some q →
                   critical q = true ↔ h' = Some j).
  { intros -> Hcrit j q [[-> ->]|[Hne Hj]]%Hnew.
    - by rewrite Hcrit.
    - by apply Hmutex. }
  (* a step that leaves the block *)
  assert (Hrelease : critical p = true → h' = None → critical p' = false →
            ∀ j q, <[i:=p']> (threads c) !! j = Some q →
                   critical q = true ↔ h' = Some j).
  { intros Hcp -> Hcrit j q [[-> ->]|[Hne Hj]]%Hnew.
    - by rewrite Hcrit.
    - rewrite (Hmutex j q Hj). apply Hme in Hcp. rewrite Hcp.
      split; [intros [= ?]; done|done]. }
  assert (Hheld : critical p = true → holder_ok n0 (shared c) p).
  { intros Hcp. apply Hme in Hcp. rewrite Hcp in Hphase.
    destruct Hphase as (p0 & Hp0 & Hok). by simplify_eq. }
  unfold inv. simpl.
  destruct p; simpl in Hstep.
  - (* AtEntry *)
    injection Hstep as <- <- <-. split; [done|]. split.
    + apply Hkeep; [done|]. by destruct (is_google_colab (shared c)).
    + destruct (lock c) as [h|]; [|done].
      destruct Hphase as (p0 & Hp0 & Hok). exists p0. split; [|done].
      destruct (decide (h = i)) as [->|Hne]; [|by rewrite list_lookup_insert_ne].
      simplify_eq. done.
  - (* AtLock *)
    destruct (lock c) as [h|] eqn:Hlock; [done|]. injection Hstep as <- <- <-.
    split; [done|]. split.
    + intros j q [[-> ->]|[Hne Hj]]%Hnew; [done|].
      rewrite (Hmutex j q Hj). split; [done|intros [= ?]; done].
    + exists AtCheck. split; [done|]. simpl. done.
  - (* AtCheck *)
    specialize (Hheld eq_refl). simpl in Hheld.
    destruct (is_checked (_colab_state (shared c))) eqn:Hk;
      injection Hstep as <- <- <-.
    + split; [simpl; congruence|]. split; [by apply Hrelease|]. by rewrite Hk.
    + split; [simpl; congruence|]. split; [by apply Hkeep|].
      rewrite (proj1 Hme eq_refl). exists AtImport. split; [done|]. simpl.
      rewrite Hk. split; [done|lia].
  - (* AtImport *)
    specialize (Hheld eq_refl). simpl in Hheld. destruct Hheld as [Hk Hn].
    destruct (userdata (shared c)) as [get|] eqn:Hu; injection Hstep as <- <- <-.
    + split; [simpl; congruence|]. split; [by apply Hkeep|].
      rewrite (proj1 Hme eq_refl). exists AtLookup. by split.
    + split; [simpl; congruence|]. split; [by apply Hrelease|]. rewrite Hk. lia.
  - (* AtLookup *)
    specialize (Hheld eq_refl). simpl in Hheld. destruct Hheld as [Hk Hn].
    destruct (userdata (shared c)) as [get|] eqn:Hu; [|done].
    specialize (Hget get (eq_sym Hstore)). rewrite <- Hn in Hget.
    destruct (get (lookups (shared c))) as [t|e|]; [| |done].
    + injection Hstep as <- <- <-. split; [simpl; congruence|]. split; [by apply Hkeep|].
      rewrite (proj1 Hme eq_refl). exists (AtStrip t). split; [done|]. simpl.
      split; [done|simpl; lia].
    + simpl in Hget. destruct (is_Exception e); [|done].
      injection Hstep as <- <- <-. split; [simpl; congruence|]. split; [by apply Hkeep|].
      rewrite (proj1 Hme eq_refl). exists AtExcept. split; [done|]. simpl.
      split; [done|simpl; lia].
  - (* AtStrip *)
    specialize (Hheld eq_refl). simpl in Hheld. destruct Hheld as [Hk Hn].
    destruct (strip_method token); injection Hstep as <- <- <-;
      (split; [simpl; congruence|]); (split; [by apply Hkeep|]);
      rewrite (proj1 Hme eq_refl); eexists; (split; [done|]); simpl; done.
  - (* AtExcept *)
    specialize (Hheld eq_refl). simpl in Hheld. destruct Hheld as [Hk Hn].
    injection Hstep as <- <- <-. split; [simpl; congruence|]. split; [by apply Hkeep|].
    rewrite (proj1 Hme eq_refl). exists AtMark. by split.
  - (* AtMark *)
    specialize (Hheld eq_refl). simpl in Hheld. destruct Hheld as [Hk Hn].
    injection Hstep as <- <- <-. split; [simpl; congruence|]. split; [by apply Hkeep|].
    rewrite (proj1 Hme eq_refl). exists AtReturn. by split.
  - (* AtReturn *)
    specialize (Hheld eq_refl). simpl in Hheld. destruct Hheld as [Hk Hn].
    injection Hstep as <- <- <-. split; [simpl; congruence|]. split; [by apply Hrelease|].
    rewrite Hk. lia.
  - done.
Qed.

Lemma inv_run n0 store schedule :
  (∀ get, store = Some get → interrupted (get n0) = false) →
  ∀ c, inv n0 store c → inv n0 store (run schedule c).
Proof.
  intros Hget. induction schedule as [|i schedule IH]; intros c Hc; [done|].
  simpl. apply IH. by apply inv_step.
Qed.

Lemma inv_callers n w :
  is_checked (_colab_state w) = false →
  inv (lookups w) (userdata w) (callers n w).
Proof.
  intros Hk. split; [done|]. split.
  - intros i p Hp. apply lookup_replicate in Hp as [-> _]. done.
  - simpl. rewrite Hk. lia.
Qed.

Lemma inv_lookups n0 store c :
  inv n0 store c → (lookups (shared c) ≤ S n0)%nat.
Proof.
  intros (_ & _ & Hphase). destruct (lock c) as [i|].
  - destruct Hphase as (p & _ & Hok).
    destruct p; simpl in Hok; try done; try lia.
    rewrite Hok. destruct (is_checked _); lia.
  - rewrite Hphase. destruct (is_checked _); lia.
Qed.

Lemma inv_mutex n0 store c i j p q :
  inv n0 store c →
  threads c !! i = Some p → threads c !! j = Some q →
  critical p = true → critical q = true → i = j.
Proof.
  intros (_ & Hmutex & _) Hi Hj Hp Hq.
  apply (Hmutex i p Hi) in Hp. apply (Hmutex j q Hj) in Hq. congruence.
Qed.

(** One caller, statement by statement, does what the function does. *)
Lemma single_caller w :
  fst (get_colab_token w) ≠ Unfinished →
  run (replicate 9 0%nat) (callers 1 w)
  = Config (snd (get_colab_token w)) None [Returned (fst (get_colab_token w))].
Proof.
  destruct w as [vars cfg colab store n [checked kept]].
  destruct colab; [|by intros _].
  destruct checked; [by intros _|].
  destruct store as [get|]; [|by intros _].
  assert (Hrun : get_colab_token
            (Env vars cfg true (Some get) n (ColabState false kept))
          = match get n with
            | Ok token =>
                (Ok (cached (Ok token)),
                 Env vars cfg true (Some get) (S n)
                     (ColabState true (cached (Ok token))))
            | Raise e =>
                if is_Exception e
                then (Ok None, Env vars cfg true (Some get) (S n)
                                   (ColabState true None))
                else (Raise e, Env vars cfg true (Some get) (S n)
                                   (ColabState false kept))
            | Unfinished =>
                (Unfinished, Env vars cfg true (Some get) (S n)
                                 (ColabState false kept))
            end).
  { unfold get_colab_token, bind, ask, ret, try_except, userdata_get, lift,
      set_colab_state, strip_method. simpl.
    destruct (get n) as [[t|]|e|]; simpl; try done.
    by destruct (is_Exception e). }
  rewrite Hrun. clear Hrun.
  unfold callers, run. cbn.
  destruct (get n) as [[t|]|e|]; [| | |done]; intros _; cbn.
  - done.
  - done.
  - by destruct (is_Exception e).
Qed.

End colab_facts.

(** C9. In a notebook, [get_colab_token] asks the secret store at most
    once in the life of the process.  The first call whose lookup ends, with
    a token, with nothing or with an [Exception], makes one lookup and
    caches what came of it; every later call returns the cached value and
    makes no lookup.  Among concurrent callers, whatever the interleaving,
    at most one is inside the locked block at a time and at most one lookup
    is made. *)
Theorem colab_token_queried_once :
  (∀ w get n,
     Auth.is_google_colab w = true →
     Auth.is_checked (Auth._colab_state w) = false →
     Auth.userdata w = Some get →
     Colab.completes (get (Auth.lookups w)) = true →
     Colab.calls (S n) w
     = (replicate (S n) (Py.Ok (Colab.cached (get (Auth.lookups w)))),
        Colab.with_state
          (Auth.ColabState true (Colab.cached (get (Auth.lookups w))))
          (Colab.counted w)))
  ∧ (∀ w, Auth.is_google_colab w = true →
       Auth.is_checked (Auth._colab_state w) = true →
       Auth.get_colab_token w
       = (Py.Ok (Auth.secret (Auth._colab_state w)), w))
  ∧ (∀ w n schedule,
       Auth.is_checked (Auth._colab_state w) = false →
       (∀ get, Auth.userdata w = Some get →
               Colab.interrupted (get (Auth.lookups w)) = false) →
       let c := Colab.run schedule (Colab.callers n w) in
       (Auth.lookups (Colab.shared c) ≤ S (Auth.lookups w))%nat
       ∧ ∀ i j p q,
           Colab.threads c !! i = Some p → Colab.threads c !! j = Some q →
           Colab.critical p = true → Colab.critical q = true → i = j)
  ∧ (∀ w, fst (Auth.get_colab_token w) ≠ Py.Unfinished →
       Colab.run (replicate 9 0%nat) (Colab.callers 1 w)
       = Colab.Config (snd (Auth.get_colab_token w)) None
           [Colab.Returned (fst (Auth.get_colab_token w))]).
Proof.
  split; [|split; [|split]].
  - intros w get n Hc Hk Hu Hdone. simpl.
    rewrite (get_colab_token_first w get Hc Hk Hu Hdone).
    by rewrite calls_cached.
  - exact get_colab_token_cached.
  - intros w n schedule Hk Hget c.
    assert (Hinv : Colab.inv (Auth.lookups w) (Auth.userdata w) c).
    { apply inv_run; [done|]. by apply inv_callers. }
    split; [by eapply inv_lookups|].
    intros i j p q. by eapply inv_mutex.
  - exact single_caller.
Qed.

Lemma colab_token_queried_once_witness :
  Colab.calls 3 (Samples.notebook [] (Py.Ok (Some " id:secret ")))
  = ([Py.Ok (Some "id:secret"); Py.Ok (Some "id:secret");
      Py.Ok (Some "id:secret")],
     Colab.with_state (Auth.ColabState true (Some "id:secret"))
       (Colab.counted (Samples.notebook [] (Py.Ok (Some " id:secret ")))))
  ∧ fst (Colab.calls 2 (Samples.notebook [] (Py.Raise (Py.KeyError "FAL_KEY"))))
    = [Py.Ok None; Py.Ok None]
  ∧ (Auth.lookups
       (Colab.shared
          (Colab.run [0; 1; 1; 0; 2; 0; 1; 0; 0; 2; 0; 0; 1; 0; 1; 2; 2; 1; 2; 2]%nat
             (Colab.callers 3 (Samples.notebook [] (Py.Ok None)))))
     ≤ 1)%nat.
Proof.
  destruct colab_token_queried_once as (Hfirst & _ & Hmany & _).
  split; [|split].
  - exact (Hfirst (Samples.notebook [] (Py.Ok (Some " id:secret ")))
             (fun _ => Py.Ok (Some " id:secret ")) 2%nat
             eq_refl eq_refl eq_refl eq_refl).
  - by rewrite (Hfirst (Samples.notebook [] (Py.Raise (Py.KeyError "FAL_KEY")))
                  (fun _ => Py.Raise (Py.KeyError "FAL_KEY")) 1%nat
                  eq_refl eq_refl eq_refl eq_refl).
  - apply (Hmany (Samples.notebook [] (Py.Ok None)) 3%nat); [reflexivity|].
    intros get [= <-]. reflexivity.
Defined.

(* ===================================================================== *)
(** * Part III: further properties of the code                             *)
(* ===================================================================== *)

(** ** More on app ids *)

Section app_id_facts.
Import Py Apps.

Lemma contains_replace_first c d s :
  contains c s = true → contains d (replace_first c d s) = true.
Proof.
  induction s as [|x s IH]; simpl; [done|].
  destruct (Ascii.eqb_spec x c) as [->|Hxc].
  - intros _. simpl. by rewrite Ascii.eqb_refl.
  - intros H. simpl. destruct (Ascii.eqb x d); [done|]. by apply IH.
Qed.

Lemma length_replace_first c d s :
  String.length (replace_first c d s) = String.length s.
Proof.
  induction s as [|x s IH]; simpl; [done|].
  destruct (Ascii.eqb x c); simpl; by rewrite ?IH.
Qed.

Lemma contains_replace_first_inv c d s :
  c ≠ d →
  contains d (replace_first c d s) = true →
  contains d s = true ∨ contains c s = true.
Proof.
  intros Hcd. induction s as [|x s IH]; simpl; [done|].
  destruct (Ascii.eqb_spec x c) as [->|Hxc]; [by right|].
  simpl. destruct (Ascii.eqb x d); [by left|]. done.
Qed.

Lemma split_parts_clean c s :
  Forall (λ p, contains c p = false) (split c s).
Proof.
  induction s as [|x s IH]; simpl; [by repeat constructor|].
  destruct (Ascii.eqb_spec x c) as [->|Hxc]; [by constructor|].
  pose proof (split_nonempty c s) as Hne.
  destruct (split c s) as [|p ps]; [done|].
  apply Forall_cons in IH as [Hp Hps]. constructor; [|done].
  simpl. by rewrite (proj2 (Ascii.eqb_neq _ _) Hxc).
Qed.

Lemma split_app_clean c p s :
  contains c p = false →
  split c (p +:+ String c s) = p :: split c s.
Proof.
  induction p as [|x p IH]; simpl.
  - intros _. by rewrite Ascii.eqb_refl.
  - destruct (Ascii.eqb x c); [done|]. intros H. by rewrite (IH H).
Qed.

(** Splitting what was joined gives the parts back. *)
Lemma split_join c ps :
  ps ≠ [] → Forall (λ p, contains c p = false) ps →
  split c (join (String c EmptyString) ps) = ps.
Proof.
  induction ps as [|p ps IH]; [done|]. intros _ [Hp Hps]%Forall_cons.
  destruct ps as [|q ps].
  - simpl. by apply split_no_sep.
  - rewrite join_cons_cons.
    change (split c (p +:+ String c (join (String c "") (q :: ps)))
            = p :: q :: ps).
    rewrite (split_app_clean c p _ Hp). by rewrite IH.
Qed.

Lemma backwards_compatible_idempotent s :
  _backwards_compatible_app_id (_backwards_compatible_app_id s)
  = _backwards_compatible_app_id s.
Proof.
  unfold _backwards_compatible_app_id.
  destruct (contains "/" s) eqn:Hs; simpl; [by rewrite Hs|].
  destruct (contains "-" s) eqn:Hd.
  - by rewrite (contains_replace_first _ _ _ Hd).
  - rewrite (replace_first_absent _ _ _ Hd), Hs. simpl.
    by rewrite (replace_first_absent _ _ _ Hd).
Qed.

(** The parts kept by [__post_init__]. *)
Lemma canonical_parts app_id rid creds :
  ∃ q, new_handle app_id rid creds = Ok (Handle (join "/" q) rid creds)
       ∧ split "/" (join "/" q) = q
       ∧ (1 ≤ length q ≤ 3)%nat
       ∧ (head q ≠ Some "workflows" → (length q ≤ 2)%nat)
       ∧ (length q = 1%nat →
            join "/" q = _backwards_compatible_app_id app_id).
Proof.
  unfold new_handle. rewrite post_init_parts. cbv zeta.
  set (parts := split "/" (_backwards_compatible_app_id app_id)).
  assert (Hne : parts ≠ []) by apply split_nonempty.
  assert (Hclean : Forall (λ p, contains "/" p = false) parts)
    by apply split_parts_clean.
  assert (Hjoin : join "/" parts = _backwards_compatible_app_id app_id)
    by apply join_split.
  destruct parts as [|p0 ps] eqn:Hparts; [done|].
  simpl head. case_bool_decide as Hw.
  - exists (take 3 (p0 :: ps)). split; [done|]. split; [|split; [|split]].
    + apply split_join; [done|]. by apply Forall_take.
    + rewrite length_take. simpl length. lia.
    + intros H. by destruct H.
    + intros Hlen. destruct ps as [|p1 [|p2 ps]]; [done|done|done].
  - exists (take 2 (p0 :: ps)). split; [done|]. split; [|split; [|split]].
    + apply split_join; [done|]. by apply Forall_take.
    + rewrite length_take. simpl length. lia.
    + intros _. rewrite length_take. simpl length. lia.
    + intros Hlen. destruct ps as [|p1 [|p2 ps]]; [done|done|done].
Qed.

End app_id_facts.

(** X1. Building a handle from the app id of a handle changes nothing:
    canonicalization is idempotent (and never fails). *)
Theorem new_handle_idempotent (app_id rid : string)
    (creds : list (string * string)) :
  ∃ h, Apps.new_handle app_id rid creds = Py.Ok h
       ∧ Apps.new_handle (Apps.app_id h) rid creds = Py.Ok h.
Proof.
  destruct (canonical_parts app_id rid creds)
    as (q & Hq & Hsplit & [Hlo Hhi] & Hw & Hone).
  eexists. split; [exact Hq|]. simpl Apps.app_id.
  unfold Apps.new_handle. rewrite post_init_parts. cbv zeta.
  assert (Hbc : Apps._backwards_compatible_app_id (Py.join "/" q)
                = Py.join "/" q).
  { destruct q as [|p [|p' q']]; [simpl in Hlo; lia| |].
    - rewrite (Hone eq_refl). apply backwards_compatible_idempotent.
    - unfold Apps._backwards_compatible_app_id.
      assert (Py.contains "/" (Py.join "/" (p :: p' :: q')) = true) as ->; [|done].
      rewrite join_cons_cons. clear. induction p as [|x p IH]; simpl; [done|].
      by destruct (Ascii.eqb x "/"). }
  rewrite Hbc, Hsplit. case_bool_decide as Hhead.
  - by rewrite take_ge by lia.
  - by rewrite take_ge by (apply Hw; done).
Qed.

(** X2. The app id of a handle has at most three slash-separated parts, and
    at most two unless the first is "workflows". *)
Theorem new_handle_bounded (app_id rid : string)
    (creds : list (string * string)) :
  ∃ h, Apps.new_handle app_id rid creds = Py.Ok h
       ∧ (1 ≤ length (Py.split "/" (Apps.app_id h)) ≤ 3)%nat
       ∧ (head (Py.split "/" (Apps.app_id h)) ≠ Some "workflows" →
          (length (Py.split "/" (Apps.app_id h)) ≤ 2)%nat).
Proof.
  destruct (canonical_parts app_id rid creds)
    as (q & Hq & Hsplit & Hlen & Hw & _).
  eexists. split; [exact Hq|]. simpl Apps.app_id. by rewrite Hsplit.
Qed.

(** X3. [_backwards_compatible_app_id] is idempotent, keeps the length of
    the id, leaves an id with a slash as it is, and gives an id with a slash
    exactly when the id had a slash or a dash. *)
Theorem backwards_compatible_app_id_facts (app_id : string) :
  Apps._backwards_compatible_app_id (Apps._backwards_compatible_app_id app_id)
  = Apps._backwards_compatible_app_id app_id
  ∧ String.length (Apps._backwards_compatible_app_id app_id)
    = String.length app_id
  ∧ (Py.contains "/" app_id = true →
     Apps._backwards_compatible_app_id app_id = app_id)
  ∧ (Py.contains "/" (Apps._backwards_compatible_app_id app_id) = true
     ↔ Py.contains "/" app_id = true ∨ Py.contains "-" app_id = true).
Proof.
  split; [apply backwards_compatible_idempotent|].
  unfold Apps._backwards_compatible_app_id.
  destruct (Py.contains "/" app_id) eqn:Hs; simpl.
  - repeat split; auto.
  - split; [apply length_replace_first|]. split; [done|]. split.
    + intros H. apply contains_replace_first_inv in H; [|done].
      destruct H; [congruence|by right].
    + intros [?|H]; [done|]. by apply contains_replace_first.
Qed.

Lemma backwards_compatible_app_id_facts_witness :
  Apps._backwards_compatible_app_id "user/my-app" = "user/my-app"
  ∧ Py.contains "/" (Apps._backwards_compatible_app_id "123-my-app") = true.
Proof.
  destruct (backwards_compatible_app_id_facts "user/my-app") as (_ & _ & H & _).
  destruct (backwards_compatible_app_id_facts "123-my-app") as (_ & _ & _ & H').
  split; [exact (H eq_refl)|]. apply H'. right. reflexivity.
Defined.

(** ** More on status polls *)

Section answer_facts.
Import Py Apps Polls.
Context {D : Decoder} {F : Flags}.

(** What [status] makes of a reply, case by case. *)
Lemma answer_cases self logs r :
  answer self logs r =
    match r with
    | NoReply => Raise TransportError
    | Replied resp =>
        if is_success resp then
          match loads (text resp) with
          | None => Raise JSONDecodeError
          | Some data =>
              if status_code resp =? 200 then
                match getitem data "logs" with
                | Ok l => Ok (Completed l)
                | Raise e => Raise e
                | Unfinished => Unfinished
                end
              else
                match getitem data "status" with
                | Ok st =>
                    if py_eq st (JStr "IN_QUEUE") then
                      match getitem data "queue_position" with
                      | Ok p => Ok (Queued p)
                      | Raise e => Raise e
                      | Unfinished => Unfinished
                      end
                    else if py_eq st (JStr "IN_PROGRESS") then
                      match getitem data "logs" with
                      | Ok l => Ok (InProgress l)
                      | Raise e => Raise e
                      | Unfinished => Unfinished
                      end
                    else Raise (ValueError [Lit "Unknown status: "; Fmt st])
                | Raise e => Raise e
                | Unfinished => Unfinished
                end
          end
        else Raise (HTTPStatusError LibraryMessage resp)
    end.
Proof.
  unfold answer, status, bind, client_send, lift, ret, raise,
    raise_for_status, response_json. simpl.
  destruct r as [resp|]; [|done]. simpl.
  destruct (is_success resp); simpl; [|done].
  destruct (loads (text resp)) as [data|]; simpl; [|done].
  destruct (status_code resp =? 200); simpl.
  - by destruct (getitem data "logs").
  - destruct (getitem data "status") as [st| |]; simpl; [|done|done].
    destruct (py_eq st (JStr "IN_QUEUE")); simpl;
      [by destruct (getitem data "queue_position")|].
    destruct (py_eq st (JStr "IN_PROGRESS")); simpl; [|done].
    by destruct (getitem data "logs").
Qed.

End answer_facts.

(** X4. [RequestHandle.status] when the exchange itself fails: with no
    reply the transport error is raised; a reply that is not a 2xx raises
    the status error of [raise_for_status], whatever its body; a 2xx whose
    body does not decode raises [JSONDecodeError].  One request was sent in
    each case. *)
Theorem status_transport_failures :
  ∀ (D : Py.Decoder) (F : Apps.Flags) (self : Apps.RequestHandle)
    (logs : bool) (w : Apps.world),
    let after := Apps.record (Apps.Sent (Apps.status_request self logs)) w in
    (Apps.server w (Apps.sent w) = Apps.NoReply →
       Apps.status self logs w = (Py.Raise Py.TransportError, after))
    ∧ (∀ resp, Apps.server w (Apps.sent w) = Apps.Replied resp →
         Apps.is_success resp = false →
         Apps.status self logs w
         = (Py.Raise (Py.HTTPStatusError Py.LibraryMessage resp), after))
    ∧ (∀ resp, Apps.server w (Apps.sent w) = Apps.Replied resp →
         Apps.is_success resp = true →
         Py.loads (Py.text resp) = None →
         Apps.status self logs w = (Py.Raise Py.JSONDecodeError, after)).
Proof.
  intros D F self logs w after. subst after.
  rewrite status_answer, answer_cases.
  split; [|split].
  - by intros ->.
  - intros resp -> Hfail. by rewrite Hfail.
  - intros resp -> Hok Hbody. by rewrite Hok, Hbody.
Qed.

Lemma status_transport_failures_witness :
  fst (Apps.status (D:=Json.reference_decoder) (F:=Samples.flags)
         Samples.handle false (Samples.always Apps.NoReply))
  = Py.Raise Py.TransportError
  ∧ fst (Apps.status (D:=Json.reference_decoder) (F:=Samples.flags)
           Samples.handle false
           (Samples.always (Apps.Replied Samples.rejected)))
    = Py.Raise (Py.HTTPStatusError Py.LibraryMessage Samples.rejected)
  ∧ fst (Apps.status (D:=Json.reference_decoder) (F:=Samples.flags)
           Samples.handle false
           (Samples.always
              (Apps.Replied (Py.Response 200 (Some "text/plain") "done"))))
    = Py.Raise Py.JSONDecodeError.
Proof.
  split; [|split].
  - destruct (status_transport_failures Json.reference_decoder Samples.flags
                Samples.handle false (Samples.always Apps.NoReply))
      as (H & _). by rewrite (H eq_refl).
  - destruct (status_transport_failures Json.reference_decoder Samples.flags
                Samples.handle false
                (Samples.always (Apps.Replied Samples.rejected)))
      as (_ & H & _). by rewrite (H Samples.rejected eq_refl eq_refl).
  - destruct (status_transport_failures Json.reference_decoder Samples.flags
                Samples.handle false
                (Samples.always
                   (Apps.Replied (Py.Response 200 (Some "text/plain") "done"))))
      as (_ & _ & H). by rewrite (H _ eq_refl eq_refl eq_refl).
Defined.

(** X5. [RequestHandle.status] on a 2xx reply whose body has not the
    expected shape: a body that is not an object raises [TypeError]; an
    object without the key that is read raises the [KeyError] of that key
    ("logs" on a 200, "status" otherwise, then "queue_position" or "logs");
    a "status" that is not a string is an unknown status. *)
Theorem status_shape_failures :
  ∀ (D : Py.Decoder) (F : Apps.Flags) (self : Apps.RequestHandle)
    (logs : bool) (w : Apps.world) (resp : Py.response) (data : Py.json),
    Apps.server w (Apps.sent w) = Apps.Replied resp →
    Apps.is_success resp = true →
    Py.loads (Py.text resp) = Some data →
    let run := fst (Apps.status self logs w) in
    ((∀ d, data ≠ Py.JObj d) → run = Py.Raise Py.TypeError)
    ∧ (∀ d, data = Py.JObj d →
         (Py.status_code resp = 200 → Py.dict_get "logs" d = None →
            run = Py.Raise (Py.KeyError "logs"))
         ∧ (Py.status_code resp ≠ 200 → Py.dict_get "status" d = None →
              run = Py.Raise (Py.KeyError "status"))
         ∧ (Py.status_code resp ≠ 200 →
              Py.dict_get "status" d = Some (Py.JStr "IN_QUEUE") →
              Py.dict_get "queue_position" d = None →
              run = Py.Raise (Py.KeyError "queue_position"))
         ∧ (Py.status_code resp ≠ 200 →
              Py.dict_get "status" d = Some (Py.JStr "IN_PROGRESS") →
              Py.dict_get "logs" d = None →
              run = Py.Raise (Py.KeyError "logs"))
         ∧ (Py.status_code resp ≠ 200 →
              ∀ st, Py.dict_get "status" d = Some st →
                    (∀ s, st ≠ Py.JStr s) →
                    run = Py.Raise (Py.ValueError [Py.Lit "Unknown status: ";
                                                   Py.Fmt st]))).
Proof.
  intros D F self logs w resp data Hreply Hok Hbody run. subst run.
  rewrite status_answer, answer_cases, Hreply, Hok, Hbody. simpl fst.
  split.
  - intros Hshape. destruct data; try (by destruct (Py.status_code resp =? 200)).
    by destruct (Hshape items).
  - intros d ->. unfold Py.getitem, Py.subscript.
    split; [|split; [|split; [|split]]].
    + intros ->%Z.eqb_eq ->. done.
    + intros ->%Z.eqb_neq ->. done.
    + intros ->%Z.eqb_neq -> ->. done.
    + intros ->%Z.eqb_neq -> ->. done.
    + intros ->%Z.eqb_neq st -> Hst.
      rewrite !py_eq_str_false by apply Hst. done.
Qed.

Lemma status_shape_failures_witness :
  fst (Apps.status (D:=Json.reference_decoder) (F:=Samples.flags)
         Samples.handle false
         (Samples.always (Samples.done_ (Py.JArr [Py.JStr "logs"]))))
  = Py.Raise Py.TypeError
  ∧ fst (Apps.status (D:=Json.reference_decoder) (F:=Samples.flags)
           Samples.handle false
           (Samples.always (Samples.done_ (Py.JObj [("status", Py.JStr "OK")]))))
    = Py.Raise (Py.KeyError "logs")
  ∧ fst (Apps.status (D:=Json.reference_decoder) (F:=Samples.flags)
           Samples.handle false
           (Samples.always (Samples.accepted (Py.JObj [("status", Py.JInt 2)]))))
    = Py.Raise (Py.ValueError [Py.Lit "Unknown status: "; Py.Fmt (Py.JInt 2)]).
Proof.
  split; [|split].
  - destruct (status_shape_failures Json.reference_decoder Samples.flags
                Samples.handle false
                (Samples.always (Samples.done_ (Py.JArr [Py.JStr "logs"])))
                _ (Py.JArr [Py.JStr "logs"]) eq_refl eq_refl eq_refl)
      as [H _]. apply H. discriminate.
  - destruct (status_shape_failures Json.reference_decoder Samples.flags
                Samples.handle false
                (Samples.always
                   (Samples.done_ (Py.JObj [("status", Py.JStr "OK")])))
                _ (Py.JObj [("status", Py.JStr "OK")]) eq_refl eq_refl eq_refl)
      as [_ H].
    destruct (H _ eq_refl) as (H1 & _). apply H1; reflexivity.
  - destruct (status_shape_failures Json.reference_decoder Samples.flags
                Samples.handle false
                (Samples.always
                   (Samples.accepted (Py.JObj [("status", Py.JInt 2)])))
                _ (Py.JObj [("status", Py.JInt 2)]) eq_refl eq_refl eq_refl)
      as [_ H].
    destruct (H _ eq_refl) as (_ & _ & _ & _ & H5).
    apply (H5 ltac:(discriminate) (Py.JInt 2) eq_refl). discriminate.
Defined.

(** ** More on the handle: cancelling, polling errors, getting the result *)

Section handle_facts.
Import Py Apps Polls.
Context {D : Decoder} {F : Flags}.

Lemma collect_raises ss :
  ∀ fuel g acc w e,
  gen_state_of g ≠ Finished →
  Forall (λ s, is_Completed s = false) ss →
  (∀ k s, ss !! k = Some s →
     answer (gen_self g) (gen_logs g) (server w (sent w + k)) = Ok s) →
  answer (gen_self g) (gen_logs g) (server w (sent w + length ss)) = Raise e →
  (length ss < fuel)%nat →
  collect fuel g acc w =
    (Raise e, acc ++ ss, at_state g Finished,
     extend w (entry g
               ++ Sent (status_request (gen_self g) (gen_logs g))
                  :: rounds (length ss) (gen_poll_delay g)
                       (status_request (gen_self g) (gen_logs g)))).
Proof.
  induction ss as [|s ss IH]; intros fuel g acc w e Hg Hss Hans Hend Hfuel;
    (destruct fuel as [|fuel]; [simpl in Hfuel; lia|]); simpl collect;
    rewrite (next_answer _ _ Hg); cbv zeta.
  - simpl in Hend. rewrite Nat.add_0_r in Hend. rewrite Hend. simpl.
    by rewrite app_nil_r.
  - apply Forall_cons in Hss as [Hs Hss].
    pose proof (Hans 0%nat s eq_refl) as H0. rewrite Nat.add_0_r in H0.
    rewrite H0, Hs.
    rewrite (IH fuel _ _ _ e).
    + simpl. rewrite extend_extend, <- !app_assoc. done.
    + done.
    + done.
    + intros k s' Hk. simpl gen_self. simpl gen_logs. simpl server.
      rewrite sent_extend_round.
      replace (S (sent w) + k)%nat with (sent w + S k)%nat by lia.
      by apply Hans.
    + simpl gen_self. simpl gen_logs. simpl server.
      rewrite sent_extend_round.
      by replace (S (sent w) + length ss)%nat
        with (sent w + S (length ss))%nat by lia.
    + simpl in Hfuel. lia.
Qed.

Lemma sent_rounds n d r :
  length (filter is_Sent (rounds n d r)) = n.
Proof. induction n as [|n IH]; simpl; [done|]. by rewrite IH. Qed.

Lemma sent_extend_polls w n d r :
  sent (extend w (Sent r :: rounds n d r)) = (sent w + S n)%nat.
Proof.
  unfold sent, extend. simpl. rewrite filter_app, length_app. simpl.
  rewrite sent_rounds. lia.
Qed.

(** [fetch_result], reply by reply. *)
Lemma fetch_result_cases self w :
  fetch_result self w =
    (match server w (sent w) with
     | NoReply => Raise TransportError
     | Replied resp =>
         if is_success resp then
           match loads (text resp) with
           | Some v => Ok v
           | None => Raise JSONDecodeError
           end
         else
           match content_type resp with
           | None => Raise (KeyError "Content-Type")
           | Some ct =>
               if String.eqb ct "application/json" then
                 Raise (HTTPStatusError
                          (Message (pretty (status_code resp) +:+ ": "
                                    +:+ text resp)) resp)
               else Raise (HTTPStatusError LibraryMessage resp)
           end
     end,
     record (Sent (result_request self)) w).
Proof.
  unfold fetch_result, bind, client_send, try_except, lift, raise,
    raise_for_status, content_type_header, response_json.
  destruct (server w (sent w)) as [resp|]; [|done].
  destruct (is_success resp); [by destruct (loads (text resp))|].
  destruct (content_type resp) as [ct|]; [|done].
  by destruct (String.eqb ct "application/json").
Qed.

(** [cancel], reply by reply. *)
Lemma cancel_cases self w :
  cancel self w =
    (match server w (sent w) with
     | NoReply => Raise TransportError
     | Replied resp =>
         if is_success resp then Ok tt
         else Raise (HTTPStatusError LibraryMessage resp)
     end,
     record (Sent (Request "PUT"
                     (_QUEUE_URL_FORMAT (app_id self) +:+ "/requests/"
                      +:+ request_id self +:+ "/cancel")
                     (_creds self) [])) w).
Proof.
  unfold cancel, bind, client_send, lift, raise_for_status.
  destruct (server w (sent w)) as [resp|]; [|done].
  by destruct (is_success resp).
Qed.

End handle_facts.

(** X6. [RequestHandle.cancel] sends one PUT to the cancel address of the
    request and returns on any 2xx reply, whatever its body; on another
    reply it raises the status error of [raise_for_status] as it is, and
    with no reply the transport error. *)
Theorem cancel_outcomes :
  ∀ (D : Py.Decoder) (F : Apps.Flags) (self : Apps.RequestHandle)
    (w : Apps.world),
    ∃ r, Apps.cancel self w = (r, Apps.record (Apps.Sent (Apps.Request "PUT"
                  (Apps._QUEUE_URL_FORMAT (Apps.app_id self) +:+ "/requests/"
                   +:+ Apps.request_id self +:+ "/cancel")
                  (Apps._creds self) [])) w)
      ∧ (∀ resp, Apps.server w (Apps.sent w) = Apps.Replied resp →
           Apps.is_success resp = true → r = Py.Ok tt)
      ∧ (∀ resp, Apps.server w (Apps.sent w) = Apps.Replied resp →
           Apps.is_success resp = false →
           r = Py.Raise (Py.HTTPStatusError Py.LibraryMessage resp))
      ∧ (Apps.server w (Apps.sent w) = Apps.NoReply →
           r = Py.Raise Py.TransportError).
Proof.
  intros D F self w. rewrite cancel_cases. eexists. split; [reflexivity|].
  split; [|split].
  - intros resp -> Hok. by rewrite Hok.
  - intros resp -> Hfail. by rewrite Hfail.
  - by intros ->.
Qed.

Lemma cancel_outcomes_witness :
  fst (Apps.cancel (F:=Samples.flags) Samples.handle
         (Samples.always (Apps.Replied (Py.Response 202 None "not json"))))
  = Py.Ok tt
  ∧ fst (Apps.cancel (F:=Samples.flags) Samples.handle
           (Samples.always (Apps.Replied Samples.not_found)))
    = Py.Raise (Py.HTTPStatusError Py.LibraryMessage Samples.not_found)
  ∧ fst (Apps.cancel (F:=Samples.flags) Samples.handle
           (Samples.always Apps.NoReply))
    = Py.Raise Py.TransportError.
Proof.
  split; [|split].
  - destruct (cancel_outcomes Json.reference_decoder Samples.flags
                Samples.handle
                (Samples.always
                   (Apps.Replied (Py.Response 202 None "not json"))))
      as (r & Hrun & Hok & _).
    rewrite Hrun. exact (Hok _ eq_refl eq_refl).
  - destruct (cancel_outcomes Json.reference_decoder Samples.flags
                Samples.handle (Samples.always (Apps.Replied Samples.not_found)))
      as (r & Hrun & _ & Hfail & _).
    rewrite Hrun. exact (Hfail _ eq_refl eq_refl).
  - destruct (cancel_outcomes Json.reference_decoder Samples.flags
                Samples.handle (Samples.always Apps.NoReply))
      as (r & Hrun & _ & _ & Hnone).
    rewrite Hrun. exact (Hnone eq_refl).
Defined.

(** X7. When a poll of [iter_events] raises, the loop over the events has
    received the statuses of the polls before it, in order, and ends with
    that exception; the generator is then exhausted: iterating it again
    ends at once, with no request and no sleep. *)
Theorem iter_events_poll_error :
  ∀ (D : Py.Decoder) (F : Apps.Flags) (self : Apps.RequestHandle)
    (logs : option bool) (delay : option Q) (w : Apps.world)
    (ss : list Apps.Status) (e : Py.exn) (fuel : nat),
    let g := Apps.iter_events self logs delay in
    let req := Apps.status_request self (Apps.gen_logs g) in
    Forall (λ s, Apps.is_Completed s = false) ss →
    (∀ k s, ss !! k = Some s →
       Polls.answer self (Apps.gen_logs g)
         (Apps.server w (Apps.sent w + k)) = Py.Ok s) →
    Polls.answer self (Apps.gen_logs g)
      (Apps.server w (Apps.sent w + length ss)) = Py.Raise e →
    (length ss < fuel)%nat →
    Apps.collect fuel g [] w =
      (Py.Raise e, ss, Apps.at_state g Apps.Finished,
       Polls.extend w
         (Apps.Sent req
          :: Polls.rounds (length ss) (Apps.gen_poll_delay g) req))
    ∧ ∀ fuel' acc w',
        Apps.collect (S fuel') (Apps.at_state g Apps.Finished) acc w'
        = (Py.Ok tt, acc, Apps.at_state g Apps.Finished, w').
Proof.
  intros D F self logs delay w ss e fuel g req Hss Hans Hend Hfuel. split.
  - by rewrite (collect_raises ss fuel g [] w e).
  - done.
Qed.

Lemma iter_events_poll_error_witness :
  Apps.collect (D:=Json.reference_decoder) (F:=Samples.flags) 5
    (Apps.iter_events Samples.handle None None) []
    (Apps.World (fun k => match k with
                          | 0%nat => Samples.accepted (Samples.in_queue 1)
                          | _ => Apps.Replied Samples.not_found
                          end) [])
  = (Py.Raise (Py.HTTPStatusError Py.LibraryMessage Samples.not_found),
     [Apps.Queued (Py.JInt 1)],
     Apps.Generator Samples.handle false 0.2%Q Apps.Finished,
     Apps.World (fun k => match k with
                          | 0%nat => Samples.accepted (Samples.in_queue 1)
                          | _ => Apps.Replied Samples.not_found
                          end)
       [Apps.Sent (Apps.status_request (F:=Samples.flags) Samples.handle false);
        Apps.Slept 0.2%Q;
        Apps.Sent (Apps.status_request (F:=Samples.flags) Samples.handle false)]).
Proof.
  refine (proj1 (iter_events_poll_error Json.reference_decoder Samples.flags
            Samples.handle None None
            (Apps.World (fun k => match k with
                                  | 0%nat => Samples.accepted (Samples.in_queue 1)
                                  | _ => Apps.Replied Samples.not_found
                                  end) [])
            [Apps.Queued (Py.JInt 1)]
            (Py.HTTPStatusError Py.LibraryMessage Samples.not_found) 5%nat
            _ _ _ _)).
  - repeat constructor.
  - intros [|k] s; simpl; intros [= <-]; reflexivity.
  - reflexivity.
  - simpl. lia.
Defined.

(** X8. [RequestHandle.get]: when the polls return [n] statuses that are
    not [Completed] and then [Completed], and the reply to the request for
    the result is a 2xx with a JSON body, [get] returns that body as
    decoded, after [n + 1] status requests, [n] sleeps of 0.2 seconds and
    one request for the result.  When a poll raises, [get] raises the same
    and the result is not requested. *)
Theorem get_round_trip :
  ∀ (D : Py.Decoder) (F : Apps.Flags) (self : Apps.RequestHandle)
    (w : Apps.world) (ss : list Apps.Status) (fuel : nat),
    let req := Apps.status_request self false in
    let polled :=
      Polls.extend w (Apps.Sent req :: Polls.rounds (length ss) 0.2%Q req) in
    Forall (λ s, Apps.is_Completed s = false) ss →
    (∀ k s, ss !! k = Some s →
       Polls.answer self false (Apps.server w (Apps.sent w + k)) = Py.Ok s) →
    (length ss < fuel)%nat →
    (∀ l resp v,
       Polls.answer self false (Apps.server w (Apps.sent w + length ss))
       = Py.Ok (Apps.Completed l) →
       Apps.server w (Apps.sent w + S (length ss)) = Apps.Replied resp →
       Apps.is_success resp = true →
       Py.loads (Py.text resp) = Some v →
       Apps.get fuel self w
       = (Py.Ok v, Apps.record (Apps.Sent (Apps.result_request self)) polled))
    ∧ (∀ e,
         Polls.answer self false (Apps.server w (Apps.sent w + length ss))
         = Py.Raise e →
         Apps.get fuel self w = (Py.Raise e, polled)).
Proof.
  intros D F self w ss fuel req polled Hss Hans Hfuel. split.
  - intros l resp v Hend Hreply Hok Hbody. unfold Apps.get.
    rewrite (collect_completes ss fuel _ [] w l); [|done|done|done|done|done].
    simpl app. cbv iota. rewrite fetch_result_cases.
    change (Polls.entry _ ++ ?x) with x. fold req. simpl Apps.gen_poll_delay.
    fold polled. subst polled. rewrite sent_extend_polls. simpl Apps.server.
    by rewrite Hreply, Hok, Hbody.
  - intros e Hend. unfold Apps.get.
    by rewrite (collect_raises ss fuel _ [] w e).
Qed.

Lemma get_round_trip_witness :
  fst (Apps.get (D:=Json.reference_decoder) (F:=Samples.flags) 4
         Samples.handle
         (Apps.World
            (fun k => match k with
                      | 0%nat => Samples.accepted (Samples.in_queue 1)
                      | 1%nat => Samples.done_ (Py.JObj [("logs", Py.JNull)])
                      | _ => Samples.done_ (Py.JObj [("answer", Py.JInt 42)])
                      end) []))
  = Py.Ok (Py.JObj [("answer", Py.JInt 42)])
  ∧ fst (Apps.get (D:=Json.reference_decoder) (F:=Samples.flags) 4
           Samples.handle (Samples.always (Apps.Replied Samples.not_found)))
    = Py.Raise (Py.HTTPStatusError Py.LibraryMessage Samples.not_found).
Proof.
  split.
  - destruct (get_round_trip Json.reference_decoder Samples.flags
                Samples.handle
                (Apps.World
                   (fun k => match k with
                             | 0%nat => Samples.accepted (Samples.in_queue 1)
                             | 1%nat => Samples.done_ (Py.JObj [("logs", Py.JNull)])
                             | _ => Samples.done_ (Py.JObj [("answer", Py.JInt 42)])
                             end) [])
                [Apps.Queued (Py.JInt 1)] 4%nat) as [H _].
    + repeat constructor.
    + intros [|k] s; simpl; intros [= <-]; reflexivity.
    + simpl. lia.
    + by rewrite (H Py.JNull _ (Py.JObj [("answer", Py.JInt 42)])
                    eq_refl eq_refl eq_refl eq_refl).
  - destruct (get_round_trip Json.reference_decoder Samples.flags
                Samples.handle
                (Samples.always (Apps.Replied Samples.not_found)) [] 4%nat)
      as [_ H].
    + constructor.
    + intros k s [=].
    + simpl. lia.
    + by rewrite (H _ eq_refl).
Defined.

(** X9. [RequestHandle.fetch_result] sends one request.  On a 2xx reply
    it returns the body as decoded, and raises [JSONDecodeError] when the
    body does not decode.  On a reply that is not a 2xx and has no
    Content-Type header it raises [KeyError], not the status error.  With
    no reply it raises the transport error. *)
Theorem fetch_result_outcomes :
  ∀ (D : Py.Decoder) (F : Apps.Flags) (self : Apps.RequestHandle)
    (w : Apps.world),
    let after := Apps.record (Apps.Sent (Apps.result_request self)) w in
    (∀ resp v, Apps.server w (Apps.sent w) = Apps.Replied resp →
       Apps.is_success resp = true → Py.loads (Py.text resp) = Some v →
       Apps.fetch_result self w = (Py.Ok v, after))
    ∧ (∀ resp, Apps.server w (Apps.sent w) = Apps.Replied resp →
         Apps.is_success resp = true → Py.loads (Py.text resp) = None →
         Apps.fetch_result self w = (Py.Raise Py.JSONDecodeError, after))
    ∧ (∀ resp, Apps.server w (Apps.sent w) = Apps.Replied resp →
         Apps.is_success resp = false → Py.content_type resp = None →
         Apps.fetch_result self w
         = (Py.Raise (Py.KeyError "Content-Type"), after))
    ∧ (Apps.server w (Apps.sent w) = Apps.NoReply →
         Apps.fetch_result self w = (Py.Raise Py.TransportError, after)).
Proof.
  intros D F self w after. subst after. rewrite fetch_result_cases.
  split; [|split; [|split]].
  - intros resp v -> Hok Hbody. by rewrite Hok, Hbody.
  - intros resp -> Hok Hbody. by rewrite Hok, Hbody.
  - intros resp -> Hfail Hct. by rewrite Hfail, Hct.
  - by intros ->.
Qed.

Lemma fetch_result_outcomes_witness :
  fst (Apps.fetch_result (D:=Json.reference_decoder) (F:=Samples.flags)
         Samples.handle
         (Samples.always (Samples.done_ (Py.JArr [Py.JInt 1; Py.JNull]))))
  = Py.Ok (Py.JArr [Py.JInt 1; Py.JNull])
  ∧ fst (Apps.fetch_result (D:=Json.reference_decoder) (F:=Samples.flags)
           Samples.handle
           (Samples.always (Apps.Replied (Py.Response 200 None "<html>"))))
    = Py.Raise Py.JSONDecodeError
  ∧ fst (Apps.fetch_result (D:=Json.reference_decoder) (F:=Samples.flags)
           Samples.handle
           (Samples.always (Apps.Replied (Py.Response 500 None "{}"))))
    = Py.Raise (Py.KeyError "Content-Type")
  ∧ fst (Apps.fetch_result (D:=Json.reference_decoder) (F:=Samples.flags)
           Samples.handle (Samples.always Apps.NoReply))
    = Py.Raise Py.TransportError.
Proof.
  split; [|split; [|split]].
  - destruct (fetch_result_outcomes Json.reference_decoder Samples.flags
                Samples.handle
                (Samples.always (Samples.done_ (Py.JArr [Py.JInt 1; Py.JNull]))))
      as (H & _).
    by rewrite (H _ (Py.JArr [Py.JInt 1; Py.JNull]) eq_refl eq_refl eq_refl).
  - destruct (fetch_result_outcomes Json.reference_decoder Samples.flags
                Samples.handle
                (Samples.always (Apps.Replied (Py.Response 200 None "<html>"))))
      as (_ & H & _). by rewrite (H _ eq_refl eq_refl eq_refl).
  - destruct (fetch_result_outcomes Json.reference_decoder Samples.flags
                Samples.handle
                (Samples.always (Apps.Replied (Py.Response 500 None "{}"))))
      as (_ & _ & H & _). by rewrite (H _ eq_refl eq_refl eq_refl).
  - destruct (fetch_result_outcomes Json.reference_decoder Samples.flags
                Samples.handle (Samples.always Apps.NoReply))
      as (_ & _ & _ & H). by rewrite (H eq_refl).
Defined.

(** ** More on the framed duplex channel *)

Section duplex_facts.
Import Py WS Frames Duplex.
Context {D : Decoder}.

Lemma peek_closed c : incoming c = [] → _peek c = (Raise ConnectionClosed, c).
Proof.
  destruct c as [ws [b|]]; unfold incoming; simpl; [done|]. by intros ->.
Qed.

Lemma is_meta_iff f : _is_meta f = true ↔ is_Some (control f).
Proof.
  destruct (control f) as [[t r]|] eqn:Hc.
  - rewrite (is_meta_ctrl _ _ _ Hc). split; eauto.
  - rewrite (is_meta_data _ Hc). split; [done|]. by intros [? [=]].
Qed.

(** One round of [_recv_response]. *)
Lemma recv_response_unfold {A} fuel (body : A → frame → A) acc c :
  _recv_response (S fuel) body acc c =
    match incoming c with
    | [] => (Raise ConnectionClosed, c)
    | f :: fs =>
        if _is_meta f then (Ok acc, Conn fs (Some f))
        else _recv_response fuel body (body acc f) (Conn fs None)
    end.
Proof.
  simpl _recv_response. unfold bind at 1, try_except.
  destruct (incoming c) as [|f fs] eqn:Hin.
  - unfold _recv, bind. by rewrite (peek_closed _ Hin).
  - destruct (_is_meta f) eqn:Hm.
    + rewrite (recv_block _ (Raise MetaMessageFound) _ _ _ Hin); [done|].
      intros c'. by rewrite Hm.
    + rewrite (recv_block _ (Ok (Some (body acc f))) _ _ _ Hin); [done|].
      intros c'. by rewrite Hm.
Qed.

(** [_recv_meta], frame by frame. *)
Lemma recv_meta_cases type c :
  _recv_meta type c =
    match incoming c with
    | [] => (Raise ConnectionClosed, c)
    | f :: fs =>
        match control f with
        | Some (t, r) =>
            if py_eq t (JStr type)
            then (match json_loads f with
                  | Ok v => Ok v
                  | _ => Raise (expected type)
                  end, Conn fs None)
            else (Raise (expected type), Conn fs (Some f))
        | None => (Raise (expected type), Conn fs (Some f))
        end
    end.
Proof.
  destruct (incoming c) as [|f fs] eqn:Hin.
  - by apply recv_meta_closed.
  - destruct (control f) as [[t r]|] eqn:Hc.
    + by apply (recv_meta_control type c f fs t r).
    + by apply recv_meta_data.
Qed.

Lemma incoming_buffered fs f : incoming (Conn fs (Some f)) = f :: fs.
Proof. done. Qed.

Lemma incoming_unbuffered fs : incoming (Conn fs None) = fs.
Proof. done. Qed.

(** *** Moving forward only *)

Lemma advances_ret {A} (a : A) : advances (ret a).
Proof. intros c. by exists 0%nat. Qed.

Lemma advances_raise {A} e : advances (raise (A:=A) e).
Proof. intros c. by exists 0%nat. Qed.

Lemma advances_lift {A} (r : result A) : advances (lift r).
Proof. intros c. by exists 0%nat. Qed.

Lemma advances_bind {A B} (m : M _WSConnection A) (k : A → M _WSConnection B) :
  advances m → (∀ a, advances (k a)) → advances (bind m k).
Proof.
  intros Hm Hk c. unfold bind. destruct (Hm c) as [i Hi].
  destruct (m c) as [[a|e|] c1]; simpl in *; [|by exists i|by exists i].
  destruct (Hk a c1) as [j Hj]. exists (i + j)%nat.
  by rewrite Hj, Hi, drop_drop.
Qed.

Lemma advances_recv_meta type : advances (_recv_meta type).
Proof.
  intros c. rewrite recv_meta_cases.
  destruct (incoming c) as [|f fs] eqn:Hin; [exists 0%nat; simpl snd; by rewrite Hin|].
  destruct (control f) as [[t r]|]; [destruct (py_eq t (JStr type))|].
  - by exists 1%nat.
  - by exists 0%nat.
  - by exists 0%nat.
Qed.

Lemma advances_recv_response {A} fuel (body : A → frame → A) acc :
  advances (_recv_response fuel body acc).
Proof.
  revert acc. induction fuel as [|fuel IH]; intros acc c; [by exists 0%nat|].
  rewrite recv_response_unfold.
  destruct (incoming c) as [|f fs] eqn:Hin; [exists 0%nat; simpl snd; by rewrite Hin|].
  destruct (_is_meta f); [by exists 0%nat|].
  destruct (IH (body acc f) (Conn fs None)) as [k Hk]. exists (S k).
  by rewrite Hk.
Qed.

Lemma advances_recv fuel : advances (recv fuel).
Proof.
  unfold recv.
  apply advances_bind; [apply advances_recv_meta|intros start].
  apply advances_bind; [apply advances_lift|intros rid].
  apply advances_bind; [apply advances_recv_response|intros response].
  apply advances_bind; [apply advances_recv_meta|intros end_].
  apply advances_bind; [apply advances_lift|intros end_id].
  destruct (negb _); [apply advances_raise|apply advances_ret].
Qed.

Lemma advances_stream fuel : advances (stream fuel).
Proof.
  unfold stream.
  apply advances_bind; [apply advances_recv_meta|intros start].
  apply advances_bind; [apply advances_lift|intros rid].
  apply advances_bind; [apply advances_recv_response|intros response].
  apply advances_bind; [apply advances_recv_meta|intros end_].
  apply advances_bind; [apply advances_lift|intros end_id].
  destruct (negb _); [apply advances_raise|apply advances_ret].
Qed.

(** *** [recv] and [stream] *)

Lemma recv_response_joined fuel :
  ∀ parts c,
  _recv_response fuel append_part (joined parts) c
  = (map_result joined (fst (_recv_response fuel append_frame parts c)),
     snd (_recv_response fuel append_frame parts c)).
Proof.
  induction fuel as [|fuel IH]; intros parts c; [done|].
  rewrite !recv_response_unfold.
  destruct (incoming c) as [|f fs]; [done|].
  destruct (_is_meta f); [done|].
  rewrite <- IH. f_equal.
  unfold joined, append_frame. rewrite map_app, concat_app. simpl.
  rewrite app_nil_r. by destruct f.
Qed.

Lemma bind_tracks_same {S A B C} (f : B → C) (m : M S A)
    (k1 : A → M S C) (k2 : A → M S B) :
  (∀ a c, k1 a c = (map_result f (fst (k2 a c)), snd (k2 a c))) →
  ∀ c, bind m k1 c = (map_result f (fst (bind m k2 c)), snd (bind m k2 c)).
Proof.
  intros Hk c. unfold bind. destruct (m c) as [[a|e|] c1]; simpl; auto.
Qed.

Lemma bind_tracks_mapped {S A A' B C} (g : A' → A) (f : B → C)
    (m1 : M S A) (m2 : M S A') (k1 : A → M S C) (k2 : A' → M S B) :
  (∀ c, m1 c = (map_result g (fst (m2 c)), snd (m2 c))) →
  (∀ a c, k1 (g a) c = (map_result f (fst (k2 a c)), snd (k2 a c))) →
  ∀ c, bind m1 k1 c = (map_result f (fst (bind m2 k2 c)), snd (bind m2 k2 c)).
Proof.
  intros Hm Hk c. unfold bind. rewrite Hm.
  destruct (m2 c) as [[a|e|] c1]; simpl; auto.
Qed.

Lemma recv_is_joined_stream fuel c :
  recv fuel c
  = (map_result joined (fst (stream fuel c)), snd (stream fuel c)).
Proof.
  revert c. unfold recv, stream.
  apply bind_tracks_same. intros start.
  apply bind_tracks_same. intros rid.
  apply (bind_tracks_mapped joined joined).
  { intros c. change (@nil Byte.byte) with (joined []).
    apply recv_response_joined. }
  intros parts.
  apply bind_tracks_same. intros end_.
  apply bind_tracks_same. intros end_id c.
  by destruct (negb (py_eq end_id rid)).
Qed.

(** A whole response, from its start frame to its matching end frame. *)
Lemma recv_matched c s e ds rest r r' fuel :
  incoming c = s :: ds ++ e :: rest →
  control s = Some (JStr "start", r) →
  Forall (λ f, control f = None) ds →
  control e = Some (JStr "end", r') →
  py_eq r' r = true →
  (length ds < fuel)%nat →
  recv fuel c = (Ok (joined ds), Conn rest None).
Proof.
  intros Hin Hs Hds He Heq Hfuel.
  unfold recv, bind at 1.
  rewrite (recv_meta_control _ _ _ _ _ _ Hin Hs). simpl py_eq. cbv iota.
  destruct (control_decoded _ _ _ Hs) as (d & -> & _ & Hr).
  unfold bind at 1, lift at 1, getitem at 1. simpl subscript. rewrite Hr.
  unfold bind at 1.
  rewrite (recv_response_data _ ds fuel [] (Conn (ds ++ e :: rest) None) e rest);
    [|done|done|eauto|done].
  rewrite foldl_append_part. simpl app.
  unfold bind at 1.
  rewrite (recv_meta_control "end" (Conn rest (Some e)) e rest _ r' eq_refl He).
  simpl py_eq. cbv iota.
  destruct (control_decoded _ _ _ He) as (d' & -> & _ & Hr').
  unfold bind, lift, getitem. simpl subscript. rewrite Hr'.
  by rewrite Heq.
Qed.

End duplex_facts.

Section duplex_more.
Import Py WS Frames Duplex.
Context {D : Decoder}.

Lemma incoming_empty c : incoming c = [] → c = Conn [] None.
Proof. destruct c as [ws [b|]]; unfold incoming; simpl; [done|by intros ->]. Qed.

Lemma recv_response_closed {A} (body : A → frame → A) ds :
  ∀ fuel acc c,
  incoming c = ds → Forall (λ f, control f = None) ds →
  (length ds < fuel)%nat →
  _recv_response fuel body acc c = (Raise ConnectionClosed, Conn [] None).
Proof.
  induction ds as [|d ds IH]; intros fuel acc c Hin Hds Hfuel;
    (destruct fuel as [|fuel]; [simpl in Hfuel; lia|]);
    rewrite recv_response_unfold, Hin.
  - by rewrite (incoming_empty _ Hin).
  - apply Forall_cons in Hds as [Hd Hds]. rewrite (is_meta_data _ Hd).
    apply IH; [done|done|simpl in Hfuel; lia].
Qed.

Lemma foldl_append_frame ds acc : foldl append_frame acc ds = acc ++ ds.
Proof.
  revert acc. induction ds as [|d ds IH]; intros acc; simpl.
  - by rewrite app_nil_r.
  - rewrite IH. unfold append_frame. by rewrite <- app_assoc.
Qed.

End duplex_more.

(** X10. The look-ahead buffer: [_peek] gives the next frame without
    taking it, so peeking again reads nothing more and the frames to come
    are the same; [_consume] after a [_peek] drops exactly that frame; and
    [_consume] on an empty buffer raises [ValueError] and changes nothing. *)
Theorem lookahead_buffer (c : WS._WSConnection) :
  Frames.incoming (snd (WS._peek c)) = Frames.incoming c
  ∧ fst (WS._peek c)
    = match Frames.incoming c with
      | [] => Py.Raise Py.ConnectionClosed
      | f :: _ => Py.Ok f
      end
  ∧ WS._peek (snd (WS._peek c)) = WS._peek c
  ∧ (WS._buffer c = None →
     WS._consume c = (Py.Raise (Py.ValueError [Py.Lit "No data to consume"]), c))
  ∧ (∀ f fs, Frames.incoming c = f :: fs →
       WS._consume (snd (WS._peek c)) = (Py.Ok tt, WS.Conn fs None)).
Proof.
  destruct (Frames.incoming c) as [|f fs] eqn:Hin.
  - rewrite (peek_closed _ Hin). simpl. rewrite (peek_closed _ Hin), Hin.
    repeat split; [|done]. intros Hb. unfold WS._consume. by rewrite Hb.
  - rewrite (peek_incoming _ _ _ Hin). simpl.
    repeat split.
    + intros Hb. unfold WS._consume. by rewrite Hb.
    + by intros f' fs' [= <- <-].
Qed.

Lemma lookahead_buffer_witness :
  WS._consume (WS.Conn [WS.Text "a"] None)
  = (Py.Raise (Py.ValueError [Py.Lit "No data to consume"]),
     WS.Conn [WS.Text "a"] None)
  ∧ WS._consume (snd (WS._peek (WS.Conn [WS.Text "a"; WS.Text "b"] None)))
    = (Py.Ok tt, WS.Conn [WS.Text "b"] None).
Proof.
  split.
  - destruct (lookahead_buffer (WS.Conn [WS.Text "a"] None))
      as (_ & _ & _ & H & _). exact (H eq_refl).
  - destruct (lookahead_buffer (WS.Conn [WS.Text "a"; WS.Text "b"] None))
      as (_ & _ & _ & _ & H). exact (H _ _ eq_refl).
Defined.

(** X11. No frame is read twice, skipped or put back out of order: after
    [_recv_meta], [recv] or [stream], whatever they return or raise, the
    frames still to come are the frames that were to come, less some frames
    at the front. *)
Theorem channel_moves_forward :
  ∀ (D : Py.Decoder) (fuel : nat) (type : string),
    Duplex.advances (WS._recv_meta type)
    ∧ Duplex.advances (WS.recv fuel)
    ∧ Duplex.advances (Duplex.stream fuel).
Proof.
  intros D fuel type. split; [|split].
  - apply advances_recv_meta.
  - apply advances_recv.
  - apply advances_stream.
Qed.

(** X12. A frame that is not a start frame where one is expected is not
    consumed: [recv] raises and leaves the frames to come as they were, so
    every later [recv] on the connection fails in the same way. *)
Theorem recv_stuck_on_bad_start :
  ∀ (D : Py.Decoder) (c : WS._WSConnection) (f : WS.frame)
    (fs : list WS.frame) (fuel : nat),
    Frames.incoming c = f :: fs →
    (∀ r, Frames.control f ≠ Some (Py.JStr "start", r)) →
    let c1 := snd (WS.recv fuel c) in
    Frames.incoming c1 = Frames.incoming c
    ∧ ∀ fuel', WS.recv fuel' c1 = (Py.Raise (Frames.expected "start"), c1).
Proof.
  intros D c f fs fuel Hin Hf.
  assert (Hbad : ∀ c' fuel', Frames.incoming c' = f :: fs →
            WS.recv fuel' c'
            = (Py.Raise (Frames.expected "start"), WS.Conn fs (Some f))).
  { intros c' fuel' Hin'. unfold WS.recv, Py.bind at 1.
    destruct (Frames.control f) as [[t r]|] eqn:Hc.
    - rewrite (recv_meta_control _ _ _ _ _ _ Hin' Hc).
      rewrite py_eq_str_false; [done|]. intros ->. by apply (Hf r).
    - by rewrite (recv_meta_data _ _ _ _ Hin' Hc). }
  cbv zeta. rewrite (Hbad c fuel Hin). simpl snd. split; [by rewrite Hin|].
  intros fuel'. by apply Hbad.
Qed.

Lemma recv_stuck_on_bad_start_witness :
  WS.recv (D:=Json.reference_decoder) 7
    (snd (WS.recv (D:=Json.reference_decoder) 3
            (WS.Conn [WS.Text "early"; Samples.start_frame 1] None)))
  = (Py.Raise (Frames.expected "start"),
     snd (WS.recv (D:=Json.reference_decoder) 3
            (WS.Conn [WS.Text "early"; Samples.start_frame 1] None))).
Proof.
  refine (proj2 (recv_stuck_on_bad_start Json.reference_decoder
                   (WS.Conn [WS.Text "early"; Samples.start_frame 1] None)
                   (WS.Text "early") [Samples.start_frame 1] 3%nat eq_refl _)
                7%nat).
  intros r. vm_compute. discriminate.
Defined.

(** X13. Two responses that follow each other on a connection are
    received by two calls of [recv] in a row: the second starts where the
    first ended. *)
Theorem recv_twice :
  ∀ (D : Py.Decoder) (c : WS._WSConnection) (s1 e1 s2 e2 : WS.frame)
    (ds1 ds2 rest : list WS.frame) (r1 r1' r2 r2' : Py.json) (fuel : nat),
    Frames.incoming c = s1 :: ds1 ++ e1 :: s2 :: ds2 ++ e2 :: rest →
    Frames.control s1 = Some (Py.JStr "start", r1) →
    Forall (λ f, Frames.control f = None) ds1 →
    Frames.control e1 = Some (Py.JStr "end", r1') →
    Py.py_eq r1' r1 = true →
    Frames.control s2 = Some (Py.JStr "start", r2) →
    Forall (λ f, Frames.control f = None) ds2 →
    Frames.control e2 = Some (Py.JStr "end", r2') →
    Py.py_eq r2' r2 = true →
    (length ds1 < fuel)%nat → (length ds2 < fuel)%nat →
    Py.bind (WS.recv fuel)
      (fun first => Py.bind (WS.recv fuel)
         (fun second => Py.ret (first, second))) c
    = (Py.Ok (Duplex.joined ds1, Duplex.joined ds2), WS.Conn rest None).
Proof.
  intros D c s1 e1 s2 e2 ds1 ds2 rest r1 r1' r2 r2' fuel
    Hin Hs1 Hds1 He1 Heq1 Hs2 Hds2 He2 Heq2 Hf1 Hf2.
  unfold Py.bind at 1.
  rewrite (recv_matched c s1 e1 ds1 (s2 :: ds2 ++ e2 :: rest) r1 r1' fuel);
    [|done..].
  unfold Py.bind.
  by rewrite (recv_matched (WS.Conn (s2 :: ds2 ++ e2 :: rest) None)
                s2 e2 ds2 rest r2 r2' fuel).
Qed.

Lemma recv_twice_witness :
  Py.bind (WS.recv (D:=Json.reference_decoder) 2)
    (fun first => Py.bind (WS.recv (D:=Json.reference_decoder) 2)
       (fun second => Py.ret (first, second)))
    (WS.Conn [Samples.start_frame 1; WS.Text "a"; Samples.end_frame 1;
              Samples.start_frame 2; Samples.end_frame 2] None)
  = (Py.Ok (WS.encode "a", []), WS.Conn [] None).
Proof.
  apply (recv_twice Json.reference_decoder _
           (Samples.start_frame 1) (Samples.end_frame 1)
           (Samples.start_frame 2) (Samples.end_frame 2)
           [WS.Text "a"] [] [] (Py.JInt 1) (Py.JInt 1) (Py.JInt 2) (Py.JInt 2)
           2%nat);
    try reflexivity; try (repeat constructor); simpl; lia.
Defined.

(** X14. [recv] returns the bytes of what [stream] yields: on every
    connection the two read the same frames and end alike, and the value of
    [recv] is the frames of [stream] joined, text frames encoded. *)
Theorem recv_joins_stream :
  ∀ (D : Py.Decoder) (fuel : nat) (c : WS._WSConnection),
    WS.recv fuel c
    = (Duplex.map_result Duplex.joined (fst (Duplex.stream fuel c)),
       snd (Duplex.stream fuel c)).
Proof. intros D fuel c. apply recv_is_joined_stream. Qed.

(** X15. [stream] on a whole response yields its data frames as they came,
    text as text and bytes as bytes, in order, and consumes the end frame;
    when the end frame carries another request id it raises after the last
    data frame. *)
Theorem stream_frames :
  ∀ (D : Py.Decoder) (c : WS._WSConnection) (s e : WS.frame)
    (ds rest : list WS.frame) (r r' : Py.json) (fuel : nat),
    Frames.incoming c = s :: ds ++ e :: rest →
    Frames.control s = Some (Py.JStr "start", r) →
    Forall (λ f, Frames.control f = None) ds →
    Frames.control e = Some (Py.JStr "end", r') →
    (length ds < fuel)%nat →
    Duplex.stream fuel c =
      if Py.py_eq r' r then (Py.Ok ds, WS.Conn rest None)
      else (Py.Raise Frames.mismatch, WS.Conn rest None).
Proof.
  intros D c s e ds rest r r' fuel Hin Hs Hds He Hfuel.
  unfold Duplex.stream, Py.bind at 1.
  rewrite (recv_meta_control _ _ _ _ _ _ Hin Hs). simpl Py.py_eq. cbv iota.
  destruct (control_decoded _ _ _ Hs) as (d & -> & _ & Hr).
  unfold Py.bind at 1, Py.lift at 1, Py.getitem at 1. simpl Py.subscript.
  rewrite Hr. unfold Py.bind at 1.
  rewrite (recv_response_data _ ds fuel [] (WS.Conn (ds ++ e :: rest) None)
             e rest); [|done|done|eauto|done].
  rewrite foldl_append_frame. simpl app.
  unfold Py.bind at 1.
  rewrite (recv_meta_control "end" (WS.Conn rest (Some e)) e rest _ r'
             eq_refl He).
  simpl Py.py_eq. cbv iota.
  destruct (control_decoded _ _ _ He) as (d' & -> & _ & Hr').
  unfold Py.bind, Py.lift, Py.getitem. simpl Py.subscript. rewrite Hr'.
  by destruct (Py.py_eq r' r).
Qed.

Lemma stream_frames_witness :
  Duplex.stream (D:=Json.reference_decoder) 3 (Samples.session 7)
  = (Py.Ok [WS.Text "a"; WS.Binary [Byte.x62]], WS.Conn [] None).
Proof.
  apply (stream_frames Json.reference_decoder (Samples.session 7)
           (Samples.start_frame 7) (Samples.end_frame 7)
           [WS.Text "a"; WS.Binary [Byte.x62]] [] (Py.JInt 7) (Py.JInt 7)
           3%nat);
    try reflexivity; try (repeat constructor); simpl; lia.
Defined.

(** X16. When the connection closes before the response is complete,
    [recv] raises [ConnectionClosed]: at once on a connection with nothing
    to come, and after reading the start frame and every data frame when no
    end frame follows them; the data read so far is not returned. *)
Theorem recv_connection_closed :
  ∀ (D : Py.Decoder) (c : WS._WSConnection) (fuel : nat),
    (Frames.incoming c = [] →
       WS.recv fuel c = (Py.Raise Py.ConnectionClosed, c))
    ∧ (∀ s ds r,
         Frames.incoming c = s :: ds →
         Frames.control s = Some (Py.JStr "start", r) →
         Forall (λ f, Frames.control f = None) ds →
         (length ds < fuel)%nat →
         WS.recv fuel c = (Py.Raise Py.ConnectionClosed, WS.Conn [] None)).
Proof.
  intros D c fuel. split.
  - intros Hin. unfold WS.recv, Py.bind at 1.
    by rewrite (recv_meta_closed _ _ Hin).
  - intros s ds r Hin Hs Hds Hfuel.
    unfold WS.recv, Py.bind at 1.
    rewrite (recv_meta_control _ _ _ _ _ _ Hin Hs). simpl Py.py_eq. cbv iota.
    destruct (control_decoded _ _ _ Hs) as (d & -> & _ & Hr).
    unfold Py.bind at 1, Py.lift at 1, Py.getitem at 1. simpl Py.subscript.
    rewrite Hr. unfold Py.bind at 1.
    by rewrite (recv_response_closed _ ds fuel [] (WS.Conn ds None)).
Qed.

Lemma recv_connection_closed_witness :
  WS.recv (D:=Json.reference_decoder) 1 (WS.Conn [] None)
  = (Py.Raise Py.ConnectionClosed, WS.Conn [] None)
  ∧ WS.recv (D:=Json.reference_decoder) 4
      (WS.Conn [Samples.start_frame 1; WS.Text "a"; WS.Text "b"] None)
    = (Py.Raise Py.ConnectionClosed, WS.Conn [] None).
Proof.
  split.
  - exact (proj1 (recv_connection_closed Json.reference_decoder
                    (WS.Conn [] None) 1%nat) eq_refl).
  - apply (proj2 (recv_connection_closed Json.reference_decoder
                    (WS.Conn [Samples.start_frame 1; WS.Text "a"; WS.Text "b"]
                       None) 4%nat)
             (Samples.start_frame 1) [WS.Text "a"; WS.Text "b"] (Py.JInt 1));
      try reflexivity; try (repeat constructor); simpl; lia.
Defined.

(** ** The realtime connection *)

Section realtime_facts.
Import Py Realtime.
Context {D : Decoder} {V : Type} {P : Msgpack V}.

Lemma recv_notice f s fuel rest out snt :
  notice f = Some s →
  recv (S fuel) (Connection (f :: rest) snt out)
  = recv fuel (Connection rest snt (out ++ [s])).
Proof.
  destruct f as [t|b]; simpl notice; [|done].
  destruct (loads t) as [[| | | | |d]|] eqn:Ht; try done.
  destruct (py_eq _ _) eqn:Hty; [done|]. intros [= <-].
  simpl recv. unfold bind, ws_recv, print, lift, json_loads.
  cbn [_ws sent stdout]. rewrite Ht. unfold WS.dict_get_or_None.
  by rewrite Hty.
Qed.

Lemma recv_notices fs :
  ∀ lines fuel c rest,
  _ws c = fs ++ rest → notices fs = Some lines → (length fs ≤ fuel)%nat →
  recv fuel c
  = recv (fuel - length fs) (Connection rest (sent c) (stdout c ++ lines)).
Proof.
  unfold notices.
  induction fs as [|f fs IH]; intros lines fuel [ws snt out] rest Hws Hn Hfuel;
    simpl in Hws; subst ws.
  - injection Hn as <-. by rewrite app_nil_r, Nat.sub_0_r.
  - simpl in Hn. destruct (notice f) as [s|] eqn:Hf; [|done].
    simpl in Hn. destruct (mapM notice fs) as [ls|] eqn:Hfs; [|done].
    injection Hn as <-.
    destruct fuel as [|fuel]; [simpl in Hfuel; lia|].
    rewrite (recv_notice _ _ _ _ _ _ Hf).
    rewrite (IH ls fuel (Connection (fs ++ rest) snt (out ++ [s])) rest
               eq_refl eq_refl) by (simpl in Hfuel; lia).
    simpl. by rewrite <- app_assoc.
Qed.

End realtime_facts.

(** X17. [_RealtimeConnection.recv] prints and passes over the text frames
    that decode to an object other than an error message, and returns what
    the first binary frame unpacks to; the frames after it are left on the
    socket.  [run] sends the packed arguments as one frame first. *)
Theorem realtime_recv_result :
  ∀ (D : Py.Decoder) (V : Type) (P : Realtime.Msgpack V)
    (c : Realtime._RealtimeConnection) (fs rest : list WS.frame)
    (lines : list string) (b : list Byte.byte) (fuel : nat),
    Realtime._ws c = fs ++ WS.Binary b :: rest →
    Realtime.notices fs = Some lines →
    (length fs < fuel)%nat →
    Realtime.recv fuel c
    = (Realtime.unpackb b,
       Realtime.Connection rest (Realtime.sent c)
         (Realtime.stdout c ++ lines))
    ∧ ∀ arguments,
        Realtime.run fuel arguments c
        = (Realtime.unpackb b,
           Realtime.Connection rest
             (Realtime.sent c ++ [WS.Binary (Realtime.packb arguments)])
             (Realtime.stdout c ++ lines)).
Proof.
  intros D V P c fs rest lines b fuel Hws Hn Hfuel.
  assert (Hrecv : ∀ c', Realtime._ws c' = fs ++ WS.Binary b :: rest →
            Realtime.recv fuel c'
            = (Realtime.unpackb b,
               Realtime.Connection rest (Realtime.sent c')
                 (Realtime.stdout c' ++ lines))).
  { intros c' Hws'. rewrite (recv_notices fs lines fuel c' _ Hws' Hn) by lia.
    destruct (fuel - length fs)%nat as [|n] eqn:Hn'; [lia|]. done. }
  split; [by apply Hrecv|]. intros arguments.
  unfold Realtime.run, Py.bind, Realtime.send, Realtime.ws_send.
  by rewrite Hrecv.
Qed.

Lemma realtime_recv_result_witness :
  Realtime.run (D:=Json.reference_decoder) (P:=RealtimeSamples.raw) 3
    [Byte.x01]
    (RealtimeSamples.fresh
       [RealtimeSamples.progress; WS.Binary [Byte.x2a]; WS.Binary []])
  = (Py.Ok [Byte.x2a],
     Realtime.Connection [WS.Binary []] [WS.Binary [Byte.x01]]
       [Json.dumps (Py.JObj [("type", Py.JStr "x-fal-message");
                             ("message", Py.JStr "warming up")])]).
Proof.
  refine (proj2 (realtime_recv_result Json.reference_decoder _
                   RealtimeSamples.raw
                   (RealtimeSamples.fresh
                      [RealtimeSamples.progress; WS.Binary [Byte.x2a];
                       WS.Binary []])
                   [RealtimeSamples.progress] [WS.Binary []] _ [Byte.x2a]
                   3%nat eq_refl eq_refl _) [Byte.x01]).
  simpl. lia.
Defined.

(** X18. [_RealtimeConnection.recv] on a text frame, after the notices in
    front of it have been printed: an object of type "x-fal-error" raises
    [ValueError] with its "reason" ([KeyError] when it has none); a text
    that is not JSON raises [JSONDecodeError]; JSON that is not an object
    raises [AttributeError].  The frame has been printed and consumed.  On a
    socket with notices only, [ConnectionClosed] is raised. *)
Theorem realtime_recv_errors :
  ∀ (D : Py.Decoder) (V : Type) (P : Realtime.Msgpack V)
    (c : Realtime._RealtimeConnection) (fs : list WS.frame)
    (lines : list string) (fuel : nat),
    Realtime.notices fs = Some lines →
    (length fs < fuel)%nat →
    (Realtime._ws c = fs →
       Realtime.recv (V:=V) fuel c
       = (Py.Raise Py.ConnectionClosed,
          Realtime.Connection [] (Realtime.sent c)
            (Realtime.stdout c ++ lines)))
    ∧ (∀ s rest, Realtime._ws c = fs ++ WS.Text s :: rest →
         let after := Realtime.Connection rest (Realtime.sent c)
                        (Realtime.stdout c ++ lines ++ [s]) in
         (Py.loads s = None →
            Realtime.recv (V:=V) fuel c = (Py.Raise Py.JSONDecodeError, after))
         ∧ (∀ v, Py.loads s = Some v → (∀ d, v ≠ Py.JObj d) →
              Realtime.recv (V:=V) fuel c = (Py.Raise Py.AttributeError, after))
         ∧ (∀ d, Py.loads s = Some (Py.JObj d) →
              Py.dict_get "type" d = Some (Py.JStr "x-fal-error") →
              Realtime.recv (V:=V) fuel c
              = (match Py.dict_get "reason" d with
                 | Some reason => Py.Raise (Py.ValueError [Py.Fmt reason])
                 | None => Py.Raise (Py.KeyError "reason")
                 end, after))).
Proof.
  intros D V P c fs lines fuel Hn Hfuel. split.
  - intros Hws.
    assert (Hws' : Realtime._ws c = fs ++ []) by by rewrite app_nil_r.
    rewrite (recv_notices fs lines fuel c [] Hws' Hn) by lia.
    destruct (fuel - length fs)%nat as [|n] eqn:Hn'; [lia|]. done.
  - intros s rest Hws after.
    rewrite (recv_notices fs lines fuel c _ Hws Hn) by lia.
    destruct (fuel - length fs)%nat as [|n] eqn:Hn'; [lia|].
    subst after. rewrite app_assoc.
    simpl Realtime.recv.
    unfold Py.bind, Realtime.ws_recv, Realtime.print, Py.lift,
      Realtime.json_loads. simpl.
    split; [|split].
    + by intros ->.
    + intros v -> Hv. destruct v; try done. by destruct (Hv items).
    + intros d -> Ht. simpl. rewrite Ht. simpl.
      unfold Py.getitem, Py.subscript, Py.raise.
      by destruct (Py.dict_get "reason" d).
Qed.

Lemma realtime_recv_errors_witness :
  Realtime.recv (D:=Json.reference_decoder) (P:=RealtimeSamples.raw) 3
    (RealtimeSamples.fresh
       [RealtimeSamples.progress; RealtimeSamples.failure; WS.Binary []])
  = (Py.Raise (Py.ValueError [Py.Fmt (Py.JStr "RATE_LIMIT")]),
     Realtime.Connection [WS.Binary []] []
       [Json.dumps (Py.JObj [("type", Py.JStr "x-fal-message");
                             ("message", Py.JStr "warming up")]);
        Json.dumps (Py.JObj [("type", Py.JStr "x-fal-error");
                             ("reason", Py.JStr "RATE_LIMIT")])])
  ∧ fst (Realtime.recv (D:=Json.reference_decoder) (P:=RealtimeSamples.raw) 3
           (RealtimeSamples.fresh [WS.Text "ping"]))
    = Py.Raise Py.JSONDecodeError
  ∧ fst (Realtime.recv (D:=Json.reference_decoder) (P:=RealtimeSamples.raw) 3
           (RealtimeSamples.fresh [WS.Text "[1, 2]"]))
    = Py.Raise Py.AttributeError
  ∧ fst (Realtime.recv (D:=Json.reference_decoder) (P:=RealtimeSamples.raw) 3
           (RealtimeSamples.fresh [RealtimeSamples.progress]))
    = Py.Raise Py.ConnectionClosed.
Proof.
  split; [|split; [|split]].
  - destruct (realtime_recv_errors Json.reference_decoder _
                RealtimeSamples.raw
                (RealtimeSamples.fresh
                   [RealtimeSamples.progress; RealtimeSamples.failure;
                    WS.Binary []])
                [RealtimeSamples.progress] _ 3%nat eq_refl) as [_ H];
      [simpl; lia|].
    destruct (H _ [WS.Binary []] eq_refl) as (_ & _ & Herr).
    exact (Herr _ eq_refl eq_refl).
  - destruct (realtime_recv_errors Json.reference_decoder _
                RealtimeSamples.raw (RealtimeSamples.fresh [WS.Text "ping"])
                [] _ 3%nat eq_refl) as [_ H]; [simpl; lia|].
    destruct (H "ping" [] eq_refl) as (Hbad & _).
    by rewrite (Hbad eq_refl).
  - destruct (realtime_recv_errors Json.reference_decoder _
                RealtimeSamples.raw (RealtimeSamples.fresh [WS.Text "[1, 2]"])
                [] _ 3%nat eq_refl) as [_ H]; [simpl; lia|].
    destruct (H "[1, 2]" [] eq_refl) as (_ & Hshape & _).
    rewrite (Hshape (Py.JArr [Py.JInt 1; Py.JInt 2]) eq_refl); [done|].
    discriminate.
  - destruct (realtime_recv_errors Json.reference_decoder _
                RealtimeSamples.raw
                (RealtimeSamples.fresh [RealtimeSamples.progress])
                [RealtimeSamples.progress] _ 3%nat eq_refl) as [H _];
      [simpl; lia|].
    by rewrite (H eq_refl).
Defined.

(** ** Logging in, logging out and fetching again *)

Section account_facts.
Import Py Auth Account.

Lemma login_cases outcome s :
  login outcome s =
    match outcome with
    | Ok td =>
        match td !! "refresh_token" with
        | Some r =>
            (Ok tt, later s (Some (r, None)) [Locked; Saved r None; Unlocked])
        | None =>
            (Raise (KeyError "refresh_token"),
             later s (token_file s) [Locked; Unlocked])
        end
    | Raise e => (Raise e, s)
    | Unfinished => (Unfinished, s)
    end.
Proof.
  destruct s as [file now_ exp exch tr].
  unfold login, bind, lift, lock_token, item, save_token, note, write, later.
  destruct outcome as [td|e|]; [|done|done]. simpl.
  destruct (td !! "refresh_token"); simpl; by rewrite <- ?app_assoc.
Qed.

Lemma logout_cases revoke s :
  logout revoke s =
    match token_file s with
    | None =>
        (Raise (FalServerlessException "You're not logged in"),
         later s None [Loaded])
    | Some (r, a) =>
        match revoke r with
        | Ok _ => (Ok tt, later s None [Loaded; Locked; Deleted; Unlocked])
        | Raise e => (Raise e, later s (Some (r, a)) [Loaded])
        | Unfinished => (Unfinished, later s (Some (r, a)) [Loaded])
        end
    end.
Proof.
  destruct s as [file now_ exp exch tr].
  unfold logout, bind, lift, load_token, lock_token, delete_token, raise,
    note, write, later. simpl.
  destruct file as [[r a]|]; simpl; [|done].
  destruct (revoke r); simpl; by rewrite <- ?app_assoc.
Qed.

End account_facts.

(** X19. [login] stores the refresh token it was given, with no access
    token, between taking and releasing the lock, so that the next
    [_fetch_access_token] exchanges it; when the provider's login raises,
    the token file is not touched and the lock not taken; when its answer
    has no refresh token, [KeyError] is raised, the file is as it was and the
    lock is released. *)
Theorem login_stores_refresh_token :
  ∀ (s : Auth.session),
    (∀ td r, td !! "refresh_token" = Some r →
       Account.login (Py.Ok td) s
       = (Py.Ok tt,
          Auth.later s (Some (r, None))
            [Auth.Locked; Auth.Saved r None; Auth.Unlocked])
       ∧ Auth.exchanges
           (snd (Auth._fetch_access_token (snd (Account.login (Py.Ok td) s))))
         = S (Auth.exchanges s))
    ∧ (∀ e, Account.login (Py.Raise e) s = (Py.Raise e, s))
    ∧ (∀ td, td !! "refresh_token" = None →
         Account.login (Py.Ok td) s
         = (Py.Raise (Py.KeyError "refresh_token"),
            Auth.later s (Auth.token_file s) [Auth.Locked; Auth.Unlocked])).
Proof.
  intros s. split; [|split].
  - intros td r Hr. rewrite login_cases, Hr. split; [done|]. cbn [snd].
    rewrite fetch_access_token_run. simpl Auth.token_file.
    simpl Auth.unexpired. cbv zeta iota.
    destruct (Auth.exchange _ _ r) as [td'|e|];
      [destruct (td' !! "refresh_token"), (td' !! "access_token")| |];
      simpl snd; rewrite !exchanges_later; simpl; lia.
  - intros e. by rewrite login_cases.
  - intros td Hr. by rewrite login_cases, Hr.
Qed.

Lemma login_stores_refresh_token_witness :
  Account.login (Py.Ok {[ "refresh_token" := "r1"; "id_token" := "i" ]})
    (Samples.session_at_one (Some ("r0", Some "fresh")) Samples.rotating)
  = (Py.Ok tt,
     Auth.later
       (Samples.session_at_one (Some ("r0", Some "fresh")) Samples.rotating)
       (Some ("r1", None)) [Auth.Locked; Auth.Saved "r1" None; Auth.Unlocked])
  ∧ Account.login (Py.Ok {[ "id_token" := "i" ]})
      (Samples.session_at_one None Samples.rotating)
    = (Py.Raise (Py.KeyError "refresh_token"),
       Auth.later (Samples.session_at_one None Samples.rotating) None
         [Auth.Locked; Auth.Unlocked]).
Proof.
  split.
  - destruct (login_stores_refresh_token
                (Samples.session_at_one (Some ("r0", Some "fresh"))
                   Samples.rotating)) as (H & _).
    exact (proj1 (H {[ "refresh_token" := "r1"; "id_token" := "i" ]} "r1"
                    eq_refl)).
  - destruct (login_stores_refresh_token
                (Samples.session_at_one None Samples.rotating)) as (_ & _ & H).
    exact (H {[ "id_token" := "i" ]} eq_refl).
Defined.

(** X20. [logout] reads the token file before it takes the lock.  With no
    refresh token stored it raises [FalServerlessException] and changes
    nothing.  When the provider revokes the token, the pair is deleted under
    the lock, and the next [_fetch_access_token] fails with
    [UnauthenticatedException] without an exchange.  When the revocation
    raises, the stored pair is kept. *)
Theorem logout_outcomes :
  ∀ (revoke : string → Py.result unit) (s : Auth.session),
    (Auth.token_file s = None →
       Account.logout revoke s
       = (Py.Raise (Py.FalServerlessException "You're not logged in"),
          Auth.later s None [Auth.Loaded]))
    ∧ (∀ r a, Auth.token_file s = Some (r, a) → revoke r = Py.Ok tt →
         Account.logout revoke s
         = (Py.Ok tt,
            Auth.later s None
              [Auth.Loaded; Auth.Locked; Auth.Deleted; Auth.Unlocked])
         ∧ fst (Auth._fetch_access_token (snd (Account.logout revoke s)))
           = Py.Raise Py.UnauthenticatedException
         ∧ Auth.exchanges
             (snd (Auth._fetch_access_token (snd (Account.logout revoke s))))
           = Auth.exchanges s)
    ∧ (∀ r a e, Auth.token_file s = Some (r, a) → revoke r = Py.Raise e →
         Account.logout revoke s
         = (Py.Raise e, Auth.later s (Some (r, a)) [Auth.Loaded])).
Proof.
  intros revoke s. rewrite logout_cases. split; [|split].
  - by intros ->.
  - intros r a -> ->. split; [done|]. cbn [snd].
    rewrite fetch_access_token_run. simpl Auth.token_file. cbv iota.
    split; [done|]. cbn [snd]. rewrite !exchanges_later. simpl. lia.
  - by intros r a e -> ->.
Qed.

Lemma logout_outcomes_witness :
  fst (Account.logout (fun _ => Py.Ok tt)
         (Samples.session_at_one None Samples.rotating))
  = Py.Raise (Py.FalServerlessException "You're not logged in")
  ∧ Auth.token_file
      (snd (Account.logout (fun _ => Py.Ok tt)
              (Samples.session_at_one (Some ("r1", Some "fresh"))
                 Samples.rotating)))
    = None
  ∧ Auth.token_file
      (snd (Account.logout (fun _ => Py.Raise Py.TransportError)
              (Samples.session_at_one (Some ("r1", Some "fresh"))
                 Samples.rotating)))
    = Some ("r1", Some "fresh").
Proof.
  split; [|split].
  - destruct (logout_outcomes (fun _ => Py.Ok tt)
                (Samples.session_at_one None Samples.rotating)) as (H & _).
    by rewrite (H eq_refl).
  - destruct (logout_outcomes (fun _ => Py.Ok tt)
                (Samples.session_at_one (Some ("r1", Some "fresh"))
                   Samples.rotating)) as (_ & H & _).
    destruct (H "r1" (Some "fresh") eq_refl eq_refl) as (Hrun & _).
    by rewrite Hrun.
  - destruct (logout_outcomes (fun _ => Py.Raise Py.TransportError)
                (Samples.session_at_one (Some ("r1", Some "fresh"))
                   Samples.rotating)) as (_ & _ & H).
    by rewrite (H "r1" (Some "fresh") Py.TransportError eq_refl eq_refl).
Defined.

(** X21. After a call of [_fetch_access_token] that exchanged the refresh
    token, a second call, made while the new access token has not expired,
    returns that same token and makes no exchange. *)
Theorem fetch_access_token_after_refresh :
  ∀ (s : Auth.session) (r : string) (a : option string)
    (td : gmap string string) (r' a' : string) (e : Z),
    Auth.token_file s = Some (r, a) →
    Auth.unexpired s a = false →
    Auth.exchange s (Auth.exchanges s) r = Py.Ok td →
    td !! "refresh_token" = Some r' →
    td !! "access_token" = Some a' →
    Auth.expiration s a' = Some e → Auth.now s < e →
    let s1 := snd (Auth._fetch_access_token s) in
    Auth._fetch_access_token s1
    = (Py.Ok a',
       Auth.later s1 (Some (r', Some a'))
         [Auth.Locked; Auth.Loaded; Auth.Verified a'; Auth.Unlocked])
    ∧ Auth.exchanges (snd (Auth._fetch_access_token s1)) = S (Auth.exchanges s).
Proof.
  intros s r a td r' a' e Hfile Hold Hex Hr Ha Hexp Hnow.
  cbv zeta. rewrite (fetch_access_token_run s), Hfile, Hold. cbv zeta.
  rewrite Hex, Hr, Ha. cbn [snd].
  rewrite fetch_access_token_run. simpl Auth.token_file. cbv iota.
  unfold Auth.unexpired. simpl Auth.expiration. simpl Auth.now.
  rewrite Hexp, (proj2 (Z.ltb_lt _ _) Hnow). simpl. split; [done|].
  rewrite !exchanges_later. destruct a; simpl; lia.
Qed.

Lemma fetch_access_token_after_refresh_witness :
  fst (Auth._fetch_access_token
         (snd (Auth._fetch_access_token
                 (Samples.session_at_one (Some ("r1", None))
                    (fun _ _ => Py.Ok {[ "refresh_token" := "r2";
                                         "access_token" := "fresh" ]})))))
  = Py.Ok "fresh".
Proof.
  destruct (fetch_access_token_after_refresh
              (Samples.session_at_one (Some ("r1", None))
                 (fun _ _ => Py.Ok {[ "refresh_token" := "r2";
                                      "access_token" := "fresh" ]}))
              "r1" None
              {[ "refresh_token" := "r2"; "access_token" := "fresh" ]}
              "r2" "fresh" 7200) as [H _];
    [reflexivity | reflexivity | reflexivity | by vm_compute | by vm_compute
    | reflexivity | reflexivity |].
  by rewrite H.
Defined.

(** X22. After a call of [_fetch_access_token] whose exchange failed, the
    next call fails with [UnauthenticatedException] and does not call the
    provider again. *)
Theorem fetch_access_token_after_failure :
  ∀ (s : Auth.session) (r : string) (a : option string) (e : Py.exn),
    Auth.token_file s = Some (r, a) →
    Auth.unexpired s a = false →
    Auth.exchange s (Auth.exchanges s) r = Py.Raise e →
    let s1 := snd (Auth._fetch_access_token s) in
    Auth._fetch_access_token s1
    = (Py.Raise Py.UnauthenticatedException,
       Auth.later s1 None [Auth.Locked; Auth.Loaded; Auth.Unlocked])
    ∧ Auth.exchanges (snd (Auth._fetch_access_token s1)) = S (Auth.exchanges s).
Proof.
  intros s r a e Hfile Hold Hex.
  cbv zeta. rewrite (fetch_access_token_run s), Hfile, Hold. cbv zeta.
  rewrite Hex. cbn [snd].
  rewrite fetch_access_token_run. simpl Auth.token_file. cbv iota.
  split; [done|]. cbn [snd].
  rewrite !exchanges_later. destruct a; simpl; lia.
Qed.

Lemma fetch_access_token_after_failure_witness :
  fst (Auth._fetch_access_token
         (snd (Auth._fetch_access_token
                 (Samples.session_at_one (Some ("r1", Some "stale"))
                    Samples.refusing))))
  = Py.Raise Py.UnauthenticatedException.
Proof.
  destruct (fetch_access_token_after_failure
              (Samples.session_at_one (Some ("r1", Some "stale"))
                 Samples.refusing)
              "r1" (Some "stale") (Py.FalServerlessException "invalid_grant")
              eq_refl eq_refl eq_refl) as [H _].
  by rewrite H.
Defined.

(** ** The user's access and the logging processor *)

Section user_facts.
Import Py Auth Account Logging.

Lemma access_token_cases u s :
  access_token (u, s) =
    match _exc u with
    | Some e => (Raise e, (u, s))
    | None =>
        match _access_token u with
        | Some t => (Ok t, (u, s))
        | None =>
            match _fetch_access_token s with
            | (Ok t, s') =>
                (Ok t, (User (Some t) (_user_info u) None (_accounts u), s'))
            | (Raise e, s') =>
                if is_Exception e
                then (Raise e,
                      (User None (_user_info u) (Some e) (_accounts u), s'))
                else (Raise e, (u, s'))
            | (Unfinished, s') => (Unfinished, (u, s'))
            end
        end
    end.
Proof.
  destruct u as [tok ui [e|] acc]; [done|].
  destruct tok as [t|]; [done|].
  unfold access_token, bind, get_user, set_user, try_except, on_session,
    ret, raise. cbn [fst snd _exc _access_token _user_info _accounts].
  destruct (_fetch_access_token s) as [[t|e|] s']; cbn [fst snd]; try done.
  by destruct (is_Exception e).
Qed.

(** What a successful [access_token] leaves in the [UserAccess]. *)
Lemma access_token_ok u s t u' s' :
  access_token (u, s) = (Ok t, (u', s')) →
  _exc u' = None ∧ _access_token u' = Some t
  ∧ _user_info u' = _user_info u ∧ _accounts u' = _accounts u.
Proof.
  rewrite access_token_cases.
  destruct u as [tok ui [e|] acc]; cbn [_exc _access_token _user_info _accounts];
    [done|].
  destruct tok as [t0|]; [by intros [= <- <- <-]|].
  destruct (_fetch_access_token s) as [[t0|e|] s0]; [|by destruct (is_Exception e)|done].
  by intros [= <- <- <-].
Qed.

Lemma bearer_token_cases st :
  bearer_token st =
    match access_token st with
    | (Ok t, st') => (Ok ("Bearer " +:+ t), st')
    | (Raise e, st') => (Raise e, st')
    | (Unfinished, st') => (Unfinished, st')
    end.
Proof. unfold bearer_token, bind, ret. by destruct (access_token st) as [[]]. Qed.

Lemma info_cases g u s :
  info g (u, s) =
    match _user_info u with
    | Some ui => (Ok ui, (u, s))
    | None =>
        match access_token (u, s) with
        | (Ok t, (u', s')) =>
            match g ("Bearer " +:+ t) with
            | Ok ui =>
                (Ok ui, (User (_access_token u') (Some ui) (_exc u')
                           (_accounts u'), s'))
            | Raise e => (Raise e, (u', s'))
            | Unfinished => (Unfinished, (u', s'))
            end
        | (Raise e, st') => (Raise e, st')
        | (Unfinished, st') => (Unfinished, st')
        end
    end.
Proof.
  unfold info, bind at 1, get_user at 1. cbn [fst].
  destruct (_user_info u) as [ui|]; [done|].
  unfold bind at 1. rewrite bearer_token_cases.
  by destruct (access_token (u, s)) as [[t|e|] [u' s']].
Qed.

Lemma call_cases g ev st :
  __call__ g ev st =
    match info g st with
    | (Ok ui, st') =>
        (Ok (<["usr.id" := default JNull (dict_get "sub" ui)]> ev), st')
    | (Raise e, st') =>
        if is_Exception e then (Ok (<["usr.id" := JNull]> ev), st')
        else (Raise e, st')
    | (Unfinished, st') => (Unfinished, st')
    end.
Proof.
  unfold __call__, bind, try_except, ret.
  destruct (info g st) as [[ui|e|] st']; try done.
  by destruct (is_Exception e).
Qed.

End user_facts.

(** X23. [UserAccess.access_token] fetches at most once: when a call ends
    with a token or with an [Exception], every later call gives that same
    token, or raises that same original exception, whatever the token store
    holds by then, and does not touch the store.  An exception that is not
    an [Exception] is not kept: the [UserAccess] is as it was. *)
Theorem access_token_fetched_once :
  ∀ (u u1 : Account.UserAccess) (s s1 : Auth.session) (r : Py.result string),
    Account.access_token (u, s) = (r, (u1, s1)) →
    (Account.settled r = true →
       ∀ s', Account.access_token (u1, s') = (r, (u1, s')))
    ∧ (Account.settled r = false → u1 = u).
Proof.
  intros u u1 s s1 r. rewrite access_token_cases.
  destruct u as [tok ui [e|] acc];
    cbn [Account._exc Account._access_token Account._user_info Account._accounts].
  { intros [= <- <- <-]. split; [|done]. intros _ s'.
    by rewrite access_token_cases. }
  destruct tok as [t|].
  { intros [= <- <- <-]. split; [|done]. intros _ s'.
    by rewrite access_token_cases. }
  destruct (Auth._fetch_access_token s) as [[t|e|] s0].
  - intros [= <- <- <-]. split; [|done]. intros _ s'.
    by rewrite access_token_cases.
  - destruct (Py.is_Exception e) eqn:He; intros [= <- <- <-]; simpl; rewrite He.
    + split; [|done]. intros _ s'. by rewrite access_token_cases.
    + by split.
  - intros [= <- <- <-]. by split.
Qed.

Lemma access_token_fetched_once_witness :
  Account.access_token
    (Account.User None None
       (Some (Py.FalServerlessException "invalid_grant")) None,
     Samples.session_at_one (Some ("r9", Some "fresh")) Samples.rotating)
  = (Py.Raise (Py.FalServerlessException "invalid_grant"),
     (Account.User None None
        (Some (Py.FalServerlessException "invalid_grant")) None,
      Samples.session_at_one (Some ("r9", Some "fresh")) Samples.rotating)).
Proof.
  destruct (access_token_fetched_once Account.new_user
              (Account.User None None
                 (Some (Py.FalServerlessException "invalid_grant")) None)
              (Samples.session_at_one (Some ("r1", Some "stale"))
                 Samples.refusing)
              (snd (Auth._fetch_access_token
                      (Samples.session_at_one (Some ("r1", Some "stale"))
                         Samples.refusing)))
              (Py.Raise (Py.FalServerlessException "invalid_grant")))
    as [H _]; [reflexivity|].
  exact (H eq_refl
           (Samples.session_at_one (Some ("r9", Some "fresh")) Samples.rotating)).
Defined.

(** X24. [UserAccess.info] asks the identity provider at most once after it
    has answered: when a call returns the user's data, every later call
    returns the same data, whatever the provider or the token store would
    now say, and touches nothing. *)
Theorem info_fetched_once :
  ∀ (g g' : string → Py.result (list (string * Py.json)))
    (u u1 : Account.UserAccess) (s s1 s' : Auth.session)
    (ui : list (string * Py.json)),
    Account.info g (u, s) = (Py.Ok ui, (u1, s1)) →
    Account.info g' (u1, s') = (Py.Ok ui, (u1, s')).
Proof.
  intros g g' u u1 s s1 s' ui. rewrite !info_cases.
  destruct (Account._user_info u) as [ui0|] eqn:Hui.
  { intros [= <- <- <-]. by rewrite Hui. }
  destruct (Account.access_token (u, s)) as [[t|e|] [u' s0]]; [|done|done].
  destruct (g _) as [ui0|e|]; [|done|done].
  by intros [= <- <- <-].
Qed.

Lemma info_fetched_once_witness :
  Account.info (fun _ => Py.Raise Py.TransportError)
    (Account.User (Some "fresh") (Some [("sub", Py.JStr "u|1")]) None None,
     Samples.session_at_one None Samples.refusing)
  = (Py.Ok [("sub", Py.JStr "u|1")],
     (Account.User (Some "fresh") (Some [("sub", Py.JStr "u|1")]) None None,
      Samples.session_at_one None Samples.refusing)).
Proof.
  apply (info_fetched_once (fun _ => Py.Ok [("sub", Py.JStr "u|1")])
           (fun _ => Py.Raise Py.TransportError)
           Account.new_user _
           (Samples.session_at_one (Some ("r1", Some "fresh")) Samples.rotating)
           (snd (Auth._fetch_access_token
                   (Samples.session_at_one (Some ("r1", Some "fresh"))
                      Samples.rotating)))).
  reflexivity.
Defined.

(** X25. A failure of the identity provider inside [UserAccess.info] is not
    kept, though the access token is: the exception of [get_user_info]
    passes through, and the next call asks the provider again, with the same
    bearer token and without going to the token store. *)
Theorem info_failure_asks_again :
  ∀ (g g' : string → Py.result (list (string * Py.json)))
    (u u' : Account.UserAccess) (s s1 s' : Auth.session) (t : string)
    (e : Py.exn),
    Account._user_info u = None →
    Account.access_token (u, s) = (Py.Ok t, (u', s1)) →
    g ("Bearer " +:+ t) = Py.Raise e →
    Account.info g (u, s) = (Py.Raise e, (u', s1))
    ∧ fst (Account.info g' (u', s')) = g' ("Bearer " +:+ t)
    ∧ snd (snd (Account.info g' (u', s'))) = s'.
Proof.
  intros g g' u u' s s1 s' t e Hui Htok Hg.
  destruct (access_token_ok _ _ _ _ _ Htok) as (Hexc & Hat & Hui' & _).
  rewrite !info_cases, Hui, Htok, Hg. split; [done|].
  rewrite Hui' , Hui, access_token_cases, Hexc, Hat.
  by destruct (g' _).
Qed.

Lemma info_failure_asks_again_witness :
  fst (Account.info (fun _ => Py.Ok [("sub", Py.JStr "u|1")])
         (Account.User (Some "fresh") None None None,
          Samples.session_at_one None Samples.refusing))
  = Py.Ok [("sub", Py.JStr "u|1")].
Proof.
  destruct (info_failure_asks_again (fun _ => Py.Raise Py.TransportError)
              (fun _ => Py.Ok [("sub", Py.JStr "u|1")])
              Account.new_user (Account.User (Some "fresh") None None None)
              (Samples.session_at_one (Some ("r1", Some "fresh"))
                 Samples.rotating)
              (snd (Auth._fetch_access_token
                      (Samples.session_at_one (Some ("r1", Some "fresh"))
                         Samples.rotating)))
              (Samples.session_at_one None Samples.refusing)
              "fresh" Py.TransportError eq_refl eq_refl eq_refl)
    as (_ & H & _).
  exact H.
Defined.

(** X26. [AddUserIdProcessor.__call__] is fail-safe: it never raises an
    [Exception], and when it returns, the event it returns has the key
    [usr.id] and is the given event at every other key. *)
Theorem add_user_id_fail_safe :
  ∀ (g : string → Py.result (list (string * Py.json)))
    (ev : gmap string Py.json) (st : Account.UserAccess * Auth.session),
    (∀ e, fst (Logging.__call__ g ev st) = Py.Raise e →
          Py.is_Exception e = false)
    ∧ (∀ ev', fst (Logging.__call__ g ev st) = Py.Ok ev' →
         is_Some (ev' !! "usr.id")
         ∧ ∀ k, k ≠ "usr.id" → ev' !! k = ev !! k).
Proof.
  intros g ev st. rewrite call_cases.
  destruct (Account.info g st) as [[ui|e|] st']; cbn [fst].
  - split; [done|]. intros ev' [= <-]. split.
    + rewrite lookup_insert_eq. by eexists.
    + intros k Hk. by rewrite lookup_insert_ne.
  - destruct (Py.is_Exception e) eqn:He; cbn [fst].
    + split; [done|]. intros ev' [= <-]. split.
      * rewrite lookup_insert_eq. by eexists.
      * intros k Hk. by rewrite lookup_insert_ne.
    + split; [by intros e' [= <-]|done].
  - by split.
Qed.

Lemma add_user_id_fail_safe_witness :
  is_Some (<["usr.id" := Py.JNull]>
             ({[ "event" := Py.JStr "started" ]} : gmap string Py.json)
           !! "usr.id").
Proof.
  destruct (add_user_id_fail_safe (fun _ => Py.Raise Py.TransportError)
              {[ "event" := Py.JStr "started" ]}
              (Account.new_user,
               Samples.session_at_one (Some ("r1", Some "fresh"))
                 Samples.rotating)) as [_ H].
  exact (proj1 (H _ eq_refl)).
Defined.

(** X27. Logged out, a new [AddUserIdProcessor] gives every event the user
    id [None]: the first call goes to the token store once and finds
    nothing; every later call answers from the exception the [UserAccess]
    kept, and goes neither to the token store nor to the provider. *)
Theorem add_user_id_logged_out :
  ∀ (g : string → Py.result (list (string * Py.json)))
    (ev : gmap string Py.json) (s : Auth.session),
    Auth.token_file s = None →
    let u1 := Account.User None None (Some Py.UnauthenticatedException) None in
    Logging.__call__ g ev (Account.new_user, s)
    = (Py.Ok (<["usr.id" := Py.JNull]> ev),
       (u1, Auth.later s None [Auth.Locked; Auth.Loaded; Auth.Unlocked]))
    ∧ ∀ g' ev' s',
        Logging.__call__ g' ev' (u1, s')
        = (Py.Ok (<["usr.id" := Py.JNull]> ev'), (u1, s')).
Proof.
  intros g ev s Hfile. cbv zeta. split.
  - rewrite call_cases, info_cases. cbn [Account._user_info Account.new_user].
    rewrite access_token_cases.
    cbn [Account._exc Account._access_token Account._user_info
         Account._accounts Account.new_user].
    by rewrite fetch_access_token_run, Hfile.
  - intros g' ev' s'. by rewrite call_cases, info_cases, access_token_cases.
Qed.

Lemma add_user_id_logged_out_witness :
  fst (Logging.__call__ (fun _ => Py.Ok [("sub", Py.JStr "u|1")])
         {[ "event" := Py.JStr "started" ]}
         (Account.new_user, Samples.session_at_one None Samples.rotating))
  = Py.Ok {[ "usr.id" := Py.JNull; "event" := Py.JStr "started" ]}.
Proof.
  destruct (add_user_id_logged_out (fun _ => Py.Ok [("sub", Py.JStr "u|1")])
              {[ "event" := Py.JStr "started" ]}
              (Samples.session_at_one None Samples.rotating) eq_refl)
    as [H _].
  by rewrite H.
Defined.

(** ** Keys and the notebook secret, further *)

Section key_frame_facts.
Import Py Auth Colab.

Lemma split1_colon k :
  contains ":" k = true →
  ∃ id secret, split1 ":" k = [id; secret]
               ∧ k = id +:+ ":" +:+ secret ∧ contains ":" id = false.
Proof.
  induction k as [|x k IH]; simpl; [done|].
  destruct (Ascii.eqb x ":") eqn:Hx.
  - intros _. apply Ascii.eqb_eq in Hx as ->. by exists EmptyString, k.
  - intros H. destruct (IH H) as (id & secret & -> & -> & Hid).
    exists (String x id), secret. simpl. by rewrite Hx.
Qed.

Lemma contains_truthy c k : contains c k = true → truthy k = true.
Proof. by destruct k. Qed.

(** What a call of [get_colab_token] can change. *)
Lemma get_colab_token_frame w r w' :
  get_colab_token w = (r, w') →
  environ w' = environ w ∧ config_key w' = config_key w
  ∧ is_google_colab w' = is_google_colab w ∧ userdata w' = userdata w
  ∧ (lookups w ≤ lookups w' ≤ S (lookups w))%nat
  ∧ (is_google_colab w = false ∨ is_checked (_colab_state w) = true
     ∨ userdata w = None → w' = w).
Proof.
  destruct w as [vars cfg colab store n [checked kept]].
  unfold get_colab_token, bind, ask, ret, try_except, userdata_get, lift,
    set_colab_state, strip_method. simpl.
  destruct colab; simpl; [|intros [= <- <-]; simpl; repeat split; (lia || done)].
  destruct checked; simpl; [intros [= <- <-]; simpl; repeat split; (lia || done)|].
  destruct store as [get|]; simpl;
    [|intros [= <- <-]; simpl; repeat split; (lia || done)].
  destruct (get n) as [[s|]|e|]; simpl;
    try destruct (is_Exception e); simpl; intros [= <- <-]; simpl;
    repeat split; try lia; by intros [|[|]].
Qed.

Lemma key_sources_frame w r w' :
  key_sources w = (r, w') →
  environ w' = environ w ∧ config_key w' = config_key w
  ∧ is_google_colab w' = is_google_colab w ∧ userdata w' = userdata w
  ∧ (lookups w ≤ lookups w' ≤ S (lookups w))%nat
  ∧ (truthy_opt (environ w !! "FAL_KEY") = true
     ∨ truthy_opt (config_key w) = true
     ∨ is_google_colab w = false ∨ is_checked (_colab_state w) = true
     ∨ userdata w = None → w' = w).
Proof.
  unfold key_sources, bind at 1, ask at 1, py_or at 1.
  destruct (truthy_opt (environ w !! "FAL_KEY"));
    [intros [= <- <-]; repeat split; (lia || done)|].
  unfold bind at 1, ask at 1, py_or at 1.
  destruct (truthy_opt (config_key w));
    [intros [= <- <-]; repeat split; (lia || done)|].
  intros H. apply get_colab_token_frame in H as (? & ? & ? & ? & ? & Hsame).
  repeat split; try done; try lia.
  intros [|[|H']]; [done|done|by apply Hsame].
Qed.

End key_frame_facts.

(** X28. What [get_colab_token] does not cache.  Outside a notebook it
    returns nothing and touches nothing, whatever the cache holds.  When
    [google.colab.userdata] cannot be imported it returns nothing and leaves
    the state unchecked.  When the lookup is cut by an exception that is not
    an [Exception], that exception passes through, the state stays
    unchecked, and the next call asks the secret store again. *)
Theorem colab_token_not_cached :
  (∀ w, Auth.is_google_colab w = false →
     Auth.get_colab_token w = (Py.Ok None, w))
  ∧ (∀ w, Auth.is_google_colab w = true →
       Auth.is_checked (Auth._colab_state w) = false →
       Auth.userdata w = None →
       Auth.get_colab_token w = (Py.Ok None, w))
  ∧ (∀ w get e,
       Auth.is_google_colab w = true →
       Auth.is_checked (Auth._colab_state w) = false →
       Auth.userdata w = Some get →
       get (Auth.lookups w) = Py.Raise e → Py.is_Exception e = false →
       Auth.get_colab_token w = (Py.Raise e, Colab.counted w)
       ∧ (Colab.completes (get (S (Auth.lookups w))) = true →
          Auth.get_colab_token (Colab.counted w)
          = (Py.Ok (Colab.cached (get (S (Auth.lookups w)))),
             Colab.with_state
               (Auth.ColabState true (Colab.cached (get (S (Auth.lookups w)))))
               (Colab.counted (Colab.counted w))))).
Proof.
  split; [|split].
  - intros w Hc. unfold Auth.get_colab_token, Py.bind, Auth.ask, Py.ret.
    by rewrite Hc.
  - intros [vars cfg colab store n [checked kept]]. simpl.
    by intros -> -> ->.
  - intros w get e Hc Hk Hu Hget He. split.
    + destruct w as [vars cfg colab store n [checked kept]]. simpl in *.
      subst colab checked store.
      unfold Auth.get_colab_token, Py.bind, Auth.ask, Py.ret, Py.try_except,
        Auth.userdata_get, Py.lift, Auth.set_colab_state, Colab.counted.
      simpl. by rewrite Hget, He.
    + intros Hdone.
      by apply (get_colab_token_first (Colab.counted w) get).
Qed.

Lemma colab_token_not_cached_witness :
  Auth.get_colab_token
    (Auth.Env ∅ None false None 0 (Auth.ColabState true (Some "kept")))
  = (Py.Ok None,
     Auth.Env ∅ None false None 0 (Auth.ColabState true (Some "kept")))
  ∧ Auth.get_colab_token (Auth.Env ∅ None true None 0 (Auth.ColabState false None))
    = (Py.Ok None, Auth.Env ∅ None true None 0 (Auth.ColabState false None))
  ∧ Auth.get_colab_token (Samples.notebook [] (Py.Raise Py.KeyboardInterrupt))
    = (Py.Raise Py.KeyboardInterrupt,
       Colab.counted (Samples.notebook [] (Py.Raise Py.KeyboardInterrupt))).
Proof.
  destruct colab_token_not_cached as (Hout & Himport & Hcut).
  split; [|split].
  - apply Hout. reflexivity.
  - apply Himport; reflexivity.
  - destruct (Hcut (Samples.notebook [] (Py.Raise Py.KeyboardInterrupt))
                (fun _ => Py.Raise Py.KeyboardInterrupt) Py.KeyboardInterrupt)
      as [H _]; [reflexivity..|exact H].
Defined.

(** X29. A key that has a colon always unpacks, and the pair that
    [key_credentials] returns puts the key together again: the key is the
    id, a colon and the secret, and the id has no colon. *)
Theorem key_credentials_round_trip (w w' : Auth.env) (k : string) :
  ¬ Auth.forced w →
  Auth.key_sources w = (Py.Ok (Some k), w') →
  Py.contains ":" k = true →
  ∃ id secret,
    Auth.key_credentials w = (Py.Ok (Some (id, secret)), w')
    ∧ k = id +:+ ":" +:+ secret
    ∧ Py.contains ":" id = false.
Proof.
  intros Hf Hk Hc.
  destruct (split1_colon k Hc) as (id & secret & Hsplit & Heq & Hid).
  exists id, secret. split; [|done].
  rewrite (key_credentials_sources _ _ _ Hf Hk). simpl.
  by rewrite (contains_truthy _ _ Hc), Hsplit.
Qed.

Lemma key_credentials_round_trip_witness :
  ∃ id secret,
    Auth.key_credentials (Samples.process [("FAL_KEY", "id:s1:x")] None)
    = (Py.Ok (Some (id, secret)), Samples.process [("FAL_KEY", "id:s1:x")] None)
    ∧ "id:s1:x" = id +:+ ":" +:+ secret
    ∧ Py.contains ":" id = false.
Proof.
  apply (key_credentials_round_trip
           (Samples.process [("FAL_KEY", "id:s1:x")] None)
           (Samples.process [("FAL_KEY", "id:s1:x")] None) "id:s1:x");
    [vm_compute; discriminate|reflexivity|reflexivity].
Defined.

(** X30. What [key_credentials] can change: never the environment
    variables, the configuration, or what the interpreter is; it asks the
    secret store at most once, and not at all (the whole state is as it
    was) when interactive authentication is forced, when the environment or
    the configuration gives a key, outside a notebook, or once the notebook
    secret has been checked. *)
Theorem key_credentials_frame (w w' : Auth.env)
    (r : Py.result (option (string * string))) :
  Auth.key_credentials w = (r, w') →
  Auth.environ w' = Auth.environ w
  ∧ Auth.config_key w' = Auth.config_key w
  ∧ Auth.is_google_colab w' = Auth.is_google_colab w
  ∧ Auth.userdata w' = Auth.userdata w
  ∧ (Auth.lookups w ≤ Auth.lookups w' ≤ S (Auth.lookups w))%nat
  ∧ (Auth.forced w
     ∨ Auth.truthy_opt (Auth.environ w !! "FAL_KEY") = true
     ∨ Auth.truthy_opt (Auth.config_key w) = true
     ∨ Auth.is_google_colab w = false
     ∨ Auth.is_checked (Auth._colab_state w) = true → w' = w).
Proof.
  unfold Auth.key_credentials, Py.bind at 1, Auth.ask at 1.
  destruct (bool_decide (Auth.environ w !! "FAL_FORCE_AUTH_BY_USER" = Some "1"))
    eqn:Hforce.
  { intros [= <- <-]. repeat split; (lia || done). }
  apply bool_decide_eq_false_1 in Hforce.
  unfold Py.bind at 1.
  destruct (Auth.key_sources w) as [rk w1] eqn:Hk.
  apply key_sources_frame in Hk as (He & Hc & Hg & Hu & Hn & Hsame).
  assert (Hw1 : ∀ w2, w2 = w1 →
            Auth.environ w2 = Auth.environ w
            ∧ Auth.config_key w2 = Auth.config_key w
            ∧ Auth.is_google_colab w2 = Auth.is_google_colab w
            ∧ Auth.userdata w2 = Auth.userdata w
            ∧ (Auth.lookups w ≤ Auth.lookups w2 ≤ S (Auth.lookups w))%nat
            ∧ (Auth.forced w
               ∨ Auth.truthy_opt (Auth.environ w !! "FAL_KEY") = true
               ∨ Auth.truthy_opt (Auth.config_key w) = true
               ∨ Auth.is_google_colab w = false
               ∨ Auth.is_checked (Auth._colab_state w) = true → w2 = w)).
  { intros w2 ->. repeat split; try done; try lia.
    intros [Hf|[H|[H|[H|H]]]]; [done|apply Hsame..]; auto. }
  destruct rk as [key|e|]; [|intros [= <- <-]; by apply Hw1..].
  destruct (Auth.truthy_opt key).
  - unfold Py.bind, Py.lift, Py.ret.
    destruct (Auth.unpack2 _); intros [= <- <-]; by apply Hw1.
  - unfold Py.bind, Auth.ask, Py.ret.
    destruct (Auth.environ w1 !! "FAL_KEY_ID"),
      (Auth.environ w1 !! "FAL_KEY_SECRET"); intros [= <- <-]; by apply Hw1.
Qed.

Lemma key_credentials_frame_witness :
  (Auth.lookups
    (snd (Auth.key_credentials (Samples.notebook [] (Py.Ok (Some "id:s")))))
  ≤ 1)%nat.
Proof.
  destruct (key_credentials_frame
              (Samples.notebook [] (Py.Ok (Some "id:s")))
              (snd (Auth.key_credentials
                      (Samples.notebook [] (Py.Ok (Some "id:s")))))
              (fst (Auth.key_credentials
                      (Samples.notebook [] (Py.Ok (Some "id:s")))))
              eq_refl) as (_ & _ & _ & _ & [_ H] & _).
  exact H.
Defined.

(** ** The white space that [strip] removes *)

Section strip_facts.
Import Py Auth.

Lemma after_space_shorter s r :
  after_space s = Some r → (length r < length s)%nat.
Proof.
  unfold after_space. destruct s as [|a [|b [|c r3]]]; [done| | |].
  - destruct (is_space a); [|done]. intros [= <-]. simpl. lia.
  - destruct (is_space a); [intros [= <-]; simpl; lia|].
    destruct (is_space2 a b); [|done]. intros [= <-]. simpl. lia.
  - destruct (is_space a); [intros [= <-]; simpl; lia|].
    destruct (is_space2 a b); [intros [= <-]; simpl; lia|].
    destruct (is_space3 a b c); [|done]. intros [= <-]. simpl. lia.
Qed.

Lemma before_space_shorter s r :
  before_space s = Some r → (length r < length s)%nat.
Proof.
  unfold before_space. destruct s as [|c [|b [|a r3]]]; [done| | |].
  - destruct (is_space c); [|done]. intros [= <-]. simpl. lia.
  - destruct (is_space c); [intros [= <-]; simpl; lia|].
    destruct (is_space2 b c); [|done]. intros [= <-]. simpl. lia.
  - destruct (is_space c); [intros [= <-]; simpl; lia|].
    destruct (is_space2 b c); [intros [= <-]; simpl; lia|].
    destruct (is_space3 a b c); [|done]. intros [= <-]. simpl. lia.
Qed.

(** With as many rounds as the text has bytes, no white space is left at
    the end that was stripped. *)
Lemma drop_spaces_done drop fuel s :
  (∀ s r, drop s = Some r → (length r < length s)%nat) →
  (length s ≤ fuel)%nat →
  drop (drop_spaces drop fuel s) = None.
Proof.
  intros Hdrop. revert s. induction fuel as [|fuel IH]; intros s Hlen; simpl.
  - destruct (drop s) as [r|] eqn:Hr; [|done].
    apply Hdrop in Hr. lia.
  - destruct (drop s) as [r|] eqn:Hr; [|done].
    apply IH. apply Hdrop in Hr. lia.
Qed.

Lemma lstrip_done s :
  after_space (String.list_ascii_of_string (lstrip s)) = None.
Proof.
  unfold lstrip. rewrite String.list_ascii_of_string_of_list_ascii.
  apply drop_spaces_done; [apply after_space_shorter|done].
Qed.

Lemma rstrip_done s :
  before_space (rev (String.list_ascii_of_string (rstrip s))) = None.
Proof.
  unfold rstrip. rewrite String.list_ascii_of_string_of_list_ascii.
  rewrite rev_involutive.
  apply drop_spaces_done; [apply before_space_shorter|done].
Qed.

End strip_facts.
